(** * Tomorrow's Movers Screener: the screening and scoring engine

    A shallow embedding of [src/screener.py] (class
    [TomorrowsMoversScreener]): the filter stage [_apply_filters], the
    scoring stage [_calculate_momentum_score] and the summary aggregator
    [get_screening_summary].

    - Numbers are IEEE 754 binary64 values, as in the pandas columns of the
      program ([float64]); they are Rocq's primitive floats, so every
      definition below evaluates.
    - A [DataFrame] is a Python object: methods receive references, some
      allocate new frames ([df[mask]], [df.copy()], [df.sort_values]) and
      one assigns columns in place ([df['col'] = ...]).  The heap of frames
      is threaded through a small state-and-exception monad. *)

From Stdlib Require Import ZArith Floats Lia.
From stdpp Require Import base option list strings pretty sorting.

(** ** Binary64 arithmetic used by the engine *)

Module Float64.

(** [x >= y] and [x > y] of Python and numpy: both are false when either
    side is NaN. *)
Definition geb (x y : float) : bool := PrimFloat.leb y x.
Definition gtb (x y : float) : bool := PrimFloat.ltb y x.

(** C's [rint] in the default rounding mode (to nearest, ties to even):
    values of magnitude at least 2^52 are integers already, smaller ones are
    rounded by adding and subtracting 2^52; the sign of the argument is
    kept, so that [rint (-0.3) = -0.0]. *)
Definition two52 : float := 4503599627370496%float.

Definition rint (x : float) : float :=
  if PrimFloat.ltb (PrimFloat.abs x) two52 then
    let r := ((PrimFloat.abs x + two52) - two52)%float in
    if get_sign x then (- r)%float else r
  else x.

(** numpy's [round(x, decimals)] at [decimals = 2], which both
    [Series.round(2)] and [round(np.float64, 2)] compute:
    [rint(x * 100.0) / 100.0]. *)
Definition np_round2 (x : float) : float := (rint (x * 100) / 100)%float.

(** [float(n)] for a count of rows. *)
Definition of_nat (n : nat) : float :=
  PrimFloat.of_uint63 (Uint63.of_Z (Z.of_nat n)).

(** [SFcompare] orders the values that are not NaN; [rank] sends each of
    them to a triple of integers whose lexicographic order is that order. *)
Definition rank (x : spec_float) : option (Z * Z * Z) :=
  match x with
  | S754_nan => None
  | S754_infinity true => Some (-2, 0, 0)%Z
  | S754_finite true m e => Some (-1, - e, Z.neg m)%Z
  | S754_zero _ => Some (0, 0, 0)%Z
  | S754_finite false m e => Some (1, e, Z.pos m)%Z
  | S754_infinity false => Some (2, 0, 0)%Z
  end.

Definition lex_compare (a b : Z * Z * Z) : comparison :=
  let '(a1, a2, a3) := a in
  let '(b1, b2, b3) := b in
  match (a1 ?= b1)%Z with
  | Eq => match (a2 ?= b2)%Z with Eq => (a3 ?= b3)%Z | c => c end
  | c => c
  end.

(** The comparison of two floats, read off their ranks. *)
Definition cmp (x y : float) : option comparison :=
  match rank (Prim2SF x), rank (Prim2SF y) with
  | Some a, Some b => Some (lex_compare a b)
  | _, _ => None
  end.

End Float64.

(** ** Data model

    One row of the snapshot table.  [label] is the row's index label, which
    pandas carries through selection and sorting.  The two derived columns
    are absent ([None]) until the scoring stage assigns them. *)

Record Row := mkRow {
  label : nat;
  symbol : string;
  current_price : float;
  price_change_1d : float;
  price_change_7d : float;
  volume_24h : Z;
  avg_volume_7d : Z;
  volume_ratio : float;
  trend_consistency : option float;
  momentum_score : option float
}.

Definition set_price_change_1d (v : float) (r : Row) : Row :=
  mkRow (label r) (symbol r) (current_price r) v (price_change_7d r)
    (volume_24h r) (avg_volume_7d r) (volume_ratio r)
    (trend_consistency r) (momentum_score r).

Definition set_price_change_7d (v : float) (r : Row) : Row :=
  mkRow (label r) (symbol r) (current_price r) (price_change_1d r) v
    (volume_24h r) (avg_volume_7d r) (volume_ratio r)
    (trend_consistency r) (momentum_score r).

Definition set_volume_ratio (v : float) (r : Row) : Row :=
  mkRow (label r) (symbol r) (current_price r) (price_change_1d r)
    (price_change_7d r) (volume_24h r) (avg_volume_7d r) v
    (trend_consistency r) (momentum_score r).

Definition set_trend_consistency (v : float) (r : Row) : Row :=
  mkRow (label r) (symbol r) (current_price r) (price_change_1d r)
    (price_change_7d r) (volume_24h r) (avg_volume_7d r) (volume_ratio r)
    (Some v) (momentum_score r).

Definition set_momentum_score (v : float) (r : Row) : Row :=
  mkRow (label r) (symbol r) (current_price r) (price_change_1d r)
    (price_change_7d r) (volume_24h r) (avg_volume_7d r) (volume_ratio r)
    (trend_consistency r) (Some v).

(** The [float64] columns the engine reads or assigns, each with its name
    (for [KeyError]), its reader and its writer. *)
Record Column := mkColumn {
  name : string;
  get : Row → option float;
  set : float → Row → Row
}.

Definition col_volume_ratio : Column :=
  mkColumn "volume_ratio" (λ r, Some (volume_ratio r)) set_volume_ratio.
Definition col_price_change_1d : Column :=
  mkColumn "price_change_1d" (λ r, Some (price_change_1d r)) set_price_change_1d.
Definition col_price_change_7d : Column :=
  mkColumn "price_change_7d" (λ r, Some (price_change_7d r)) set_price_change_7d.
Definition col_trend_consistency : Column :=
  mkColumn "trend_consistency" trend_consistency set_trend_consistency.
Definition col_momentum_score : Column :=
  mkColumn "momentum_score" momentum_score set_momentum_score.

(** A frame is the list of its rows, in order; the heap holds the frames
    that are alive, a reference is a position in it. *)
Abbreviation DataFrame := (list Row).
Abbreviation ref := nat (only parsing).
Abbreviation heap := (list (list Row)).

(** ** Python's object store, as a state-and-exception monad *)

Inductive exn :=
  | KeyError (column : string)
  | ValueError
  | ReferenceError.

Inductive outcome (A : Type) :=
  | Ret (a : A)
  | Raise (e : exn).
Arguments Ret {A} a.
Arguments Raise {A} e.

Definition M (A : Type) : Type := heap → outcome A * heap.

Global Instance M_ret : MRet M := λ A a h, (Ret a, h).

Global Instance M_bind : MBind M := λ A B f m h,
  match m h with
  | (Ret a, h') => f a h'
  | (Raise e, h') => (Raise e, h')
  end.

Definition raise {A} (e : exn) : M A := λ h, (Raise e, h).

(** Reading the object behind a reference, overwriting it in place, and
    allocating a new object. *)
Definition load (df : ref) : M DataFrame := λ h,
  match h !! df with
  | Some rows => (Ret rows, h)
  | None => (Raise ReferenceError, h)
  end.

Definition store (df : ref) (rows : DataFrame) : M unit := λ h,
  (Ret (), <[df := rows]> h).

Definition new (rows : DataFrame) : M ref := λ h,
  (Ret (length h), h ++ [rows]).

(** ** The pandas operations the engine uses *)

Module Series.

(** Element-wise arithmetic and comparisons of [float64] series. *)
Definition mul (a b : list float) : list float := zip_with PrimFloat.mul a b.
Definition abs (a : list float) : list float := PrimFloat.abs <$> a.
Definition round2 (a : list float) : list float := Float64.np_round2 <$> a.
Definition gt (a : list float) (c : float) : list bool :=
  (λ x, Float64.gtb x c) <$> a.
Definition lt (a : list float) (c : float) : list bool :=
  (λ x, PrimFloat.ltb x c) <$> a.
Definition ge (a : list float) (c : float) : list bool :=
  (λ x, Float64.geb x c) <$> a.
Definition le (a : list float) (c : float) : list bool :=
  (λ x, PrimFloat.leb x c) <$> a.
Definition and (a b : list bool) : list bool := zip_with andb a b.

(** numpy's sum of a [float64] array, which [ndarray.sum] computes with
    [DOUBLE_pairwise_sum].  Fewer than eight values are added one after the
    other, from the first one on.  Up to 128 values go through eight
    accumulators: the first eight values start them, every further full
    group of eight values is added to them position by position, then the
    accumulators are added in pairs and the values left over are added to
    the result one after the other. *)
Fixpoint unrolled_sum (r0 r1 r2 r3 r4 r5 r6 r7 : float) (a : list float) :
    float :=
  match a with
  | a0 :: a1 :: a2 :: a3 :: a4 :: a5 :: a6 :: a7 :: a' =>
      unrolled_sum (r0 + a0) (r1 + a1) (r2 + a2) (r3 + a3)
        (r4 + a4) (r5 + a5) (r6 + a6) (r7 + a7) a'
  | rest =>
      foldl PrimFloat.add
        (((r0 + r1) + (r2 + r3)) + ((r4 + r5) + (r6 + r7)))%float rest
  end.

Definition block_sum (a : list float) : float :=
  match a with
  | a0 :: a1 :: a2 :: a3 :: a4 :: a5 :: a6 :: a7 :: a' =>
      unrolled_sum a0 a1 a2 a3 a4 a5 a6 a7 a'
  | x :: a' => foldl PrimFloat.add x a'
  | [] => 0%float
  end.

(** More than 128 values are cut in two, the first part of [n / 2] values
    less the remainder of that number by eight, and the sums of the two
    parts are added.  [depth] bounds the number of cuts; a depth of the
    array's length is never used up (lemma [pairwise_sum_depth] below). *)
Fixpoint pairwise_sum (depth : nat) (a : list float) : float :=
  match depth with
  | 0 => block_sum a
  | S depth' =>
      let n := length a in
      if n <=? 128 then block_sum a
      else
        let n2 := n / 2 - (n / 2) mod 8 in
        (pairwise_sum depth' (take n2 a) +
         pairwise_sum depth' (drop n2 a))%float
  end.

Definition DOUBLE_pairwise_sum (a : list float) : float :=
  pairwise_sum (length a) a.

(** The sum of an array: the reduction starts from the identity of the
    addition, 0.0, and adds the pairwise sum of the whole array to it. *)
Definition np_sum (xs : list float) : float :=
  (0 + DOUBLE_pairwise_sum xs)%float.

(** [Series.mean()], which skips NaN: the sum of the values with NaN
    replaced by zero, over the count of the values that are not NaN; NaN
    when there is none. *)
Definition mean (xs : list float) : float :=
  let count := length (filter (λ x, negb (is_nan x)) xs) in
  let the_sum := np_sum ((λ x, if is_nan x then 0%float else x) <$> xs) in
  if bool_decide (0 < count) then (the_sum / Float64.of_nat count)%float
  else nan.

End Series.

Module Frame.

(** [len(df)]. *)
Definition len (df : ref) : M nat := rows ← load df; mret (length rows).

(** [df[col]]: the column as a series; [KeyError] when the frame has rows
    and lacks the column. *)
Definition getitem (col : Column) (df : ref) : M (list float) :=
  rows ← load df;
  match mapM (get col) rows with
  | Some xs => mret xs
  | None => raise (KeyError (name col))
  end.

(** The rows at the positions where the mask is true. *)
Fixpoint select (mask : list bool) (rows : DataFrame) : DataFrame :=
  match mask, rows with
  | b :: mask', r :: rows' =>
      if b then r :: select mask' rows' else select mask' rows'
  | _, _ => []
  end.

(** [df[mask]]: a new frame with the selected rows. *)
Definition getitem_mask (df : ref) (mask : list bool) : M ref :=
  rows ← load df;
  if bool_decide (length mask = length rows) then new (select mask rows)
  else raise ValueError.

(** [df.copy()]. *)
Definition copy (df : ref) : M ref := rows ← load df; new rows.

(** [df[col] = v] with a scalar: the column is assigned in place. *)
Definition setitem_scalar (col : Column) (df : ref) (v : float) : M unit :=
  rows ← load df; store df (set col v <$> rows).

(** [df[col] = values] with a series over the same index. *)
Definition setitem (col : Column) (df : ref) (values : list float) : M unit :=
  rows ← load df;
  if bool_decide (length values = length rows)
  then store df (zip_with (set col) values rows)
  else raise ValueError.

(** [df.loc[mask, col] = v]: the column is assigned in place where the mask
    is true. *)
Definition loc_setitem (col : Column) (df : ref) (mask : list bool)
    (v : float) : M unit :=
  rows ← load df;
  if bool_decide (length mask = length rows)
  then store df (zip_with (λ (b : bool) r, if b then set col v r else r) mask rows)
  else raise ValueError.

(** numpy's [argsort] on the keys, as an ascending sort of keyed items.
    numpy's default sort is not stable: which of two items with equal keys
    comes first depends on the length of the array and on the build of
    numpy.  The model takes the order of a stable sort (insertion sort); no
    statement below depends on that choice: sorted rows are described up
    to their order, and their order through the scores only. *)
Fixpoint insert_key {A} (x : float * A) (l : list (float * A)) :
    list (float * A) :=
  match l with
  | [] => [x]
  | y :: l' =>
      if PrimFloat.leb x.1 y.1 then x :: y :: l' else y :: insert_key x l'
  end.

Fixpoint argsort {A} (l : list (float * A)) : list (float * A) :=
  match l with
  | [] => []
  | x :: l' => insert_key x (argsort l')
  end.

(** pandas' [nargsort] with [ascending=False] and [na_position='last']: the
    items whose key is not NaN are reversed, sorted in ascending order and
    reversed again; the items whose key is NaN follow, in their order. *)
Definition nargsort_desc {A} (items : list (float * A)) : list (float * A) :=
  let non_nans := filter (λ p, negb (is_nan p.1)) items in
  let nans := filter (λ p, is_nan p.1) items in
  reverse (argsort (reverse non_nans)) ++ nans.

(** [df.sort_values(col, ascending=False)]: a new frame, with the rows
    taken in the order [nargsort] gives for the keys. *)
Definition sort_values_desc (col : Column) (df : ref) : M ref :=
  keys ← getitem col df;
  rows ← load df;
  new (nargsort_desc (zip keys rows)).*2.

End Frame.

(** ** The screener *)

Inductive MarketDataProvider := MockDataProvider | OpenBBDataProvider.

Record TomorrowsMoversScreener := mkScreener {
  data_provider : option MarketDataProvider
}.

(** A number of a summary: Python's [int] or a [float64]. *)
Inductive pynum :=
  | PyInt (n : Z)
  | PyFloat (x : float).

Record Summary := mkSummary {
  total_found : nat;
  avg_volume_ratio : pynum;
  avg_momentum_score : pynum;
  top_categories : list string
}.

Definition bullish_line (n : nat) : string :=
  "Bullish Momentum: " +:+ pretty n +:+ " assets".
Definition bearish_line (n : nat) : string :=
  "Bearish Momentum: " +:+ pretty n +:+ " assets".

Module Screener.
Import Frame.

(** [_apply_filters]: apply the screening filters to the frame. *)
Definition _apply_filters (self : TomorrowsMoversScreener) (df : ref)
    (min_volume_ratio min_price_change_1d max_price_change_1d : float) : M ref :=
  vr ← getitem col_volume_ratio df;
  df ← getitem_mask df (Series.ge vr min_volume_ratio);
  pc_lo ← getitem col_price_change_1d df;
  pc_hi ← getitem col_price_change_1d df;
  df ← getitem_mask df
         (Series.and (Series.ge pc_lo min_price_change_1d)
                     (Series.le pc_hi max_price_change_1d));
  copy df.

(** [_calculate_momentum_score]: the momentum score of every row, and the
    frame sorted by it. *)
Definition _calculate_momentum_score (self : TomorrowsMoversScreener)
    (df : ref) : M ref :=
  n ← len df;
  if Nat.eqb n 0 then mret df
  else
    setitem_scalar col_trend_consistency df 1%float;;
    pc1 ← getitem col_price_change_1d df;
    pc7 ← getitem col_price_change_7d df;
    let same_direction := Series.gt (Series.mul pc1 pc7) 0%float in
    loc_setitem col_trend_consistency df same_direction 1.5%float;;
    vr ← getitem col_volume_ratio df;
    pc1 ← getitem col_price_change_1d df;
    tc ← getitem col_trend_consistency df;
    setitem col_momentum_score df
      (Series.round2 (Series.mul (Series.mul vr (Series.abs pc1)) tc));;
    df ← sort_values_desc col_momentum_score df;
    mret df.

(** [get_screening_summary]: a summary of the screening results. *)
Definition get_screening_summary (self : TomorrowsMoversScreener)
    (df : ref) : M Summary :=
  n ← len df;
  if Nat.eqb n 0 then
    mret (mkSummary 0 (PyInt 0) (PyInt 0) [])
  else
    pc ← getitem col_price_change_1d df;
    bullish ← getitem_mask df (Series.gt pc 0%float);
    pc ← getitem col_price_change_1d df;
    bearish ← getitem_mask df (Series.lt pc 0%float);
    let categories : list string := [] in
    n_bullish ← len bullish;
    let categories :=
      if bool_decide (0 < n_bullish)
      then categories ++ [bullish_line n_bullish] else categories in
    n_bearish ← len bearish;
    let categories :=
      if bool_decide (0 < n_bearish)
      then categories ++ [bearish_line n_bearish] else categories in
    total ← len df;
    vr ← getitem col_volume_ratio df;
    ms ← getitem col_momentum_score df;
    mret (mkSummary total
            (PyFloat (Float64.np_round2 (Series.mean vr)))
            (PyFloat (Float64.np_round2 (Series.mean ms)))
            categories).

(** The two stages in sequence, as [screen_movers] runs them on the table
    the data provider returned. *)
Definition screen (self : TomorrowsMoversScreener) (df : ref)
    (min_volume_ratio min_price_change_1d max_price_change_1d : float) : M ref :=
  filtered_df ← _apply_filters self df min_volume_ratio
                   min_price_change_1d max_price_change_1d;
  _calculate_momentum_score self filtered_df.

End Screener.

(** ** Vocabulary of the statements *)

(** The inclusion rule of the filter stage, on one row. *)
Definition keeps (min_volume_ratio min_price_change_1d max_price_change_1d : float)
    (r : Row) : bool :=
  Float64.geb (volume_ratio r) min_volume_ratio &&
  (Float64.geb (price_change_1d r) min_price_change_1d &&
   PrimFloat.leb (price_change_1d r) max_price_change_1d).

(** Example tables: the rows of the specification's scenarios. *)
Definition a_screener : TomorrowsMoversScreener := mkScreener None.

Definition row_same_direction : Row :=
  mkRow 0 "AAPL" 190.5 5 10 3000 1000 3 None None.
Definition row_opposite_direction : Row :=
  mkRow 1 "MSFT" 410.25 5 (-10) 3000 1000 3 None None.
Definition row_quiet : Row :=
  mkRow 2 "BTC-USD" 64000 1.5 2 1000 1000 1 None None.
Definition row_bearish : Row :=
  mkRow 3 "ETH-USD" 3100 (-3) (-1) 2500 1000 2.5 None None.
Definition row_flat : Row :=
  mkRow 4 "TSLA" 250 0 4 2000 1000 2 None None.

Definition a_table : DataFrame :=
  [row_quiet; row_bearish; row_flat; row_same_direction; row_opposite_direction].
Definition a_heap : heap := [a_table].

(** What the scoring stage assigns to one row: the trend multiplier, the
    momentum score, and the row with both columns set. *)
Definition trend_of (r : Row) : float :=
  if Float64.gtb (price_change_1d r * price_change_7d r)%float 0%float
  then 1.5%float else 1%float.

Definition score_of (r : Row) : float :=
  Float64.np_round2
    (volume_ratio r * PrimFloat.abs (price_change_1d r) * trend_of r)%float.

Definition scored (r : Row) : Row :=
  set_momentum_score (score_of r) (set_trend_consistency (trend_of r) r).

(** "Non-increasing" for two scores, the first of an earlier row: the later
    score is not above the earlier one, and it is at most the earlier one
    unless it is NaN ([sort_values] puts NaN keys last). *)
Definition non_increasing (s1 s2 : float) : Prop :=
  PrimFloat.ltb s1 s2 = false ∧
  (is_nan s2 = false → PrimFloat.leb s2 s1 = true).

Definition score_non_increasing (r1 r2 : Row) : Prop :=
  ∃ s1 s2, momentum_score r1 = Some s1 ∧ momentum_score r2 = Some s2 ∧
           non_increasing s1 s2.

(** The same on keyed items, as [nargsort_desc] sorts them. *)
Definition key_le {A} (x y : float * A) : Prop :=
  PrimFloat.leb x.1 y.1 = true.
Definition key_not_nan {A} (x : float * A) : Prop := is_nan x.1 = false.
Definition key_non_increasing {A} (x y : float * A) : Prop :=
  non_increasing x.1 y.1.

(** The rows the summary counts as bullish and as bearish. *)
Definition bullish_rows (rows : DataFrame) : DataFrame :=
  filter (λ r, Float64.gtb (price_change_1d r) 0%float) rows.
Definition bearish_rows (rows : DataFrame) : DataFrame :=
  filter (λ r, PrimFloat.ltb (price_change_1d r) 0%float) rows.

Definition a_scored_table : DataFrame := scored <$> a_table.
Definition a_scored_heap : heap := [a_scored_table].

(** ** The application's helpers ([src/app.py]) *)

Module App.
Import Frame.

(** [apply_screening_filters]: the two filters written out on the raw
    table, then the scoring stage on a copy of what they keep. *)
Definition apply_screening_filters (raw_data_df : ref)
    (min_volume_ratio min_price_change_1d max_price_change_1d : float) : M ref :=
  let screener := mkScreener None in
  vr ← getitem col_volume_ratio raw_data_df;
  filtered_df ← getitem_mask raw_data_df (Series.ge vr min_volume_ratio);
  pc_lo ← getitem col_price_change_1d filtered_df;
  pc_hi ← getitem col_price_change_1d filtered_df;
  filtered_df ← getitem_mask filtered_df
                  (Series.and (Series.ge pc_lo min_price_change_1d)
                              (Series.le pc_hi max_price_change_1d));
  copied ← copy filtered_df;
  filtered_df ← Screener._calculate_momentum_score screener copied;
  mret filtered_df.

(** [get_screening_summary]: the summary, from a screener with no provider. *)
Definition get_screening_summary (results_df : ref) : M Summary :=
  let screener := mkScreener None in
  Screener.get_screening_summary screener results_df.

(** The screening step of [main]: the results, then their summary. *)
Definition screen_and_summarise (raw_data_df : ref)
    (min_volume_ratio : float) (price_range : float * float) :
    M (ref * Summary) :=
  results_df ← apply_screening_filters raw_data_df min_volume_ratio
                  price_range.1 price_range.2;
  summary ← get_screening_summary results_df;
  mret (results_df, summary).

End App.

(** The mirror image of a row: the same move in the other direction, both
    price changes negated. *)
Definition mirror (r : Row) : Row :=
  set_price_change_7d (- price_change_7d r)%float
    (set_price_change_1d (- price_change_1d r)%float r).

(** A scored table of eight rows, the shortest that numpy adds in pairs:
    each row has the given volume ratio, which is also its score. *)
Definition eight_ratios : list float :=
  [1.33; 9.61; 7.89; 1.72; 1.85; 9.88; 1.17; 5.63]%float.

Definition eight_rows : DataFrame :=
  imap (λ i v, mkRow i "AAPL" 100 1 1 1000 1000 v (Some 1%float) (Some v))
    eight_ratios.

(** ** Python's numbers and strings, as the provider and the display use them *)

Module Python.

(** Exceptions by class, with their message; [FrameError] carries an
    exception of the frame operations. *)
Inductive exc_class :=
  | CValueError
  | COverflowError
  | CZeroDivisionError
  | CAttributeError
  | CConnectionError
  | CIndexError
  | CException.

Inductive pyexc :=
  | PyExc (cls : exc_class) (msg : string)
  | FrameError (e : exn).

Inductive result (A : Type) :=
  | Ok (a : A)
  | Err (e : pyexc).
Arguments Ok {A} a.
Arguments Err {A} e.

Global Instance result_ret : MRet result := λ A a, Ok a.
Global Instance result_bind : MBind result := λ A B f m,
  match m with
  | Ok a => f a
  | Err e => Err e
  end.

(** [str(e)] of an exception raised with one message. *)
Definition str_of_exc (e : pyexc) : string :=
  match e with
  | PyExc _ msg => msg
  | FrameError (KeyError column) => "'" +:+ column +:+ "'"
  | FrameError _ => ""
  end.

(** The integer nearest to [n / d], ties to the even one ([0 <= n],
    [0 < d]). *)
Definition rhe_div (n d : Z) : Z :=
  let '(q, r) := Z.div_eucl n d in
  match (2 * r ?= d)%Z with
  | Lt => q
  | Gt => (q + 1)%Z
  | Eq => if Z.even q then q else (q + 1)%Z
  end.

(** The integer nearest to [m * 2^e * k], ties to even: the decimal digits
    of a correctly rounded conversion. *)
Definition scaled_nearest (m : positive) (e : Z) (k : Z) : Z :=
  if (0 <=? e)%Z then (Z.pos m * 2 ^ e * k)%Z
  else rhe_div (Z.pos m * k) (2 ^ (- e)).

(** The built-in [round(x, 2)] on a [float]: the value is converted to the
    correctly rounded decimal with two places, and that decimal to the
    nearest [float]; NaN and the infinities round to themselves. *)
Definition round2 (x : float) : float :=
  match Prim2SF x with
  | S754_finite s m e =>
      match scaled_nearest m e 100 with
      | Z.pos n =>
          SF2Prim (SFdiv prec emax (S754_finite s n 0) (S754_finite false 100 0))
      | _ => SF2Prim (S754_zero s)
      end
  | _ => x
  end.

(** [int(x)] on a [float]: truncation toward zero; [ValueError] on NaN,
    [OverflowError] on an infinity. *)
Definition int (x : float) : result Z :=
  match Prim2SF x with
  | S754_nan => Err (PyExc CValueError "cannot convert float NaN to integer")
  | S754_infinity _ =>
      Err (PyExc COverflowError "cannot convert float infinity to integer")
  | S754_zero _ => Ok 0%Z
  | S754_finite s m e =>
      let a := if (0 <=? e)%Z then (Z.pos m * 2 ^ e)%Z
               else (Z.pos m / 2 ^ (- e))%Z in
      Ok (if s then (- a)%Z else a)
  end.

(** The characters [,], [.] and [0]. *)
Definition comma_char : Ascii.ascii := Ascii.ascii_of_nat 44.
Definition point_char : Ascii.ascii := Ascii.ascii_of_nat 46.
Definition zero_char : Ascii.ascii := Ascii.ascii_of_nat 48.

(** Digits in groups of three, from the right (the list is reversed). *)
Fixpoint group3 (digits : list Ascii.ascii) : list Ascii.ascii :=
  match digits with
  | a :: b :: c :: ((_ :: _) as rest) =>
      a :: b :: c :: comma_char :: group3 rest
  | _ => digits
  end.

(** The digits of [n / 10^decimals], with the decimal point. *)
Definition render (comma : bool) (decimals : nat) (n : Z) : string :=
  let ds := String.list_ascii_of_string (pretty (Z.to_N n)) in
  let ds := replicate (S decimals - length ds) zero_char ++ ds in
  let int_part := take (length ds - decimals) ds in
  let frac_part := drop (length ds - decimals) ds in
  let int_part :=
    if comma then reverse (group3 (reverse int_part)) else int_part in
  String.string_of_list_ascii
    (int_part ++ (if decide (decimals = 0) then [] else point_char :: frac_part)).

(** [format(x, spec)] for the specs [.Nf], [+.Nf] and [,.Nf]: the sign, then
    the correctly rounded decimal with [N] places. *)
Definition format_f (plus comma : bool) (decimals : nat) (x : float) : string :=
  let sign (s : bool) := if s then "-" else if plus then "+" else "" in
  match Prim2SF x with
  | S754_nan => sign false +:+ "nan"
  | S754_infinity s => sign s +:+ "inf"
  | S754_zero s => sign s +:+ render comma decimals 0
  | S754_finite s m e =>
      sign s +:+
      render comma decimals (scaled_nearest m e (10 ^ Z.of_nat decimals))
  end.

(** [l[:limit]]: the first [limit] items, or all but the last [-limit]. *)
Definition slice_to {A} (limit : Z) (l : list A) : list A :=
  if (0 <=? limit)%Z then take (Z.to_nat limit) l
  else take (Z.to_nat (Z.of_nat (length l) + limit)) l.

(** [s.upper()] on ASCII text. *)
Definition upper_char (c : Ascii.ascii) : Ascii.ascii :=
  let n := Ascii.nat_of_ascii c in
  if bool_decide (97 ≤ n ≤ 122) then Ascii.ascii_of_nat (n - 32) else c.

Fixpoint upper (s : string) : string :=
  match s with
  | EmptyString => EmptyString
  | String c s' => String (upper_char c) (upper s')
  end.

(** [q in s]: [q] occurs in [s]. *)
Fixpoint contains (q s : string) : bool :=
  String.prefix q s ||
  match s with
  | EmptyString => false
  | String _ s' => contains q s'
  end.

End Python.

(** ** The configuration ([src/config.py]) *)

Module Config.

Definition STOCK_SYMBOLS : list string :=
  ["AAPL"; "MSFT"; "GOOGL"; "AMZN"; "META"; "NVDA"; "NFLX"; "ORCL";
   "CRM"; "ADBE"; "SNOW"; "PLTR"; "ZM"; "DOCU"; "TWLO"; "AMD"; "INTC";
   "PYPL"; "SQ"; "COIN"; "HOOD"; "UBER"; "ABNB"; "TSLA"; "ROKU"; "PINS";
   "SNAP"; "SPOT"; "RBLX"; "SHOP"].

Definition CRYPTO_SYMBOLS : list string :=
  ["BTC-USD"; "ETH-USD"].

Definition DEFAULT_DATA_PROVIDER : string := "openbb".

End Config.

(** ** The data providers ([src/data_provider.py]) *)

(** A bar of a price history, and what the outside world supplies: for the
    OpenBB provider, the history [_get_historical_data] obtains for a symbol
    ([None] when the request fails or returns nothing); for the mock
    provider, the numbers drawn from [random] for the symbol at each
    position. *)
Record Bar := mkBar {
  close : float;
  volume : float
}.

Record MockDraw := mkMockDraw {
  draw_base_price : float;
  draw_price_change_1d : float;
  draw_delta_7d : float;
  draw_base_volume : float;
  draw_volume_multiplier : float
}.

Record World := mkWorld {
  obb_historical : string → option (list Bar);
  random_draws : nat → MockDraw
}.

(** One record of market data, as the providers build it. *)
Record MarketData := mkMarketData {
  md_symbol : string;
  md_current_price : float;
  md_price_change_1d : float;
  md_price_change_7d : float;
  md_volume_24h : Z;
  md_avg_volume_7d : Z;
  md_volume_ratio : float
}.

(** A symbol found by a search. *)
Record SymbolInfo := mkSymbolInfo {
  info_symbol : string;
  info_name : string
}.

(** Effects of the provider and the application: the heap of frames, and
    Python's exceptions. *)
Definition IO (A : Type) : Type := heap → Python.result A * heap.

Global Instance IO_ret : MRet IO := λ A a h, (Python.Ok a, h).

Global Instance IO_bind : MBind IO := λ A B f m h,
  match m h with
  | (Python.Ok a, h') => f a h'
  | (Python.Err e, h') => (Python.Err e, h')
  end.

Definition io_raise {A} (e : Python.pyexc) : IO A := λ h, (Python.Err e, h).

Definition io_result {A} (r : Python.result A) : IO A := λ h, (r, h).

Definition lift {A} (m : M A) : IO A := λ h,
  match m h with
  | (Ret a, h') => (Python.Ok a, h')
  | (Raise e, h') => (Python.Err (Python.FrameError e), h')
  end.

Module Provider.
Import Python.

(** [pd.DataFrame(data)]: one row per record, labelled by its position. *)
Definition row_of (i : nat) (d : MarketData) : Row :=
  mkRow i (md_symbol d) (md_current_price d) (md_price_change_1d d)
    (md_price_change_7d d) (md_volume_24h d) (md_avg_volume_7d d)
    (md_volume_ratio d) None None.

Definition DataFrame_of (data : list MarketData) : IO ref :=
  lift (new (imap row_of data)).

(** Python's [a / b] on floats. *)
Definition truediv (a b : float) : result float :=
  if is_zero b then Err (PyExc CZeroDivisionError "float division by zero")
  else Ok (a / b)%float.

(** *** [MockDataProvider] *)

Definition mock_symbols : list string :=
  Config.STOCK_SYMBOLS ++ Config.CRYPTO_SYMBOLS.

(** The record of one symbol, from the numbers drawn for it. *)
Definition mock_record (symbol : string) (d : MockDraw) : result MarketData :=
  let base_price := draw_base_price d in
  let price_change_1d := draw_price_change_1d d in
  let price_change_7d := (price_change_1d + draw_delta_7d d)%float in
  let base_volume := draw_base_volume d in
  let volume_multiplier := draw_volume_multiplier d in
  let current_volume := (base_volume * volume_multiplier)%float in
  volume_24h ← int current_volume;
  avg_volume_7d ← int base_volume;
  ratio ← truediv current_volume base_volume;
  mret (mkMarketData symbol (round2 base_price) (round2 price_change_1d)
          (round2 price_change_7d) volume_24h avg_volume_7d (round2 ratio)).

Definition mock_get_market_data (w : World) (symbols : list string) : IO ref :=
  data ← io_result
            (mapM (λ '(i, symbol), mock_record symbol (random_draws w i))
                  (zip (seq 0 (length symbols)) symbols));
  DataFrame_of data.

Definition mock_search_symbols (query : string) (limit : Z) : list SymbolInfo :=
  let matches :=
    filter (λ s, contains (upper query) (upper s)) mock_symbols in
  (λ s, mkSymbolInfo s (s +:+ " Mock Company")) <$> slice_to limit matches.

Definition mock_get_top_symbols (limit : Z) : list string :=
  slice_to limit mock_symbols.

(** *** [OpenBBDataProvider] *)

Definition stock_symbols : list string := Config.STOCK_SYMBOLS.
Definition crypto_symbols : list string := Config.CRYPTO_SYMBOLS.

Definition insufficient (symbol : string) (need got : nat) : string :=
  "Insufficient historical data for " +:+ symbol +:+ ". Need at least " +:+
  pretty need +:+ " days, got " +:+ pretty got.

(** [historical_data.iloc[-k]], for [1 <= k <= len(historical_data)]. *)
Definition iloc_last (k : nat) (historical_data : list Bar) : option Bar :=
  historical_data !! (length historical_data - k).

(** [historical_data.tail(k)]. *)
Definition tail (k : nat) (historical_data : list Bar) : list Bar :=
  drop (length historical_data - k) historical_data.

(** [_process_market_data]: the metrics of one symbol from its history. *)
Definition _process_market_data (symbol : string)
    (historical_data : list Bar) : result MarketData :=
  if bool_decide (length historical_data < 2) then
    Err (PyExc CValueError (insufficient symbol 2 (length historical_data)))
  else
    match iloc_last 1 historical_data, iloc_last 2 historical_data with
    | Some latest, Some prev =>
        let latest_close := close latest in
        let prev_close := close prev in
        let price_change_1d :=
          ((latest_close - prev_close) / prev_close * 100)%float in
        if bool_decide (length historical_data < 7) then
          Err (PyExc CValueError
                 (insufficient symbol 7 (length historical_data)))
        else
          match iloc_last 7 historical_data with
          | Some week_ago =>
              let week_ago_close := close week_ago in
              let price_change_7d :=
                ((latest_close - week_ago_close) / week_ago_close * 100)%float in
              let current_volume := volume latest in
              let avg_volume_7d :=
                Series.mean (volume <$> tail 7 historical_data) in
              let volume_ratio := (current_volume / avg_volume_7d)%float in
              volume_24h ← int current_volume;
              avg_volume ← int avg_volume_7d;
              mret (mkMarketData symbol (round2 latest_close)
                      (round2 price_change_1d) (round2 price_change_7d)
                      volume_24h avg_volume (round2 volume_ratio))
          | None => Err (PyExc CIndexError "single positional indexer is out-of-bounds")
          end
    | _, _ => Err (PyExc CIndexError "single positional indexer is out-of-bounds")
    end.

(** [_fetch_symbol_data_async]: [None] without a history, the record
    otherwise; what processing raises is raised again as an [Exception]. *)
Definition _fetch_symbol_data_async (w : World) (symbol : string) :
    result (option MarketData) :=
  match obb_historical w symbol with
  | None => Ok None
  | Some historical_data =>
      match _process_market_data symbol historical_data with
      | Ok d => Ok (Some d)
      | Err e =>
          Err (PyExc CException
                 ("Error processing " +:+ symbol +:+ ": " +:+ str_of_exc e))
      end
  end.

(** The three lists [get_market_data] sorts the gathered results into. *)
Record Gathered := mkGathered {
  data : list MarketData;
  failed_symbols : list string;
  error_symbols : list string
}.

Definition gather_step (acc : Gathered)
    (item : string * result (option MarketData)) : Gathered :=
  let '(symbol, result) := item in
  match result with
  | Err e =>
      mkGathered (data acc) (failed_symbols acc)
        (error_symbols acc ++ [symbol +:+ ": " +:+ str_of_exc e])
  | Ok (Some d) =>
      mkGathered (data acc ++ [d]) (failed_symbols acc) (error_symbols acc)
  | Ok None =>
      mkGathered (data acc) (failed_symbols acc ++ [symbol]) (error_symbols acc)
  end.

Definition gather (w : World) (symbols : list string) : Gathered :=
  let results := _fetch_symbol_data_async w <$> symbols in
  foldl gather_step (mkGathered [] [] []) (zip symbols results).

Definition connection_error_message : string :=
"❌ OpenBB Data Fetch Failed
            
            No market data could be retrieved from OpenBB. This could be due to:
            • Network connectivity issues
            • OpenBB API service problems
            • Rate limiting or authentication issues
            • Invalid symbols or API endpoints
            
            Please check:
            1. Your internet connection
            2. OpenBB service status
            3. Try refreshing the data
            
            If problems persist, you may need to switch to mock data in config.py".

Definition openbb_get_market_data (w : World) (symbols : list string) : IO ref :=
  let g := gather w symbols in
  if Nat.eqb (length (data g)) 0 then
    io_raise (PyExc CConnectionError connection_error_message)
  else DataFrame_of (data g).

Definition openbb_search_symbols (query : string) (limit : Z) : list SymbolInfo :=
  let stock_matches :=
    filter (λ s, contains (upper query) (upper s)) stock_symbols in
  let crypto_matches :=
    filter (λ s, contains (upper query) (upper s)) crypto_symbols in
  let all_matches := stock_matches ++ crypto_matches in
  (λ s, mkSymbolInfo s (s +:+ " (OpenBB)")) <$> slice_to limit all_matches.

Definition openbb_get_top_symbols (limit : Z) : list string :=
  let all_symbols := stock_symbols ++ crypto_symbols in
  slice_to limit all_symbols.

(** *** The interface, by the class of the provider *)

Definition get_market_data (p : MarketDataProvider) (w : World)
    (symbols : list string) : IO ref :=
  match p with
  | MockDataProvider => mock_get_market_data w symbols
  | OpenBBDataProvider => openbb_get_market_data w symbols
  end.

Definition search_symbols (p : MarketDataProvider) (query : string)
    (limit : Z) : list SymbolInfo :=
  match p with
  | MockDataProvider => mock_search_symbols query limit
  | OpenBBDataProvider => openbb_search_symbols query limit
  end.

Definition get_top_symbols (p : MarketDataProvider) (limit : Z) : list string :=
  match p with
  | MockDataProvider => mock_get_top_symbols limit
  | OpenBBDataProvider => openbb_get_top_symbols limit
  end.

(** [create_data_provider]. *)
Definition create_data_provider (provider_type : string) :
    result MarketDataProvider :=
  if String.eqb provider_type "mock" then Ok MockDataProvider
  else if String.eqb provider_type "openbb" then Ok OpenBBDataProvider
  else Err (PyExc CValueError ("Unknown provider type: " +:+ provider_type)).

End Provider.

(** [screen_movers]: the symbols and their market data from the provider,
    then the two stages. *)
Definition screen_movers (self : TomorrowsMoversScreener) (w : World)
    (min_volume_ratio min_price_change_1d max_price_change_1d : float) : IO ref :=
  match data_provider self with
  | None =>
      io_raise (Python.PyExc Python.CAttributeError
                  "'NoneType' object has no attribute 'get_top_symbols'")
  | Some provider =>
      let symbols := Provider.get_top_symbols provider 100 in
      df ← Provider.get_market_data provider w symbols;
      filtered_df ← lift (Screener._apply_filters self df min_volume_ratio
                            min_price_change_1d max_price_change_1d);
      filtered_df ← lift (Screener._calculate_momentum_score self filtered_df);
      mret filtered_df
  end.

(** ** The display table ([format_for_display]) and the page *)

(** One row of the table shown to the user: five texts and the score. *)
Record DisplayRow := mkDisplayRow {
  display_label : nat;
  Symbol : string;
  Price : string;
  Change_1D : string;
  Change_7D : string;
  Volume_Spike : string;
  Momentum_Score : float
}.

Module Display.

(** The f-strings of the four formatted columns. *)
Definition glyph (x : float) : string :=
  if Float64.gtb x 0%float then "📈" else "📉".

Definition format_price (x : float) : string :=
  "$" +:+ Python.format_f false true 2 x.

Definition format_change (x : float) : string :=
  glyph x +:+ " " +:+ Python.format_f true false 1 x +:+ "%".

Definition format_volume_ratio (x : float) : string :=
  Python.format_f false false 1 x +:+ "x".

Definition display_row (r : Row) (score : float) : DisplayRow :=
  mkDisplayRow (label r) (symbol r)
    (format_price (current_price r))
    (format_change (price_change_1d r))
    (format_change (price_change_7d r))
    (format_volume_ratio (volume_ratio r))
    score.

(** [format_for_display]: the six columns of the frame, copied, four of
    them formatted and all renamed.  The display table has other columns
    than a snapshot table; it is returned as a value. *)
Definition format_for_display (self : TomorrowsMoversScreener) (df : ref) :
    M (list DisplayRow) :=
  n ← Frame.len df;
  if Nat.eqb n 0 then mret []
  else
    rows ← load df;
    match mapM momentum_score rows with
    | None => raise (KeyError "['momentum_score'] not in index")
    | Some scores => mret (zip_with display_row rows scores)
    end.

End Display.

Module AppPage.
Import Python.

(** [load_raw_market_data]: the provider of the given type, its symbols and
    their market data. *)
Definition load_raw_market_data (w : World) (provider_type : string) : IO ref :=
  data_provider ← io_result (Provider.create_data_provider provider_type);
  let symbols := Provider.get_top_symbols data_provider 100 in
  Provider.get_market_data data_provider w symbols.

(** [format_for_display], from a screener with no provider. *)
Definition format_for_display (results_df : ref) : M (list DisplayRow) :=
  let screener := mkScreener None in
  Display.format_for_display screener results_df.

(** What [main] puts on the page after the controls. *)
Inductive Page :=
  | ConnectionFailed (message : string)
  | UnexpectedError (message : string)
  | NoResults
  | Results (summary : Summary) (table : list DisplayRow).

(** The body of [main] from the loading of the data on: the raw data, the
    filters and the summary inside [try], with the two [except] clauses;
    then the table when something was found.  An exception outside the
    [try] ends the run. *)
Definition main (w : World) (min_volume_ratio : float)
    (price_range : float * float) : IO Page := λ h,
  let attempt :=
    (raw_data_df ← load_raw_market_data w Config.DEFAULT_DATA_PROVIDER;
     lift (App.screen_and_summarise raw_data_df min_volume_ratio price_range)) h in
  match attempt with
  | (Err (PyExc CConnectionError msg), h') => (Ok (ConnectionFailed msg), h')
  | (Err e, h') => (Ok (UnexpectedError (str_of_exc e)), h')
  | (Ok (results_df, summary), h') =>
      if bool_decide (0 < total_found summary) then
        (display_df ← lift (format_for_display results_df);
         mret (Results summary display_df)) h'
      else (Ok NoResults, h')
  end.

End AppPage.

(** The record a symbol contributes to the OpenBB table, if any: it has a
    history and processing it raises nothing. *)
Definition fetched (w : World) (symbol : string) : option MarketData :=
  match Provider._fetch_symbol_data_async w symbol with
  | Python.Ok (Some d) => Some d
  | _ => None
  end.

(** The line a symbol contributes to the errors of the OpenBB table, if
    any: it has a history and processing it raises. *)
Definition error_line (w : World) (symbol : string) : option string :=
  match obb_historical w symbol with
  | Some historical_data =>
      match Provider._process_market_data symbol historical_data with
      | Python.Err e =>
          Some (symbol +:+ ": Error processing " +:+ symbol +:+ ": " +:+
                Python.str_of_exc e)
      | Python.Ok _ => None
      end
  | None => None
  end.

(** Example histories: ten days with a volume spike, seven days without
    trading, and three days only. *)
Definition bars (l : list (float * float)) : list Bar :=
  (λ p, mkBar p.1 p.2) <$> l.

Definition a_history : list Bar :=
  bars [(100, 1000); (101, 1000); (102, 1000); (103, 1000); (104, 1000);
        (105, 1000); (106, 1000); (107, 1000); (108, 1000);
        (110.5, 3500)]%float.

Definition an_idle_history : list Bar :=
  bars [(100, 0); (101, 0); (102, 0); (103, 0); (104, 0); (105, 0);
        (106, 0)]%float.

Definition a_short_history : list Bar :=
  bars [(100, 10); (101, 10); (102, 10)]%float.

Definition a_world : World :=
  mkWorld
    (λ s, if String.eqb s "AAPL" then Some a_history
          else if String.eqb s "MSFT" then Some an_idle_history
          else if String.eqb s "GOOGL" then Some a_short_history
          else None)
    (λ i, mkMockDraw 123.456 1.234 (-2.5) 1000000.7 1.5).

(** A world in which no request succeeds. *)
Definition an_offline_world : World :=
  mkWorld (λ s, None) (λ i, mkMockDraw 123.456 1.234 (-2.5) 1000000.7 1.5).


(** The symbols of the configuration, stocks first. *)
Definition all_symbols : list string :=
  Config.STOCK_SYMBOLS ++ Config.CRYPTO_SYMBOLS.

(** Text made of ASCII characters only, on which [Python.upper] is
    [str.upper]. *)
Definition ascii_text (s : string) : Prop :=
  Forall (λ c, Ascii.nat_of_ascii c < 128) (String.list_ascii_of_string s).

(** The suffix each provider gives to the name of a symbol it finds. *)
Definition name_suffix (p : MarketDataProvider) : string :=
  match p with
  | MockDataProvider => " Mock Company"
  | OpenBBDataProvider => " (OpenBB)"
  end.

(** Draws from which the mock provider builds a record: the base volume is
    finite and not zero, and so is its product with the multiplier. *)
Definition usable_draw (d : MockDraw) : bool :=
  is_finite (draw_base_volume d) && negb (is_zero (draw_base_volume d)) &&
  is_finite (draw_base_volume d * draw_volume_multiplier d)%float.
(** * Properties *)

(** ** The order of binary64 values *)

Module Float64Facts.
Import Float64.

Lemma SFcompare_rank x y :
  SFcompare x y =
    match rank x, rank y with
    | Some a, Some b => Some (lex_compare a b)
    | _, _ => None
    end.
Proof.
  destruct x as [[]|[]| |[] mx ex], y as [[]|[]| |[] my ey];
    try reflexivity; simpl.
  rewrite Z.compare_opp, (Z.compare_antisym ex ey).
  destruct (ex ?= ey)%Z; reflexivity.
Qed.

Lemma lex_compare_spec a b :
  match lex_compare a b with
  | Eq => a = b
  | Lt => let '(a1, a2, a3) := a in let '(b1, b2, b3) := b in
          (a1 < b1 ∨ (a1 = b1 ∧ (a2 < b2 ∨ (a2 = b2 ∧ a3 < b3))))%Z
  | Gt => let '(a1, a2, a3) := a in let '(b1, b2, b3) := b in
          (b1 < a1 ∨ (a1 = b1 ∧ (b2 < a2 ∨ (a2 = b2 ∧ b3 < a3))))%Z
  end.
Proof.
  destruct a as [[a1 a2] a3], b as [[b1 b2] b3]; simpl.
  destruct (Z.compare_spec a1 b1), (Z.compare_spec a2 b2),
    (Z.compare_spec a3 b3); subst; auto; lia.
Qed.

Lemma leb_cmp x y :
  PrimFloat.leb x y =
    match cmp x y with Some (Lt | Eq) => true | _ => false end.
Proof.
  rewrite FloatAxioms.leb_spec. unfold SFleb, cmp. by rewrite SFcompare_rank.
Qed.

Lemma ltb_cmp x y :
  PrimFloat.ltb x y = match cmp x y with Some Lt => true | _ => false end.
Proof.
  rewrite FloatAxioms.ltb_spec. unfold SFltb, cmp. by rewrite SFcompare_rank.
Qed.

Lemma eqb_cmp x y :
  PrimFloat.eqb x y = match cmp x y with Some Eq => true | _ => false end.
Proof.
  rewrite FloatAxioms.eqb_spec. unfold SFeqb, cmp. by rewrite SFcompare_rank.
Qed.

Lemma is_nan_rank x :
  is_nan x = match rank (Prim2SF x) with None => true | _ => false end.
Proof.
  unfold is_nan. rewrite eqb_cmp. unfold cmp.
  destruct (rank (Prim2SF x)) as [a|]; [|done].
  pose proof (lex_compare_spec a a) as H.
  destruct a as [[a1 a2] a3]. destruct (lex_compare _ _); [done|lia|lia].
Qed.

(** Comparisons are settled on the ranks: case analysis on whether each
    value is NaN, then on the outcome of each comparison, then [lia]. *)
Ltac by_ranks :=
  unfold geb, gtb;
  rewrite ?leb_cmp, ?ltb_cmp, ?eqb_cmp, ?is_nan_rank; unfold cmp;
  repeat match goal with
    | |- context [rank (Prim2SF ?x)] =>
        let r := fresh "r" in
        destruct (rank (Prim2SF x)) as [r|]; try done
    end;
  repeat match goal with
    | a : (Z * Z * Z)%type, b : (Z * Z * Z)%type
      |- context [lex_compare ?a ?b] =>
        let H := fresh "H" in
        pose proof (lex_compare_spec a b) as H;
        destruct (lex_compare a b)
    end;
  repeat match goal with
    | a : (Z * Z * Z)%type |- _ => destruct a as [[? ?] ?]
    end;
  try done; intros;
  repeat match goal with
    | H : (_, _, _) = (_, _, _) |- _ => injection H as -> -> ->
    end;
  try done; try (exfalso; lia).

Lemma leb_trans x y z :
  PrimFloat.leb x y = true → PrimFloat.leb y z = true →
  PrimFloat.leb x z = true.
Proof. by_ranks. Qed.

Lemma leb_leb_not_ltb x y z :
  PrimFloat.leb x y = true → PrimFloat.leb y z = true →
  PrimFloat.ltb z x = false.
Proof. by_ranks. Qed.

Lemma leb_total x y :
  is_nan x = false → is_nan y = false →
  PrimFloat.leb x y = false → PrimFloat.leb y x = true.
Proof. by_ranks. Qed.

Lemma leb_not_ltb x y : PrimFloat.leb x y = true → PrimFloat.ltb y x = false.
Proof. by_ranks. Qed.

Lemma leb_not_nan x y :
  PrimFloat.leb x y = true → is_nan x = false ∧ is_nan y = false.
Proof. by_ranks. Qed.

Lemma ltb_nan_r x y : is_nan y = true → PrimFloat.ltb x y = false.
Proof. by_ranks. Qed.

Lemma eqb_not_ltb x y :
  PrimFloat.eqb x y = true →
  PrimFloat.ltb x y = false ∧ PrimFloat.ltb y x = false.
Proof. by_ranks. Qed.

(** A product with a zero factor is a zero or NaN, never above zero. *)
Lemma mul_zero_not_gt x y :
  is_zero x = true ∨ is_zero y = true → gtb (x * y)%float 0%float = false.
Proof.
  unfold is_zero, gtb. rewrite !FloatAxioms.eqb_spec, FloatAxioms.ltb_spec, mul_spec.
  change (Prim2SF zero) with (S754_zero false).
  change (Prim2SF 0%float) with (S754_zero false).
  destruct (Prim2SF x) as [[]|[]| |[] ? ?], (Prim2SF y) as [[]|[]| |[] ? ?];
    intros [?|?]; done.
Qed.

End Float64Facts.

(** ** numpy's sum *)

Module SumFacts.
Import Series.

(** Short arrays are added from the first value on. *)
Lemma pairwise_sum_short (xs : list float) :
  length xs < 8 →
  DOUBLE_pairwise_sum xs =
    match xs with
    | [] => 0%float
    | x :: xs' => foldl PrimFloat.add x xs'
    end.
Proof.
  intros Hlen.
  do 8 (destruct xs as [|? xs]; [reflexivity|]).
  simpl in Hlen. lia.
Qed.

Lemma np_sum_short (xs : list float) :
  length xs < 8 →
  np_sum xs =
    match xs with
    | [] => 0%float
    | x :: xs' => (0 + foldl PrimFloat.add x xs')%float
    end.
Proof.
  intros Hlen. unfold np_sum. rewrite pairwise_sum_short by done.
  by destruct xs.
Qed.

(** Eight values are added in pairs, and a ninth is added to their sum. *)
Lemma np_sum_eight (a0 a1 a2 a3 a4 a5 a6 a7 : float) :
  np_sum [a0; a1; a2; a3; a4; a5; a6; a7] =
    (0 + (((a0 + a1) + (a2 + a3)) + ((a4 + a5) + (a6 + a7))))%float.
Proof. reflexivity. Qed.

Lemma np_sum_nine (a0 a1 a2 a3 a4 a5 a6 a7 a8 : float) :
  np_sum [a0; a1; a2; a3; a4; a5; a6; a7; a8] =
    (0 + ((((a0 + a1) + (a2 + a3)) + ((a4 + a5) + (a6 + a7))) + a8))%float.
Proof. reflexivity. Qed.

(** Sixteen values: two values in each accumulator. *)
Lemma np_sum_sixteen (a0 a1 a2 a3 a4 a5 a6 a7 b0 b1 b2 b3 b4 b5 b6 b7 : float) :
  np_sum [a0; a1; a2; a3; a4; a5; a6; a7; b0; b1; b2; b3; b4; b5; b6; b7] =
    (0 + ((((a0 + b0) + (a1 + b1)) + ((a2 + b2) + (a3 + b3))) +
          (((a4 + b4) + (a5 + b5)) + ((a6 + b6) + (a7 + b7)))))%float.
Proof. reflexivity. Qed.

(** The length of the first part of a cut. *)
Lemma cut_bounds (n : nat) :
  128 < n → 0 < n / 2 - (n / 2) mod 8 ≤ n / 2 ∧ n / 2 < n.
Proof.
  intros Hn.
  pose proof (Nat.div_mod_eq n 2) as Hdiv.
  pose proof (Nat.mod_upper_bound n 2) as Hmod.
  pose proof (Nat.mod_upper_bound (n / 2) 8) as Hmod8.
  lia.
Qed.

(** A larger depth changes nothing once the depth is enough, and the
    length of the array is enough. *)
Lemma pairwise_sum_step (depth : nat) (a : list float) :
  length a ≤ 128 + depth →
  pairwise_sum (S depth) a = pairwise_sum depth a.
Proof.
  revert a. induction depth as [|depth IH]; intros a Hlen.
  - simpl. by rewrite (proj2 (Nat.leb_le _ _)) by lia.
  - change (pairwise_sum (S (S depth)) a)
      with (if length a <=? 128 then block_sum a
            else (pairwise_sum (S depth)
                    (take (length a / 2 - (length a / 2) mod 8) a) +
                  pairwise_sum (S depth)
                    (drop (length a / 2 - (length a / 2) mod 8) a))%float).
    change (pairwise_sum (S depth) a)
      with (if length a <=? 128 then block_sum a
            else (pairwise_sum depth
                    (take (length a / 2 - (length a / 2) mod 8) a) +
                  pairwise_sum depth
                    (drop (length a / 2 - (length a / 2) mod 8) a))%float).
    destruct (length a <=? 128) eqn:Hle; [done|].
    apply Nat.leb_gt in Hle.
    destruct (cut_bounds (length a) Hle) as [Hcut Hhalf].
    rewrite !IH; [done| |].
    + rewrite length_drop. lia.
    + rewrite length_take. lia.
Qed.

Lemma pairwise_sum_more (k depth : nat) (a : list float) :
  length a ≤ 128 + depth →
  pairwise_sum (depth + k) a = pairwise_sum depth a.
Proof.
  intros Hlen. induction k as [|k IH]; [by rewrite Nat.add_0_r|].
  rewrite <-IH. replace (depth + S k) with (S (depth + k)) by lia.
  apply pairwise_sum_step. lia.
Qed.

Lemma pairwise_sum_depth (depth : nat) (a : list float) :
  length a ≤ 128 + depth → pairwise_sum depth a = DOUBLE_pairwise_sum a.
Proof.
  unfold DOUBLE_pairwise_sum. intros Hlen.
  destruct (decide (depth ≤ length a)) as [Hle|Hgt].
  - replace (pairwise_sum (length a) a)
      with (pairwise_sum (depth + (length a - depth)) a)
      by (f_equal; lia).
    symmetry. by apply pairwise_sum_more.
  - replace (pairwise_sum depth a)
      with (pairwise_sum (length a + (depth - length a)) a)
      by (f_equal; lia).
    apply pairwise_sum_more. lia.
Qed.

(** The two equations of the pairwise sum: at most 128 values are added as
    one block, more are cut in two. *)
Lemma pairwise_sum_block (a : list float) :
  length a ≤ 128 → DOUBLE_pairwise_sum a = block_sum a.
Proof. intros Hlen. by rewrite <-(pairwise_sum_depth 0) by lia. Qed.

Lemma pairwise_sum_cut (a : list float) :
  128 < length a →
  DOUBLE_pairwise_sum a =
    (DOUBLE_pairwise_sum (take (length a / 2 - (length a / 2) mod 8) a) +
     DOUBLE_pairwise_sum (drop (length a / 2 - (length a / 2) mod 8) a))%float.
Proof.
  intros Hlen. destruct (cut_bounds (length a) Hlen) as [Hcut Hhalf].
  rewrite <-(pairwise_sum_depth (S (length a)) a) by lia.
  change (pairwise_sum (S (length a)) a)
    with (if length a <=? 128 then block_sum a
          else (pairwise_sum (length a)
                  (take (length a / 2 - (length a / 2) mod 8) a) +
                pairwise_sum (length a)
                  (drop (length a / 2 - (length a / 2) mod 8) a))%float).
  rewrite (proj2 (Nat.leb_gt _ _)) by lia.
  rewrite !pairwise_sum_depth; [done| |].
  - rewrite length_drop. lia.
  - rewrite length_take. lia.
Qed.

End SumFacts.

(** ** Running the frame operations *)

Module Run.
Import Frame.

Lemma bind_run {A B} (m : M A) (f : A → M B) h a h' :
  m h = (Ret a, h') → (m ≫= f) h = f a h'.
Proof. intros E. unfold mbind, M_bind. by rewrite E. Qed.

Lemma bind_raise {A B} (m : M A) (f : A → M B) h e h' :
  m h = (Raise e, h') → (m ≫= f) h = (Raise e, h').
Proof. intros E. unfold mbind, M_bind. by rewrite E. Qed.

Lemma load_run h df rows : h !! df = Some rows → load df h = (Ret rows, h).
Proof. intros E. unfold load. by rewrite E. Qed.

Lemma len_run h df rows :
  h !! df = Some rows → len df h = (Ret (length rows), h).
Proof. intros E. unfold len. by rewrite (bind_run _ _ _ _ _ (load_run _ _ _ E)). Qed.

Lemma getitem_run col h df rows xs :
  h !! df = Some rows → mapM (get col) rows = Some xs →
  getitem col df h = (Ret xs, h).
Proof.
  intros E Hxs. unfold getitem.
  rewrite (bind_run _ _ _ _ _ (load_run _ _ _ E)). by rewrite Hxs.
Qed.

Lemma getitem_raise col h df rows :
  h !! df = Some rows → mapM (get col) rows = None →
  getitem col df h = (Raise (KeyError (name col)), h).
Proof.
  intros E Hxs. unfold getitem.
  rewrite (bind_run _ _ _ _ _ (load_run _ _ _ E)). by rewrite Hxs.
Qed.

Lemma getitem_mask_run h df rows mask :
  h !! df = Some rows → length mask = length rows →
  getitem_mask df mask h = (Ret (length h), h ++ [select mask rows]).
Proof.
  intros E Hlen. unfold getitem_mask.
  rewrite (bind_run _ _ _ _ _ (load_run _ _ _ E)).
  by rewrite bool_decide_true.
Qed.

Lemma copy_run h df rows :
  h !! df = Some rows → copy df h = (Ret (length h), h ++ [rows]).
Proof. intros E. unfold copy. by rewrite (bind_run _ _ _ _ _ (load_run _ _ _ E)). Qed.

Lemma setitem_scalar_run col h df rows v :
  h !! df = Some rows →
  setitem_scalar col df v h = (Ret (), <[df := set col v <$> rows]> h).
Proof.
  intros E. unfold setitem_scalar.
  by rewrite (bind_run _ _ _ _ _ (load_run _ _ _ E)).
Qed.

Lemma setitem_run col h df rows values :
  h !! df = Some rows → length values = length rows →
  setitem col df values h =
    (Ret (), <[df := zip_with (set col) values rows]> h).
Proof.
  intros E Hlen. unfold setitem.
  rewrite (bind_run _ _ _ _ _ (load_run _ _ _ E)).
  by rewrite bool_decide_true.
Qed.

Lemma loc_setitem_run col h df rows mask v :
  h !! df = Some rows → length mask = length rows →
  loc_setitem col df mask v h =
    (Ret (),
     <[df := zip_with (λ (b : bool) r, if b then set col v r else r) mask rows]> h).
Proof.
  intros E Hlen. unfold loc_setitem.
  rewrite (bind_run _ _ _ _ _ (load_run _ _ _ E)).
  by rewrite bool_decide_true.
Qed.

Lemma sort_values_desc_run col h df rows keys :
  h !! df = Some rows → mapM (get col) rows = Some keys →
  sort_values_desc col df h =
    (Ret (length h), h ++ [(nargsort_desc (zip keys rows)).*2]).
Proof.
  intros E Hkeys. unfold sort_values_desc.
  erewrite bind_run; [|by eapply getitem_run].
  by erewrite bind_run; [|by eapply load_run].
Qed.

(** A frame just allocated sits at the end of the heap; the frames that
    were there are where they were. *)
Lemma lookup_new (h : heap) (rows : DataFrame) :
  (h ++ [rows]) !! length h = Some rows.
Proof. by rewrite list_lookup_middle. Qed.

Lemma lookup_old (h h' : heap) (df : ref) (rows : DataFrame) :
  h !! df = Some rows → (h ++ h') !! df = Some rows.
Proof. intros E. rewrite lookup_app_l; [done|]. by eapply lookup_lt_Some. Qed.

Lemma lookup_stored (h : heap) (df : ref) (rows rows' : DataFrame) :
  h !! df = Some rows → <[df := rows']> h !! df = Some rows'.
Proof. intros E. apply list_lookup_insert_eq. by eapply lookup_lt_Some. Qed.

(** Columns of a frame whose rows are [g] of some list. *)
Lemma mapM_fmap_Some {A B C} (f : B → option C) (g : A → B) (k : A → C) l :
  (∀ x, f (g x) = Some (k x)) → mapM f (g <$> l) = Some (k <$> l).
Proof.
  intros Hf. apply mapM_Some. induction l as [|x l IH]; constructor; auto.
Qed.

Lemma mapM_total {A C} (k : A → C) l :
  mapM (λ x, Some (k x)) l = Some (k <$> l).
Proof.
  apply mapM_Some. induction l as [|x l IH]; constructor; auto.
Qed.

Lemma zip_with_fmap_fmap {A B C D} (f : B → C → D) (g : A → B) (k : A → C) l :
  zip_with f (g <$> l) (k <$> l) = (λ x, f (g x) (k x)) <$> l.
Proof. induction l as [|x l IH]; simpl; by f_equal. Qed.

Lemma zip_with_fmap_self {A B D} (f : B → A → D) (g : A → B) l :
  zip_with f (g <$> l) l = (λ x, f (g x) x) <$> l.
Proof. induction l as [|x l IH]; simpl; by f_equal. Qed.

Lemma fmap_ext_all {A B} (f g : A → B) (l : list A) :
  (∀ x, f x = g x) → f <$> l = g <$> l.
Proof. intros Hfg. induction l as [|x l IH]; simpl; by f_equal. Qed.

Lemma select_fmap (f : Row → bool) (rows : DataFrame) :
  select (f <$> rows) rows = filter (λ r, f r) rows.
Proof.
  induction rows as [|r rows IH]; [done|].
  rewrite filter_cons, fmap_cons. simpl. rewrite IH.
  by destruct (f r).
Qed.

End Run.

(** ** Sorting *)

Module SortFacts.
Import Frame Float64 Float64Facts.

Lemma StronglySorted_reverse {A} (R : relation A) (l : list A) :
  StronglySorted R l → StronglySorted (flip R) (reverse l).
Proof.
  induction 1 as [|x l Hl IH Hx]; [constructor|].
  rewrite reverse_cons. apply StronglySorted_app_2; [|done|repeat constructor].
  intros x1 x2 Hx1 ->%list_elem_of_singleton.
  rewrite Forall_forall in Hx. apply Hx. by apply elem_of_reverse.
Qed.

Lemma StronglySorted_Forall_impl {A} (P : A → Prop) (R R' : relation A) l :
  Forall P l → (∀ x y, P x → P y → R x y → R' x y) →
  StronglySorted R l → StronglySorted R' l.
Proof.
  intros HP HR Hl. induction Hl as [|x l Hl IH Hx]; [constructor|].
  apply Forall_cons in HP as [HPx HP]. constructor; [by apply IH|].
  rewrite Forall_forall in *. eauto.
Qed.

Lemma StronglySorted_lookup {A} (R : relation A) l i j x y :
  StronglySorted R l → i < j → l !! i = Some x → l !! j = Some y → R x y.
Proof.
  intros Hl. revert i j. induction Hl as [|z l Hl IH Hz]; intros i j Hij Hi Hj.
  { by rewrite lookup_nil in Hi. }
  destruct j as [|j]; [lia|]. destruct i as [|i]; simpl in *.
  - injection Hi as ->. rewrite Forall_forall in Hz.
    by eapply Hz, list_elem_of_lookup_2.
  - eapply (IH i j); [lia|done..].
Qed.

Section argsort.
Context {A : Type}.
Implicit Types (x y z p : float * A) (l : list (float * A)).

Lemma insert_key_Permutation x l : insert_key x l ≡ₚ x :: l.
Proof.
  induction l as [|y l IH]; simpl; [done|].
  destruct (PrimFloat.leb _ _); [done|]. by rewrite IH, Permutation_swap.
Qed.

Lemma argsort_Permutation l : argsort l ≡ₚ l.
Proof.
  induction l as [|x l IH]; simpl; [done|].
  by rewrite insert_key_Permutation, IH.
Qed.

Lemma insert_key_sorted x l :
  key_not_nan x → Forall key_not_nan l →
  StronglySorted key_le l → StronglySorted key_le (insert_key x l).
Proof.
  intros Hx Hnan Hl. induction Hl as [|y l Hl IH Hy]; simpl.
  { repeat constructor. }
  apply Forall_cons in Hnan as [Hny Hnan].
  destruct (PrimFloat.leb x.1 y.1) eqn:Hxy.
  - constructor; [by constructor|]. constructor; [done|].
    eapply Forall_impl; [done|]. intros z Hz. unfold key_le in *.
    by eapply leb_trans.
  - constructor; [by apply IH|].
    rewrite insert_key_Permutation. constructor; [|done].
    by apply leb_total.
Qed.

Lemma argsort_sorted l :
  Forall key_not_nan l → StronglySorted key_le (argsort l).
Proof.
  induction 1 as [|x l Hx Hl IH]; simpl; [constructor|].
  apply insert_key_sorted; [done| |done]. by rewrite argsort_Permutation.
Qed.

Lemma filter_nan_complement l :
  filter (λ p, negb (is_nan p.1)) l ++ filter (λ p, is_nan p.1) l ≡ₚ l.
Proof.
  rewrite <-(filter_app_complement (λ p, negb (is_nan p.1)) l) at 3.
  f_equiv. apply reflexive_eq, list_filter_iff.
  intros p. destruct (is_nan p.1); simpl; naive_solver.
Qed.

Lemma nargsort_desc_Permutation l : nargsort_desc l ≡ₚ l.
Proof.
  unfold nargsort_desc.
  by rewrite reverse_Permutation, argsort_Permutation, reverse_Permutation,
    filter_nan_complement.
Qed.

Lemma nargsort_desc_sorted l :
  StronglySorted key_non_increasing (nargsort_desc l).
Proof.
  unfold nargsort_desc.
  assert (∀ x y, is_nan y.1 = true → key_non_increasing x y) as Hnan.
  { intros x y Hy. split; [by apply ltb_nan_r|]. by rewrite Hy. }
  apply StronglySorted_app_2.
  - intros x y _ Hy. apply Hnan.
    apply list_elem_of_filter in Hy as [Hy _]. by apply Is_true_true.
  - eapply (StronglySorted_Forall_impl (λ _, True) (flip key_le));
      [by apply Forall_true| |].
    + intros x y _ _ Hxy. unfold flip, key_le in Hxy.
      split; [by apply leb_not_ltb|done].
    + apply StronglySorted_reverse, argsort_sorted.
      apply Forall_forall. intros x Hx.
      apply elem_of_reverse, list_elem_of_filter in Hx as [Hx _].
      unfold key_not_nan. by destruct (is_nan x.1).
  - induction l as [|x l IH]; [constructor|].
    rewrite filter_cons. case_decide as Hx; [|done].
    constructor; [done|]. apply Forall_forall. intros y Hy.
    apply Hnan. apply list_elem_of_filter in Hy as [Hy _]. by apply Is_true_true.
Qed.

End argsort.

End SortFacts.

(** ** The filter stage *)

Module FilterFacts.
Import Frame Screener Run Float64 Float64Facts.

(** What a run of [_apply_filters] does to the heap: three frames are
    allocated, the last one is returned. *)
Lemma apply_filters_run self (h : heap) (df : ref) (rows : DataFrame) mvr lo hi :
  h !! df = Some rows →
  _apply_filters self df mvr lo hi h =
    (Ret (length h + 2),
     h ++ [filter (λ r, geb (volume_ratio r) mvr) rows;
           filter (λ r, keeps mvr lo hi r) rows;
           filter (λ r, keeps mvr lo hi r) rows]).
Proof.
  intros E. unfold _apply_filters, Series.and, Series.ge, Series.le.
  erewrite bind_run; [|eapply getitem_run; [done|apply mapM_total]].
  rewrite <-list_fmap_compose.
  erewrite bind_run;
    [|eapply getitem_mask_run; [done|by rewrite length_fmap]].
  rewrite select_fmap. unfold compose.
  set (rows1 := filter _ rows).
  erewrite bind_run; [|eapply getitem_run; [apply lookup_new|apply mapM_total]].
  erewrite bind_run; [|eapply getitem_run; [apply lookup_new|apply mapM_total]].
  rewrite <-!list_fmap_compose, zip_with_fmap_fmap.
  erewrite bind_run;
    [|eapply getitem_mask_run; [apply lookup_new|by rewrite length_fmap]].
  rewrite select_fmap. unfold compose.
  erewrite copy_run; [|apply lookup_new].
  rewrite !length_app. simpl. f_equal; [f_equal; lia|].
  rewrite <-!app_assoc. simpl. do 2 f_equal.
  assert (filter (λ r, geb (price_change_1d r) lo &&
                       (price_change_1d r <=? hi)%float) rows1
          = filter (λ r, keeps mvr lo hi r) rows) as ->; [|done].
  unfold rows1. rewrite list_filter_filter. apply list_filter_iff.
  intros r. unfold keeps. rewrite !andb_True. tauto.
Qed.

Lemma apply_filters_result self (h : heap) (df : ref) (rows : DataFrame) mvr lo hi :
  h !! df = Some rows →
  ∃ h', _apply_filters self df mvr lo hi h = (Ret (length h + 2), h') ∧
        h' !! (length h + 2) = Some (filter (λ r, keeps mvr lo hi r) rows) ∧
        ∀ l, l < length h → h' !! l = h !! l.
Proof.
  intros E. eexists. split; [by apply apply_filters_run|]. split.
  - rewrite lookup_app_r by lia. by replace (length h + 2 - length h) with 2 by lia.
  - intros l Hl. by rewrite lookup_app_l.
Qed.

Lemma keeps_spec mvr lo hi r :
  keeps mvr lo hi r = true ↔
    geb (volume_ratio r) mvr = true ∧
    geb (price_change_1d r) lo = true ∧
    PrimFloat.leb (price_change_1d r) hi = true.
Proof. unfold keeps. rewrite !andb_true_iff. tauto. Qed.

Lemma keeps_false mvr lo hi r :
  keeps mvr lo hi r = false ↔
    geb (volume_ratio r) mvr = false ∨
    geb (price_change_1d r) lo = false ∨
    PrimFloat.leb (price_change_1d r) hi = false.
Proof. unfold keeps. rewrite !andb_false_iff. tauto. Qed.

(** C1. For every table and every criteria triple, the filter stage returns
    a frame that holds exactly the rows of the table, in their order, with
    [volume_ratio >= min_volume_ratio] and
    [min_price_change_1d <= price_change_1d <= max_price_change_1d]: a row is
    kept if and only if it meets the three conditions, and every row of the
    table that is left out fails at least one of them. *)
Theorem filter_keeps_exactly_the_matching_rows
    self (h : heap) (df : ref) (rows : DataFrame)
    (min_volume_ratio min_price_change_1d max_price_change_1d : float) :
  h !! df = Some rows →
  ∃ out h' kept,
    _apply_filters self df min_volume_ratio min_price_change_1d
      max_price_change_1d h = (Ret out, h') ∧
    h' !! out = Some kept ∧
    kept = filter (λ r, keeps min_volume_ratio min_price_change_1d
                          max_price_change_1d r) rows ∧
    (∀ r, r ∈ kept ↔
          r ∈ rows ∧
          geb (volume_ratio r) min_volume_ratio = true ∧
          geb (price_change_1d r) min_price_change_1d = true ∧
          PrimFloat.leb (price_change_1d r) max_price_change_1d = true) ∧
    (∀ r, r ∈ rows → r ∉ kept →
          geb (volume_ratio r) min_volume_ratio = false ∨
          geb (price_change_1d r) min_price_change_1d = false ∨
          PrimFloat.leb (price_change_1d r) max_price_change_1d = false).
Proof.
  intros E.
  destruct (apply_filters_result self h df rows min_volume_ratio
              min_price_change_1d max_price_change_1d E) as (h' & Hrun & Hout & _).
  exists (length h + 2), h', (filter (λ r, keeps min_volume_ratio
    min_price_change_1d max_price_change_1d r) rows).
  split_and!; [done..| |].
  - intros r. rewrite list_elem_of_filter, Is_true_true, keeps_spec. tauto.
  - intros r Hr Hnot. apply keeps_false.
    destruct (keeps _ _ _ r) eqn:Hk; [|done].
    exfalso. apply Hnot, list_elem_of_filter. by rewrite Hk.
Qed.

Lemma filter_keeps_exactly_the_matching_rows_witness :
  a_heap !! 0 = Some a_table ∧
  ∃ out h' kept,
    _apply_filters a_screener 0 2%float (-50)%float 50%float a_heap
      = (Ret out, h') ∧
    h' !! out = Some kept ∧
    kept = filter (λ r, keeps 2%float (-50)%float 50%float r) a_table ∧
    (∀ r, r ∈ kept ↔
          r ∈ a_table ∧
          geb (volume_ratio r) 2%float = true ∧
          geb (price_change_1d r) (-50)%float = true ∧
          PrimFloat.leb (price_change_1d r) 50%float = true) ∧
    (∀ r, r ∈ a_table → r ∉ kept →
          geb (volume_ratio r) 2%float = false ∨
          geb (price_change_1d r) (-50)%float = false ∨
          PrimFloat.leb (price_change_1d r) 50%float = false).
Proof.
  split; [reflexivity|].
  apply (filter_keeps_exactly_the_matching_rows a_screener a_heap 0 a_table).
  reflexivity.
Defined.

(** C6. When [min_price_change_1d > max_price_change_1d], the filter stage
    raises no error and returns an empty frame, whatever the table. *)
Theorem filter_with_inverted_bounds_is_empty
    self (h : heap) (df : ref) (rows : DataFrame)
    (min_volume_ratio min_price_change_1d max_price_change_1d : float) :
  h !! df = Some rows →
  gtb min_price_change_1d max_price_change_1d = true →
  ∃ out h',
    _apply_filters self df min_volume_ratio min_price_change_1d
      max_price_change_1d h = (Ret out, h') ∧
    h' !! out = Some [].
Proof.
  intros E Hgt.
  destruct (apply_filters_result self h df rows min_volume_ratio
              min_price_change_1d max_price_change_1d E) as (h' & Hrun & Hout & _).
  exists (length h + 2), h'. split; [done|]. rewrite Hout. f_equal.
  induction rows as [|r rows' IH] in |- *; [done|].
  rewrite filter_cons_False; [done|].
  rewrite Is_true_true, keeps_spec. intros (_ & Hlo & Hhi).
  unfold geb, gtb in *.
  pose proof (leb_leb_not_ltb _ _ _ Hlo Hhi). congruence.
Qed.

Lemma filter_with_inverted_bounds_is_empty_witness :
  a_heap !! 0 = Some a_table ∧
  gtb 10%float (-10)%float = true ∧
  ∃ out h',
    _apply_filters a_screener 0 2%float 10%float (-10)%float a_heap
      = (Ret out, h') ∧
    h' !! out = Some [].
Proof.
  split; [reflexivity|]. split; [reflexivity|].
  apply (filter_with_inverted_bounds_is_empty a_screener a_heap 0 a_table);
    reflexivity.
Defined.

(** C7. Filter monotonicity: with the price-change bounds fixed, raising
    the volume threshold from [min_volume_ratio] to [min_volume_ratio'] only
    removes rows: the frame filtered with the higher threshold is a
    sub-sequence of the frame filtered with the lower one, so each of its
    rows is in that frame and it has no more rows. *)
Theorem filter_is_monotone_in_min_volume_ratio
    self (h : heap) (df : ref) (rows : DataFrame)
    (min_volume_ratio min_volume_ratio' min_price_change_1d
       max_price_change_1d : float) :
  h !! df = Some rows →
  geb min_volume_ratio' min_volume_ratio = true →
  ∃ out h1 kept out' h1' kept',
    _apply_filters self df min_volume_ratio min_price_change_1d
      max_price_change_1d h = (Ret out, h1) ∧
    h1 !! out = Some kept ∧
    _apply_filters self df min_volume_ratio' min_price_change_1d
      max_price_change_1d h = (Ret out', h1') ∧
    h1' !! out' = Some kept' ∧
    kept' `sublist_of` kept ∧
    (∀ r, r ∈ kept' → r ∈ kept) ∧
    length kept' ≤ length kept.
Proof.
  intros E Hge.
  destruct (apply_filters_result self h df rows min_volume_ratio
              min_price_change_1d max_price_change_1d E) as (h1 & Hrun & Hout & _).
  destruct (apply_filters_result self h df rows min_volume_ratio'
              min_price_change_1d max_price_change_1d E) as (h1' & Hrun' & Hout' & _).
  assert (filter (λ r, keeps min_volume_ratio' min_price_change_1d
                          max_price_change_1d r) rows
          `sublist_of`
          filter (λ r, keeps min_volume_ratio min_price_change_1d
                          max_price_change_1d r) rows) as Hsub.
  { rewrite <-(list_filter_filter_l
      (λ r, keeps min_volume_ratio' min_price_change_1d max_price_change_1d r)
      (λ r, keeps min_volume_ratio min_price_change_1d max_price_change_1d r)).
    - apply sublist_filter.
    - intros r. rewrite !Is_true_true, !keeps_spec. intros (Hvr & ? & ?).
      split_and!; [|done..]. unfold geb in *. by eapply leb_trans. }
  do 6 eexists. split_and!; [done..| | |].
  - exact Hsub.
  - intros r Hr. by eapply elem_of_sublist.
  - by apply sublist_length.
Qed.

Lemma filter_is_monotone_in_min_volume_ratio_witness :
  a_heap !! 0 = Some a_table ∧
  geb 2.5%float 2%float = true ∧
  ∃ out h1 kept out' h1' kept',
    _apply_filters a_screener 0 2%float (-50)%float 50%float a_heap
      = (Ret out, h1) ∧
    h1 !! out = Some kept ∧
    _apply_filters a_screener 0 2.5%float (-50)%float 50%float a_heap
      = (Ret out', h1') ∧
    h1' !! out' = Some kept' ∧
    kept' `sublist_of` kept ∧
    (∀ r, r ∈ kept' → r ∈ kept) ∧
    length kept' ≤ length kept.
Proof.
  split; [reflexivity|]. split; [reflexivity|].
  apply (filter_is_monotone_in_min_volume_ratio a_screener a_heap 0 a_table);
    reflexivity.
Defined.

End FilterFacts.

(** ** The scoring stage *)

Module ScoreFacts.
Import Frame Screener Run Float64 Float64Facts SortFacts.

Lemma calculate_momentum_score_empty self (h : heap) (df : ref) :
  h !! df = Some [] → _calculate_momentum_score self df h = (Ret df, h).
Proof.
  intros E. unfold _calculate_momentum_score.
  by erewrite bind_run; [|by eapply len_run].
Qed.

(** On a frame with rows, the columns are assigned in place, row by row as
    [scored] says, and the sorted frame is allocated. *)
Lemma calculate_momentum_score_run self (h : heap) (df : ref) (rows : DataFrame) :
  h !! df = Some rows → rows ≠ [] →
  _calculate_momentum_score self df h =
    (Ret (length h),
     <[df := scored <$> rows]> h ++
       [(nargsort_desc ((λ r, (score_of r, scored r)) <$> rows)).*2]).
Proof.
  intros E Hne. unfold _calculate_momentum_score.
  unfold Series.gt, Series.mul, Series.round2, Series.abs.
  erewrite bind_run; [|by eapply len_run].
  destruct (length rows =? 0) eqn:Hlen.
  { apply Nat.eqb_eq in Hlen. by destruct rows. }
  erewrite bind_run; [|by eapply setitem_scalar_run].
  erewrite bind_run;
    [|eapply getitem_run;
      [by eapply lookup_stored
      |by apply (mapM_fmap_Some _ _ price_change_1d)]].
  erewrite bind_run;
    [|eapply getitem_run;
      [by eapply lookup_stored
      |by apply (mapM_fmap_Some _ _ price_change_7d)]].
  rewrite zip_with_fmap_fmap, <-list_fmap_compose.
  erewrite bind_run;
    [|eapply loc_setitem_run;
      [by eapply lookup_stored|by rewrite !length_fmap]].
  rewrite zip_with_fmap_fmap, list_insert_insert_eq.
  rewrite (fmap_ext_all _ (λ r, set_trend_consistency (trend_of r) r));
    [|intros r; unfold trend_of, compose; simpl;
      by destruct (gtb _ _)].
  erewrite bind_run;
    [|eapply getitem_run;
      [by eapply lookup_stored
      |by apply (mapM_fmap_Some _ _ volume_ratio)]].
  erewrite bind_run;
    [|eapply getitem_run;
      [by eapply lookup_stored
      |by apply (mapM_fmap_Some _ _ price_change_1d)]].
  erewrite bind_run;
    [|eapply getitem_run;
      [by eapply lookup_stored
      |by apply (mapM_fmap_Some _ _ trend_of)]].
  rewrite <-list_fmap_compose, !zip_with_fmap_fmap, <-list_fmap_compose.
  erewrite bind_run;
    [|eapply setitem_run;
      [by eapply lookup_stored|by rewrite !length_fmap]].
  rewrite zip_with_fmap_fmap, list_insert_insert_eq.
  rewrite (fmap_ext_all _ scored); [|done].
  erewrite bind_run;
    [|eapply sort_values_desc_run;
      [by eapply lookup_stored
      |by apply (mapM_fmap_Some _ _ score_of)]].
  by rewrite zip_with_fmap_fmap, length_insert.
Qed.

(** The frame a run of the scoring stage returns, for any frame. *)
Lemma calculate_momentum_score_result self (h : heap) (df : ref) (rows : DataFrame) :
  h !! df = Some rows →
  ∃ out h',
    _calculate_momentum_score self df h = (Ret out, h') ∧
    h' !! out =
      Some (nargsort_desc ((λ r, (score_of r, scored r)) <$> rows)).*2.
Proof.
  intros E. destruct rows as [|r rows'].
  - exists df, h. by rewrite calculate_momentum_score_empty.
  - eexists _, _. split; [by apply calculate_momentum_score_run|].
    rewrite <-(length_insert h df (scored <$> r :: rows')).
    apply lookup_new.
Qed.

Lemma ranked_Permutation (rows : DataFrame) :
  (nargsort_desc ((λ r, (score_of r, scored r)) <$> rows)).*2
    ≡ₚ scored <$> rows.
Proof.
  rewrite nargsort_desc_Permutation, <-list_fmap_compose.
  by apply reflexive_eq, fmap_ext_all.
Qed.

(** C2. For every frame, each row of the result has
    [trend_consistency] 1.5 when the product
    [price_change_1d * price_change_7d] is above zero and 1.0 otherwise, in
    particular 1.0 when either factor is zero, and has [momentum_score]
    [round(volume_ratio * abs(price_change_1d) * trend_consistency, 2)];
    every row of the input is in the result with these two columns, and a
    row with [volume_ratio] 3.0, [price_change_1d] 5.0 and [price_change_7d]
    10.0 gets [momentum_score] 22.5. *)
Theorem scoring_assigns_trend_and_momentum
    self (h : heap) (df : ref) (rows : DataFrame) :
  h !! df = Some rows →
  ∃ out h' ranked,
    _calculate_momentum_score self df h = (Ret out, h') ∧
    h' !! out = Some ranked ∧
    (∀ r, r ∈ rows → scored r ∈ ranked) ∧
    (∀ r', r' ∈ ranked →
       let tc := if gtb (price_change_1d r' * price_change_7d r')%float 0%float
                 then 1.5%float else 1%float in
       trend_consistency r' = Some tc ∧
       momentum_score r' =
         Some (np_round2
                 (volume_ratio r' * PrimFloat.abs (price_change_1d r') * tc)%float)) ∧
    (∀ r', r' ∈ ranked →
       is_zero (price_change_1d r') = true ∨ is_zero (price_change_7d r') = true →
       trend_consistency r' = Some 1%float) ∧
    (∀ r', r' ∈ ranked →
       volume_ratio r' = 3%float → price_change_1d r' = 5%float →
       price_change_7d r' = 10%float →
       trend_consistency r' = Some 1.5%float ∧
       momentum_score r' = Some 22.5%float).
Proof.
  intros E.
  destruct (calculate_momentum_score_result self h df rows E)
    as (out & h' & Hrun & Hout).
  eexists out, h', _. split_and!; [done..| | | |].
  - intros r Hr. rewrite ranked_Permutation. by apply list_elem_of_fmap_2.
  - intros r'. rewrite ranked_Permutation.
    intros (r & -> & _)%list_elem_of_fmap. done.
  - intros r'. rewrite ranked_Permutation.
    intros (r & -> & _)%list_elem_of_fmap Hzero.
    simpl in *. unfold trend_of. by rewrite mul_zero_not_gt.
  - intros r'. rewrite ranked_Permutation.
    intros (r & -> & _)%list_elem_of_fmap. simpl.
    unfold score_of, trend_of. by intros -> -> ->.
Qed.

Lemma scoring_assigns_trend_and_momentum_witness :
  a_heap !! 0 = Some a_table ∧
  ∃ out h' ranked,
    _calculate_momentum_score a_screener 0 a_heap = (Ret out, h') ∧
    h' !! out = Some ranked ∧
    (∀ r, r ∈ a_table → scored r ∈ ranked) ∧
    (∀ r', r' ∈ ranked →
       let tc := if gtb (price_change_1d r' * price_change_7d r')%float 0%float
                 then 1.5%float else 1%float in
       trend_consistency r' = Some tc ∧
       momentum_score r' =
         Some (np_round2
                 (volume_ratio r' * PrimFloat.abs (price_change_1d r') * tc)%float)) ∧
    (∀ r', r' ∈ ranked →
       is_zero (price_change_1d r') = true ∨ is_zero (price_change_7d r') = true →
       trend_consistency r' = Some 1%float) ∧
    (∀ r', r' ∈ ranked →
       volume_ratio r' = 3%float → price_change_1d r' = 5%float →
       price_change_7d r' = 10%float →
       trend_consistency r' = Some 1.5%float ∧
       momentum_score r' = Some 22.5%float).
Proof.
  split; [reflexivity|].
  apply (scoring_assigns_trend_and_momentum a_screener a_heap 0 a_table).
  reflexivity.
Defined.

(** Scenarios A and B of the specification, evaluated. *)
Example scenario_A :
  scored row_same_direction =
    set_momentum_score 22.5%float
      (set_trend_consistency 1.5%float row_same_direction).
Proof. reflexivity. Qed.

Example scenario_B :
  scored row_opposite_direction =
    set_momentum_score 15%float
      (set_trend_consistency 1%float row_opposite_direction).
Proof. reflexivity. Qed.

Lemma ranked_sorted (rows : DataFrame) :
  StronglySorted score_non_increasing
    (nargsort_desc ((λ r, (score_of r, scored r)) <$> rows)).*2.
Proof.
  eapply StronglySorted_fmap;
    [|eapply (StronglySorted_Forall_impl
               (λ p : float * Row, momentum_score p.2 = Some p.1)
               key_non_increasing
               (λ p q, momentum_score p.2 = Some p.1 ∧
                       momentum_score q.2 = Some q.1 ∧
                       non_increasing p.1 q.1));
      [|by intros|apply nargsort_desc_sorted]].
  - intros p q (Hp & Hq & Hpq). by exists p.1, q.1.
  - rewrite nargsort_desc_Permutation. apply Forall_fmap.
    by apply Forall_true.
Qed.

(** C3. For every frame, the frame the scoring stage returns is sorted by
    [momentum_score], non-increasing from the first row to the last: of two
    rows the later one never has the greater score, and unless its score is
    NaN (such rows come last) its score is at most the earlier row's. *)
Theorem scoring_output_is_sorted_by_score
    self (h : heap) (df : ref) (rows : DataFrame) :
  h !! df = Some rows →
  ∃ out h' ranked,
    _calculate_momentum_score self df h = (Ret out, h') ∧
    h' !! out = Some ranked ∧
    StronglySorted score_non_increasing ranked ∧
    (∀ i j ri rj,
       i < j → ranked !! i = Some ri → ranked !! j = Some rj →
       ∃ si sj,
         momentum_score ri = Some si ∧ momentum_score rj = Some sj ∧
         PrimFloat.ltb si sj = false ∧
         (is_nan sj = false → geb si sj = true)).
Proof.
  intros E.
  destruct (calculate_momentum_score_result self h df rows E)
    as (out & h' & Hrun & Hout).
  eexists out, h', _. split_and!; [done..|apply ranked_sorted|].
  intros i j ri rj Hij Hi Hj.
  by apply (StronglySorted_lookup _ _ i j ri rj (ranked_sorted rows)).
Qed.

Lemma scoring_output_is_sorted_by_score_witness :
  a_heap !! 0 = Some a_table ∧
  ∃ out h' ranked,
    _calculate_momentum_score a_screener 0 a_heap = (Ret out, h') ∧
    h' !! out = Some ranked ∧
    StronglySorted score_non_increasing ranked ∧
    (∀ i j ri rj,
       i < j → ranked !! i = Some ri → ranked !! j = Some rj →
       ∃ si sj,
         momentum_score ri = Some si ∧ momentum_score rj = Some sj ∧
         PrimFloat.ltb si sj = false ∧
         (is_nan sj = false → geb si sj = true)).
Proof.
  split; [reflexivity|].
  apply (scoring_output_is_sorted_by_score a_screener a_heap 0 a_table).
  reflexivity.
Defined.

(** The scores of the example table, in the order of the result. *)
Example a_table_ranked :
  ∃ h' ranked,
    _calculate_momentum_score a_screener 0 a_heap = (Ret 1, h') ∧
    h' !! 1 = Some ranked ∧
    momentum_score <$> ranked =
      [Some 22.5%float; Some 15%float; Some 11.25%float; Some 2.25%float;
       Some 0%float].
Proof. eexists _, _. split_and!; [vm_compute; reflexivity|reflexivity..]. Qed.

(** C10. The scoring stage neither drops nor adds rows: for every frame, the
    result has as many rows as the input, and its rows are a permutation of
    the input rows extended with [trend_consistency] and [momentum_score],
    the index label and the seven original fields of each row unchanged. *)
Theorem scoring_permutes_and_extends_rows
    self (h : heap) (df : ref) (rows : DataFrame) :
  h !! df = Some rows →
  ∃ out h' ranked extended,
    _calculate_momentum_score self df h = (Ret out, h') ∧
    h' !! out = Some ranked ∧
    length ranked = length rows ∧
    ranked ≡ₚ extended ∧
    Forall2 (λ r r',
      label r' = label r ∧ symbol r' = symbol r ∧
      current_price r' = current_price r ∧
      price_change_1d r' = price_change_1d r ∧
      price_change_7d r' = price_change_7d r ∧
      volume_24h r' = volume_24h r ∧
      avg_volume_7d r' = avg_volume_7d r ∧
      volume_ratio r' = volume_ratio r ∧
      is_Some (trend_consistency r') ∧ is_Some (momentum_score r'))
      rows extended.
Proof.
  intros E.
  destruct (calculate_momentum_score_result self h df rows E)
    as (out & h' & Hrun & Hout).
  eexists out, h', _, (scored <$> rows). split_and!; [done..| | |].
  - by rewrite ranked_Permutation, length_fmap.
  - apply ranked_Permutation.
  - apply Forall2_fmap_r, Forall_Forall2_diag, Forall_true.
    intros r. simpl. split_and!; eauto.
Qed.

Lemma scoring_permutes_and_extends_rows_witness :
  a_heap !! 0 = Some a_table ∧
  ∃ out h' ranked extended,
    _calculate_momentum_score a_screener 0 a_heap = (Ret out, h') ∧
    h' !! out = Some ranked ∧
    length ranked = length a_table ∧
    ranked ≡ₚ extended ∧
    Forall2 (λ r r',
      label r' = label r ∧ symbol r' = symbol r ∧
      current_price r' = current_price r ∧
      price_change_1d r' = price_change_1d r ∧
      price_change_7d r' = price_change_7d r ∧
      volume_24h r' = volume_24h r ∧
      avg_volume_7d r' = avg_volume_7d r ∧
      volume_ratio r' = volume_ratio r ∧
      is_Some (trend_consistency r') ∧ is_Some (momentum_score r'))
      a_table extended.
Proof.
  split; [reflexivity|].
  apply (scoring_permutes_and_extends_rows a_screener a_heap 0 a_table).
  reflexivity.
Defined.

(** C9. Score determinism: the rows the scoring stage returns are a function
    of the rows it is given.  Two calls on frames with identical rows, from
    any two screeners and in any two heaps, return frames with identical
    rows, [momentum_score] included; and so does a second call on the same
    frame, which the first call has left with its two columns assigned. *)
Theorem scoring_is_deterministic
    self1 self2 (h1 h2 : heap) (df1 df2 : ref) (rows : DataFrame) :
  h1 !! df1 = Some rows → h2 !! df2 = Some rows →
  ∃ out1 h1' out2 h2' out3 h3' ranked,
    _calculate_momentum_score self1 df1 h1 = (Ret out1, h1') ∧
    _calculate_momentum_score self2 df2 h2 = (Ret out2, h2') ∧
    _calculate_momentum_score self1 df1 h1' = (Ret out3, h3') ∧
    h1' !! out1 = Some ranked ∧
    h2' !! out2 = Some ranked ∧
    h3' !! out3 = Some ranked.
Proof.
  intros E1 E2.
  destruct (calculate_momentum_score_result self1 h1 df1 rows E1)
    as (out1 & h1' & Hrun1 & Hout1).
  destruct (calculate_momentum_score_result self2 h2 df2 rows E2)
    as (out2 & h2' & Hrun2 & Hout2).
  assert (h1' !! df1 = Some (scored <$> rows)) as E3.
  { destruct rows as [|r rows'].
    - rewrite calculate_momentum_score_empty in Hrun1 by done. by simplify_eq.
    - rewrite (calculate_momentum_score_run _ _ _ (r :: rows')) in Hrun1
        by done.
      simplify_eq.
      by eapply lookup_old, lookup_stored. }
  destruct (calculate_momentum_score_result self1 h1' df1 _ E3)
    as (out3 & h3' & Hrun3 & Hout3).
  rewrite <-list_fmap_compose in Hout3.
  by eexists out1, h1', out2, h2', out3, h3', _.
Qed.

Lemma scoring_is_deterministic_witness :
  a_heap !! 0 = Some a_table ∧ ([] :: a_heap) !! 1 = Some a_table ∧
  ∃ out1 h1' out2 h2' out3 h3' ranked,
    _calculate_momentum_score a_screener 0 a_heap = (Ret out1, h1') ∧
    _calculate_momentum_score (mkScreener (Some MockDataProvider)) 1
      ([] :: a_heap) = (Ret out2, h2') ∧
    _calculate_momentum_score a_screener 0 h1' = (Ret out3, h3') ∧
    h1' !! out1 = Some ranked ∧
    h2' !! out2 = Some ranked ∧
    h3' !! out3 = Some ranked.
Proof.
  split; [reflexivity|]. split; [reflexivity|].
  apply (scoring_is_deterministic a_screener
           (mkScreener (Some MockDataProvider)) a_heap ([] :: a_heap) 0 1
           a_table); reflexivity.
Defined.

End ScoreFacts.

(** ** The summary aggregator *)

Module SummaryFacts.
Import Frame Screener Run Float64 Float64Facts.

Lemma get_screening_summary_empty self (h : heap) (df : ref) :
  h !! df = Some [] →
  get_screening_summary self df h =
    (Ret (mkSummary 0 (PyInt 0) (PyInt 0) []), h).
Proof.
  intros E. unfold get_screening_summary.
  by erewrite bind_run; [|by eapply len_run].
Qed.

(** The masks, the two frames allocated for the counts, and what follows
    them: the summary when the frame has a [momentum_score] column, a
    [KeyError] when it has not. *)
Lemma get_screening_summary_run self (h : heap) (df : ref) (rows : DataFrame) :
  h !! df = Some rows → rows ≠ [] →
  get_screening_summary self df h =
    (match mapM momentum_score rows with
     | Some ms =>
         Ret (mkSummary (length rows)
                (PyFloat (np_round2 (Series.mean (volume_ratio <$> rows))))
                (PyFloat (np_round2 (Series.mean ms)))
                ((if bool_decide (0 < length (bullish_rows rows))
                  then [bullish_line (length (bullish_rows rows))] else []) ++
                 (if bool_decide (0 < length (bearish_rows rows))
                  then [bearish_line (length (bearish_rows rows))] else [])))
     | None => Raise (KeyError "momentum_score")
     end,
     h ++ [bullish_rows rows; bearish_rows rows]).
Proof.
  intros E Hne. unfold get_screening_summary, Series.gt, Series.lt.
  erewrite bind_run; [|by eapply len_run].
  destruct (length rows =? 0) eqn:Hlen.
  { apply Nat.eqb_eq in Hlen. by destruct rows. }
  erewrite bind_run; [|eapply getitem_run; [done|apply mapM_total]].
  rewrite <-list_fmap_compose.
  erewrite bind_run;
    [|eapply getitem_mask_run; [done|by rewrite length_fmap]].
  erewrite bind_run;
    [|eapply getitem_run; [by eapply lookup_old|apply mapM_total]].
  rewrite <-list_fmap_compose.
  erewrite bind_run;
    [|eapply getitem_mask_run; [by eapply lookup_old|by rewrite length_fmap]].
  rewrite !select_fmap. unfold compose. fold (bullish_rows rows) (bearish_rows rows).
  erewrite bind_run;
    [|eapply len_run; rewrite lookup_app_l by (rewrite length_app; simpl; lia);
      apply lookup_new].
  erewrite bind_run; [|eapply len_run; apply lookup_new].
  erewrite bind_run; [|eapply len_run; by do 2 eapply lookup_old].
  erewrite bind_run;
    [|eapply getitem_run; [by do 2 eapply lookup_old|apply mapM_total]].
  destruct (mapM momentum_score rows) as [ms|] eqn:Hms.
  - erewrite bind_run; [|eapply getitem_run; [by do 2 eapply lookup_old|done]].
    rewrite <-app_assoc. unfold mret, M_ret. simpl. do 3 f_equal.
    destruct (bool_decide (0 < length (bullish_rows rows))),
      (bool_decide (0 < length (bearish_rows rows))); by rewrite ?app_nil_r.
  - erewrite bind_raise; [|eapply getitem_raise; [by do 2 eapply lookup_old|done]].
    by rewrite <-app_assoc.
Qed.

Lemma lines_differ n m : bullish_line n ≠ bearish_line m.
Proof. unfold bullish_line, bearish_line. simpl. discriminate. Qed.

Lemma filter_length_pos {A} (P : A → Prop) `{!∀ x, Decision (P x)} (l : list A) :
  0 < length (filter P l) ↔ ∃ x, x ∈ l ∧ P x.
Proof.
  split.
  - destruct (filter P l) as [|x l'] eqn:Hf; simpl; [lia|]. intros _.
    assert (x ∈ filter P l) as Hx by (rewrite Hf; left).
    exists x. by apply list_elem_of_filter, and_comm in Hx.
  - intros (x & Hx & HP).
    assert (x ∈ filter P l) as Hin by by apply list_elem_of_filter.
    destruct (filter P l); [by apply elem_of_nil in Hin|simpl; lia].
Qed.

Lemma bullish_rows_pos (rows : DataFrame) :
  0 < length (bullish_rows rows) ↔
    ∃ r, r ∈ rows ∧ gtb (price_change_1d r) 0%float = true.
Proof.
  unfold bullish_rows. rewrite filter_length_pos.
  by setoid_rewrite Is_true_true.
Qed.

Lemma bearish_rows_pos (rows : DataFrame) :
  0 < length (bearish_rows rows) ↔
    ∃ r, r ∈ rows ∧ PrimFloat.ltb (price_change_1d r) 0%float = true.
Proof.
  unfold bearish_rows. rewrite filter_length_pos.
  by setoid_rewrite Is_true_true.
Qed.

Lemma bullish_bearish_count (rows : DataFrame) :
  length (bullish_rows rows) + length (bearish_rows rows) ≤ length rows.
Proof.
  unfold bullish_rows, bearish_rows.
  induction rows as [|r rows' IH]; [done|].
  rewrite !filter_cons. repeat case_decide; simpl; try lia.
  exfalso.
  repeat match goal with
    | H : Is_true _ |- _ => rewrite Is_true_true in H; revert H
    end.
  by_ranks.
Qed.

(** C4. For every non-empty frame with a [momentum_score] column, the
    summary has [total_found] equal to the number of rows,
    [avg_volume_ratio] and [avg_momentum_score] equal to the rounded means
    of the two columns, and [top_categories] made of the bullish line, when
    some row has [price_change_1d > 0], followed by the bearish line, when
    some row has [price_change_1d < 0], each with the count of such rows; a
    row with [price_change_1d == 0] is counted in neither, and is counted in
    [total_found]. *)
Theorem summary_of_scored_rows
    self (h : heap) (df : ref) (rows : DataFrame) (ms : list float) :
  h !! df = Some rows → 0 < length rows →
  mapM momentum_score rows = Some ms →
  ∃ s h',
    get_screening_summary self df h = (Ret s, h') ∧
    total_found s = length rows ∧
    avg_volume_ratio s =
      PyFloat (np_round2 (Series.mean (volume_ratio <$> rows))) ∧
    avg_momentum_score s = PyFloat (np_round2 (Series.mean ms)) ∧
    top_categories s =
      (if bool_decide (0 < length (bullish_rows rows))
       then [bullish_line (length (bullish_rows rows))] else []) ++
      (if bool_decide (0 < length (bearish_rows rows))
       then [bearish_line (length (bearish_rows rows))] else []) ∧
    ((∃ n, bullish_line n ∈ top_categories s) ↔
     (∃ r, r ∈ rows ∧ gtb (price_change_1d r) 0%float = true)) ∧
    ((∃ n, bearish_line n ∈ top_categories s) ↔
     (∃ r, r ∈ rows ∧ PrimFloat.ltb (price_change_1d r) 0%float = true)) ∧
    (∀ r, r ∈ rows → PrimFloat.eqb (price_change_1d r) 0%float = true →
          (r ∉ bullish_rows rows) ∧ (r ∉ bearish_rows rows)) ∧
    (length (bullish_rows rows) + length (bearish_rows rows)) ≤ total_found s.
Proof.
  intros E Hlen Hms. eexists _, _.
  split.
  { rewrite (get_screening_summary_run _ _ _ rows), Hms; [done..|].
    destruct rows; [simpl in Hlen; lia|done]. }
  simpl. split_and!; [done..| | | |].
  - rewrite <-bullish_rows_pos. split.
    + intros [n [Hn|Hn]%elem_of_app]; repeat case_bool_decide; try done;
        try (by apply elem_of_nil in Hn).
      apply list_elem_of_singleton in Hn. by apply lines_differ in Hn.
    + intros Hb. exists (length (bullish_rows rows)).
      apply elem_of_app. left. rewrite bool_decide_true by done. left.
  - rewrite <-bearish_rows_pos. split.
    + intros [n [Hn|Hn]%elem_of_app]; repeat case_bool_decide; try done;
        try (by apply elem_of_nil in Hn).
      apply list_elem_of_singleton in Hn. symmetry in Hn.
      by apply lines_differ in Hn.
    + intros Hb. exists (length (bearish_rows rows)).
      apply elem_of_app. right. rewrite bool_decide_true by done. left.
  - intros r Hr Hzero. apply eqb_not_ltb in Hzero as [Hlt Hgt].
    unfold bullish_rows, bearish_rows, gtb.
    rewrite !list_elem_of_filter, Hlt, Hgt. naive_solver.
  - apply bullish_bearish_count.
Qed.

Lemma summary_of_scored_rows_witness :
  a_scored_heap !! 0 = Some a_scored_table ∧
  0 < length a_scored_table ∧
  mapM momentum_score a_scored_table =
    Some [2.25%float; 11.25%float; 0%float; 22.5%float; 15%float] ∧
  ∃ s h',
    get_screening_summary a_screener 0 a_scored_heap = (Ret s, h') ∧
    total_found s = length a_scored_table ∧
    avg_volume_ratio s =
      PyFloat (np_round2 (Series.mean (volume_ratio <$> a_scored_table))) ∧
    avg_momentum_score s =
      PyFloat (np_round2
                 (Series.mean
                    [2.25%float; 11.25%float; 0%float; 22.5%float; 15%float])) ∧
    top_categories s =
      (if bool_decide (0 < length (bullish_rows a_scored_table))
       then [bullish_line (length (bullish_rows a_scored_table))] else []) ++
      (if bool_decide (0 < length (bearish_rows a_scored_table))
       then [bearish_line (length (bearish_rows a_scored_table))] else []) ∧
    ((∃ n, bullish_line n ∈ top_categories s) ↔
     (∃ r, r ∈ a_scored_table ∧ gtb (price_change_1d r) 0%float = true)) ∧
    ((∃ n, bearish_line n ∈ top_categories s) ↔
     (∃ r, r ∈ a_scored_table ∧
           PrimFloat.ltb (price_change_1d r) 0%float = true)) ∧
    (∀ r, r ∈ a_scored_table →
          PrimFloat.eqb (price_change_1d r) 0%float = true →
          (r ∉ bullish_rows a_scored_table) ∧
          (r ∉ bearish_rows a_scored_table)) ∧
    (length (bullish_rows a_scored_table) +
       length (bearish_rows a_scored_table)) ≤ total_found s.
Proof.
  split; [reflexivity|]. split; [simpl; lia|]. split; [reflexivity|].
  apply (summary_of_scored_rows a_screener a_scored_heap 0 a_scored_table);
    [reflexivity|simpl; lia|reflexivity].
Defined.

(** The summary of the example table, evaluated: three bullish rows, one
    bearish row, and one flat row that only [total_found] counts. *)
Example a_table_summary :
  (get_screening_summary a_screener 0 a_scored_heap).1 =
    Ret (mkSummary 5 (PyFloat 2.3%float) (PyFloat 10.2%float)
           ["Bullish Momentum: 3 assets"; "Bearish Momentum: 1 assets"]).
Proof. vm_compute. reflexivity. Qed.

(** Scenario D of the specification. *)
Example scenario_D :
  (get_screening_summary a_screener 0
     [[scored row_same_direction; scored row_bearish]]).1 =
    Ret (mkSummary 2 (PyFloat 2.75%float) (PyFloat 16.88%float)
           ["Bullish Momentum: 1 assets"; "Bearish Momentum: 1 assets"]).
Proof. vm_compute. reflexivity. Qed.

(** The summary of eight rows.  numpy adds eight values in pairs, which
    gives the mean 4.88 here; added one after the other, the same values
    give 4.89. *)
Example eight_rows_summary :
  (get_screening_summary a_screener 0 [eight_rows]).1 =
    Ret (mkSummary 8 (PyFloat 4.88%float) (PyFloat 4.88%float)
           ["Bullish Momentum: 8 assets"]).
Proof. vm_compute. reflexivity. Qed.

Example eight_ratios_one_after_the_other :
  np_round2 (foldl PrimFloat.add 0 eight_ratios / 8)%float = 4.89%float.
Proof. vm_compute. reflexivity. Qed.

End SummaryFacts.

(** ** The stages and the heap *)

Module EngineFacts.
Import Frame Screener Run Float64 Float64Facts.
Import FilterFacts ScoreFacts SummaryFacts.

(** C5. On an empty frame the scoring stage returns the frame it was given,
    still empty, and leaves the heap as it was: no column is assigned and
    nothing is allocated, so no score is computed; and the summary is
    exactly [{total_found: 0, avg_volume_ratio: 0, avg_momentum_score: 0,
    top_categories: []}], with the integer 0 for both averages. *)
Theorem empty_input_identity self (h : heap) (df : ref) :
  h !! df = Some [] →
  _calculate_momentum_score self df h = (Ret df, h) ∧
  get_screening_summary self df h =
    (Ret (mkSummary 0 (PyInt 0) (PyInt 0) []), h).
Proof.
  intros E. split.
  - by apply calculate_momentum_score_empty.
  - by apply get_screening_summary_empty.
Qed.

Lemma empty_input_identity_witness :
  [a_table; []] !! 1 = Some [] ∧
  _calculate_momentum_score a_screener 1 [a_table; []]
    = (Ret 1, [a_table; []]) ∧
  get_screening_summary a_screener 1 [a_table; []] =
    (Ret (mkSummary 0 (PyInt 0) (PyInt 0) []), [a_table; []]).
Proof.
  split; [reflexivity|].
  apply (empty_input_identity a_screener [a_table; []] 1). reflexivity.
Defined.

(** The scoring stage assigns its two columns on the frame it is given. *)
Lemma scoring_changes_the_table_it_is_given :
  a_heap !! 0 = Some a_table ∧
  (_calculate_momentum_score a_screener 0 a_heap).2 !! 0 ≠ Some a_table.
Proof. split; [reflexivity|]. vm_compute. discriminate. Qed.

(** On an empty frame the scoring stage returns its argument, not a new
    frame. *)
Lemma scoring_returns_an_empty_table_itself :
  (_calculate_momentum_score a_screener 1 [a_table; []]).1 = Ret 1.
Proof. reflexivity. Qed.

Lemma calculate_momentum_score_frame self (h : heap) (df : ref) (rows : DataFrame) :
  h !! df = Some rows →
  ∃ out h',
    _calculate_momentum_score self df h = (Ret out, h') ∧
    h' !! df = Some (scored <$> rows) ∧
    (∀ l frame, l ≠ df → h !! l = Some frame → h' !! l = Some frame) ∧
    (0 < length rows → out = length h ∧ is_Some (h' !! out)) ∧
    (rows = [] → out = df ∧ h' = h).
Proof.
  intros E. destruct rows as [|r rows'].
  - exists df, h. rewrite calculate_momentum_score_empty by done.
    split_and!; [done..| |done]. simpl. lia.
  - eexists _, _. split; [by apply calculate_momentum_score_run|].
    split_and!.
    + by eapply lookup_old, lookup_stored.
    + intros l frame Hl Hframe. apply lookup_old.
      by rewrite list_lookup_insert_ne.
    + intros _. split; [done|].
      rewrite <-(length_insert h df (scored <$> r :: rows')) at 1.
      by rewrite lookup_new.
    + done.
Qed.

(** C8, as the code has it.  The filter stage and the summary aggregator
    leave the table they are given, and every other table, unchanged; the
    filter stage returns a new table.  The scoring stage assigns
    [trend_consistency] and [momentum_score] on the table it is given, in
    place: after the call that table has the same rows in the same order,
    each with the two columns set and its other fields as before, and no
    other table has changed; its result is a new table when the input has
    rows and the input table itself when it has none.  The two stages in
    sequence leave the caller's table unchanged, since scoring then works on
    the copy the filter stage made. *)
Theorem stages_and_the_table_they_are_given
    self (h : heap) (df : ref) (rows : DataFrame)
    (min_volume_ratio min_price_change_1d max_price_change_1d : float) :
  h !! df = Some rows →
  (∃ out h',
     _apply_filters self df min_volume_ratio min_price_change_1d
       max_price_change_1d h = (Ret out, h') ∧
     h !! out = None ∧ is_Some (h' !! out) ∧
     ∀ l frame, h !! l = Some frame → h' !! l = Some frame) ∧
  (∃ result h',
     get_screening_summary self df h = (result, h') ∧
     ∀ l frame, h !! l = Some frame → h' !! l = Some frame) ∧
  (∃ out h',
     _calculate_momentum_score self df h = (Ret out, h') ∧
     h' !! df = Some (scored <$> rows) ∧
     (∀ l frame, l ≠ df → h !! l = Some frame → h' !! l = Some frame) ∧
     (0 < length rows → h !! out = None ∧ is_Some (h' !! out)) ∧
     (rows = [] → out = df ∧ h' = h)) ∧
  (∃ out h',
     screen self df min_volume_ratio min_price_change_1d
       max_price_change_1d h = (Ret out, h') ∧
     h !! out = None ∧ is_Some (h' !! out) ∧
     ∀ l frame, h !! l = Some frame → h' !! l = Some frame).
Proof.
  intros E. split_and!.
  - eexists _, _. split; [by apply apply_filters_run|]. split_and!.
    + apply lookup_ge_None. lia.
    + rewrite lookup_app_r by lia.
      replace (length h + 2 - length h) with 2 by lia. by eexists.
    + intros l frame Hl. by apply lookup_old.
  - destruct rows as [|r rows'].
    + eexists _, h. by rewrite get_screening_summary_empty.
    + eexists _, _. split; [by apply get_screening_summary_run|].
      intros l frame Hl. by apply lookup_old.
  - destruct (calculate_momentum_score_frame self h df rows E)
      as (out & h' & Hrun & Hdf & Hother & Hnew & Hempty).
    exists out, h'. split_and!; [done..| |done].
    intros Hlen. destruct (Hnew Hlen) as [-> Hout]. split; [|done].
    by apply lookup_ge_None.
  - unfold screen.
    erewrite bind_run; [|by apply apply_filters_run].
    set (h1 := h ++ _).
    assert (h1 !! (length h + 2) =
            Some (filter (λ r, keeps min_volume_ratio min_price_change_1d
                                 max_price_change_1d r) rows)) as E1.
    { unfold h1. rewrite lookup_app_r by lia.
      by replace (length h + 2 - length h) with 2 by lia. }
    assert (length h1 = length h + 3) as Hlen1
      by (unfold h1; rewrite length_app; simpl; lia).
    assert (∀ l frame, h !! l = Some frame → h1 !! l = Some frame) as Hold
      by (intros l frame Hl; by apply lookup_old).
    clearbody h1.
    destruct (calculate_momentum_score_frame self h1 _ _ E1)
      as (out & h' & Hrun & Hdf & Hother & Hnew & Hempty).
    exists out, h'.
    destruct (filter _ rows) as [|r kept]; split_and!; try done.
    + destruct (Hempty eq_refl) as [-> _]. apply lookup_ge_None. lia.
    + destruct (Hempty eq_refl) as [-> ->]. by rewrite E1.
    + intros l frame Hl. apply Hother; [|by apply Hold].
      apply lookup_lt_Some in Hl. lia.
    + destruct Hnew as [-> _]; [simpl; lia|]. apply lookup_ge_None. lia.
    + destruct Hnew as [_ ?]; [simpl; lia|done].
    + intros l frame Hl. apply Hother; [|by apply Hold].
      apply lookup_lt_Some in Hl. lia.
Qed.

Lemma stages_and_the_table_they_are_given_witness :
  a_heap !! 0 = Some a_table ∧
  (∃ out h',
     _apply_filters a_screener 0 2%float (-50)%float 50%float a_heap
       = (Ret out, h') ∧
     a_heap !! out = None ∧ is_Some (h' !! out) ∧
     ∀ l frame, a_heap !! l = Some frame → h' !! l = Some frame) ∧
  (∃ result h',
     get_screening_summary a_screener 0 a_heap = (result, h') ∧
     ∀ l frame, a_heap !! l = Some frame → h' !! l = Some frame) ∧
  (∃ out h',
     _calculate_momentum_score a_screener 0 a_heap = (Ret out, h') ∧
     h' !! 0 = Some (scored <$> a_table) ∧
     (∀ l frame, l ≠ 0 → a_heap !! l = Some frame → h' !! l = Some frame) ∧
     (0 < length a_table → a_heap !! out = None ∧ is_Some (h' !! out)) ∧
     (a_table = [] → out = 0 ∧ h' = a_heap)) ∧
  (∃ out h',
     screen a_screener 0 2%float (-50)%float 50%float a_heap = (Ret out, h') ∧
     a_heap !! out = None ∧ is_Some (h' !! out) ∧
     ∀ l frame, a_heap !! l = Some frame → h' !! l = Some frame).
Proof.
  split; [reflexivity|].
  apply (stages_and_the_table_they_are_given a_screener a_heap 0 a_table).
  reflexivity.
Defined.

(** Scenario C of the specification: of two rows with [volume_ratio] 1.0
    and 2.5, only the second passes the default criteria. *)
Example scenario_C :
  ∃ h', _apply_filters a_screener 0 2%float (-50)%float 50%float
          [[row_quiet; row_bearish]] = (Ret 3, h') ∧
        h' !! 3 = Some [row_bearish].
Proof. eexists. split; [vm_compute; reflexivity|reflexivity]. Qed.

End EngineFacts.

(** ** The stages in sequence *)

Module PipelineFacts.
Import Frame Screener Run Float64 Float64Facts SortFacts.
Import FilterFacts ScoreFacts SummaryFacts.

(** The rows of the frame the scoring stage returns for given rows. *)
Lemma ranked_all (P : Row → Prop) (rows : DataFrame) :
  (∀ r, r ∈ rows → P (scored r)) →
  Forall P (nargsort_desc ((λ r, (score_of r, scored r)) <$> rows)).*2.
Proof.
  intros HP. rewrite ranked_Permutation. apply Forall_fmap, Forall_forall.
  intros r Hr. by apply HP.
Qed.

Lemma screen_run self (h : heap) (df : ref) (rows : DataFrame) mvr lo hi :
  h !! df = Some rows →
  ∃ out h',
    screen self df mvr lo hi h = (Ret out, h') ∧
    h' !! out =
      Some (nargsort_desc ((λ r, (score_of r, scored r)) <$>
                             filter (λ r, keeps mvr lo hi r) rows)).*2 ∧
    (∀ l frame, h !! l = Some frame → h' !! l = Some frame).
Proof.
  intros E. unfold screen.
  erewrite bind_run; [|by apply apply_filters_run].
  set (h1 := h ++ _).
  assert (h1 !! (length h + 2) =
          Some (filter (λ r, keeps mvr lo hi r) rows)) as E1.
  { unfold h1. rewrite lookup_app_r by lia.
    by replace (length h + 2 - length h) with 2 by lia. }
  assert (∀ l frame, h !! l = Some frame → h1 !! l = Some frame) as Hold
    by (intros l frame Hl; by apply lookup_old).
  clearbody h1.
  destruct (filter (λ r, keeps mvr lo hi r) rows) as [|r kept] eqn:Hkept.
  - exists (length h + 2), h1.
    by rewrite calculate_momentum_score_empty.
  - eexists _, _. split; [by apply calculate_momentum_score_run|]. split.
    + rewrite <-(length_insert h1 (length h + 2) (scored <$> r :: kept)).
      apply lookup_new.
    + intros l frame Hl. apply lookup_old.
      rewrite list_lookup_insert_ne; [by apply Hold|].
      apply lookup_lt_Some in Hl. lia.
Qed.

(** The same, with the place of the result: a table that did not exist. *)
Lemma screen_run_new self (h : heap) (df : ref) (rows : DataFrame) mvr lo hi :
  h !! df = Some rows →
  ∃ out h',
    screen self df mvr lo hi h = (Ret out, h') ∧
    h' !! out =
      Some (nargsort_desc ((λ r, (score_of r, scored r)) <$>
                             filter (λ r, keeps mvr lo hi r) rows)).*2 ∧
    h !! out = None ∧
    (∀ l frame, h !! l = Some frame → h' !! l = Some frame).
Proof.
  intros E. unfold screen.
  erewrite bind_run; [|by apply apply_filters_run].
  set (h1 := h ++ _).
  assert (h1 !! (length h + 2) =
          Some (filter (λ r, keeps mvr lo hi r) rows)) as E1.
  { unfold h1. rewrite lookup_app_r by lia.
    by replace (length h + 2 - length h) with 2 by lia. }
  assert (∀ l frame, h !! l = Some frame → h1 !! l = Some frame) as Hold
    by (intros l frame Hl; by apply lookup_old).
  assert (length h ≤ length h1) as Hlen
    by (unfold h1; rewrite length_app; lia).
  clearbody h1.
  destruct (filter (λ r, keeps mvr lo hi r) rows) as [|r kept] eqn:Hkept.
  - exists (length h + 2), h1.
    rewrite calculate_momentum_score_empty by done.
    split_and!; [done|done| |done].
    apply lookup_ge_None. lia.
  - eexists _, _. split; [by apply calculate_momentum_score_run|].
    split_and!.
    + rewrite <-(length_insert h1 (length h + 2) (scored <$> r :: kept)).
      apply lookup_new.
    + apply lookup_ge_None. lia.
    + intros l frame Hl. apply lookup_old.
      rewrite list_lookup_insert_ne; [by apply Hold|].
      apply lookup_lt_Some in Hl. lia.
Qed.

(** X1. The two stages in sequence return exactly the rows that meet the
    criteria, scored and ranked: the result is a permutation of the matching
    rows with their two columns set, every row of it meets the three
    conditions, every matching row of the table is in it, and it is sorted
    by score. *)
Theorem screen_returns_the_matching_rows_ranked
    self (h : heap) (df : ref) (rows : DataFrame)
    (min_volume_ratio min_price_change_1d max_price_change_1d : float) :
  h !! df = Some rows →
  ∃ out h' ranked,
    screen self df min_volume_ratio min_price_change_1d
      max_price_change_1d h = (Ret out, h') ∧
    h' !! out = Some ranked ∧
    ranked ≡ₚ
      scored <$> filter (λ r, keeps min_volume_ratio min_price_change_1d
                                max_price_change_1d r) rows ∧
    (∀ r', r' ∈ ranked →
       geb (volume_ratio r') min_volume_ratio = true ∧
       geb (price_change_1d r') min_price_change_1d = true ∧
       PrimFloat.leb (price_change_1d r') max_price_change_1d = true) ∧
    (∀ r, r ∈ rows →
       geb (volume_ratio r) min_volume_ratio = true →
       geb (price_change_1d r) min_price_change_1d = true →
       PrimFloat.leb (price_change_1d r) max_price_change_1d = true →
       scored r ∈ ranked) ∧
    StronglySorted score_non_increasing ranked.
Proof.
  intros E.
  destruct (screen_run self h df rows min_volume_ratio min_price_change_1d
              max_price_change_1d E) as (out & h' & Hrun & Hout & _).
  eexists out, h', _. split_and!; [done..|apply ranked_Permutation| | |].
  - intros r'. rewrite ranked_Permutation.
    intros (r & -> & Hr)%list_elem_of_fmap.
    apply list_elem_of_filter in Hr as [Hr _].
    by apply Is_true_true, keeps_spec in Hr.
  - intros r Hr Hvr Hlo Hhi. rewrite ranked_Permutation.
    apply list_elem_of_fmap_2, list_elem_of_filter. split; [|done].
    apply Is_true_true, keeps_spec. done.
  - apply ranked_sorted.
Qed.

Lemma screen_returns_the_matching_rows_ranked_witness :
  a_heap !! 0 = Some a_table ∧
  ∃ out h' ranked,
    screen a_screener 0 2%float (-50)%float 50%float a_heap = (Ret out, h') ∧
    h' !! out = Some ranked ∧
    ranked ≡ₚ
      scored <$> filter (λ r, keeps 2%float (-50)%float 50%float r) a_table ∧
    (∀ r', r' ∈ ranked →
       geb (volume_ratio r') 2%float = true ∧
       geb (price_change_1d r') (-50)%float = true ∧
       PrimFloat.leb (price_change_1d r') 50%float = true) ∧
    (∀ r, r ∈ a_table →
       geb (volume_ratio r) 2%float = true →
       geb (price_change_1d r) (-50)%float = true →
       PrimFloat.leb (price_change_1d r) 50%float = true →
       scored r ∈ ranked) ∧
    StronglySorted score_non_increasing ranked.
Proof.
  split; [reflexivity|].
  apply (screen_returns_the_matching_rows_ranked a_screener a_heap 0 a_table).
  reflexivity.
Defined.

Lemma apply_screening_filters_run (h : heap) (df : ref) (rows : DataFrame) mvr lo hi :
  h !! df = Some rows →
  ∃ out h',
    App.apply_screening_filters df mvr lo hi h = (Ret out, h') ∧
    h' !! out =
      Some (nargsort_desc ((λ r, (score_of r, scored r)) <$>
                             filter (λ r, keeps mvr lo hi r) rows)).*2 ∧
    h !! out = None ∧
    (∀ l frame, h !! l = Some frame → h' !! l = Some frame).
Proof.
  intros E.
  unfold App.apply_screening_filters, Series.and, Series.ge, Series.le.
  erewrite bind_run; [|eapply getitem_run; [done|apply mapM_total]].
  rewrite <-list_fmap_compose.
  erewrite bind_run;
    [|eapply getitem_mask_run; [done|by rewrite length_fmap]].
  rewrite select_fmap. unfold compose.
  set (rows1 := filter _ rows).
  erewrite bind_run; [|eapply getitem_run; [apply lookup_new|apply mapM_total]].
  erewrite bind_run; [|eapply getitem_run; [apply lookup_new|apply mapM_total]].
  rewrite <-!list_fmap_compose, zip_with_fmap_fmap.
  erewrite bind_run;
    [|eapply getitem_mask_run; [apply lookup_new|by rewrite length_fmap]].
  rewrite select_fmap. unfold compose.
  assert (filter (λ r, geb (price_change_1d r) lo &&
                       (price_change_1d r <=? hi)%float) rows1
          = filter (λ r, keeps mvr lo hi r) rows) as ->.
  { unfold rows1. rewrite list_filter_filter. apply list_filter_iff.
    intros r. unfold keeps. rewrite !andb_True. tauto. }
  erewrite bind_run; [|eapply copy_run; apply lookup_new].
  set (h1 := (h ++ _) ++ _).
  set (h2 := h1 ++ _).
  assert (length h2 = length h + 3) as Hlen2
    by (unfold h2, h1; rewrite !length_app; simpl; lia).
  assert (h2 !! (length h1) = Some (filter (λ r, keeps mvr lo hi r) rows)) as E2
    by apply lookup_new.
  assert (length h1 = length h + 2) as Hlen1
    by (unfold h1; rewrite !length_app; simpl; lia).
  assert (∀ l frame, h !! l = Some frame → h2 !! l = Some frame) as Hold
    by (intros l frame Hl; unfold h2, h1; by do 3 apply lookup_old).
  clearbody h2 h1.
  destruct (filter (λ r, keeps mvr lo hi r) rows) as [|r kept] eqn:Hkept.
  - exists (length h1), h2.
    erewrite bind_run; [|by apply calculate_momentum_score_empty].
    split_and!; [done..| |done]. apply lookup_ge_None. lia.
  - eexists _, _.
    erewrite bind_run; [|by apply calculate_momentum_score_run].
    split_and!; [done| | |].
    + rewrite <-(length_insert h2 (length h1) (scored <$> r :: kept)).
      apply lookup_new.
    + apply lookup_ge_None. lia.
    + intros l frame Hl. apply lookup_old.
      rewrite list_lookup_insert_ne; [by apply Hold|].
      apply lookup_lt_Some in Hl. lia.
Qed.

(** X2. The application's [apply_screening_filters], which repeats the two
    filters by hand and scores a copy, returns the same rows in the same
    order as the screener's own pipeline; its result is a new table, and the
    raw table it was given, like every other table, is left unchanged. *)
Theorem apply_screening_filters_agrees_with_screen
    self (h : heap) (raw_data_df : ref) (rows : DataFrame)
    (min_volume_ratio min_price_change_1d max_price_change_1d : float) :
  h !! raw_data_df = Some rows →
  ∃ out1 h1 out2 h2 ranked,
    App.apply_screening_filters raw_data_df min_volume_ratio
      min_price_change_1d max_price_change_1d h = (Ret out1, h1) ∧
    screen self raw_data_df min_volume_ratio min_price_change_1d
      max_price_change_1d h = (Ret out2, h2) ∧
    h1 !! out1 = Some ranked ∧
    h2 !! out2 = Some ranked ∧
    h !! out1 = None ∧
    (∀ l frame, h !! l = Some frame → h1 !! l = Some frame).
Proof.
  intros E.
  destruct (apply_screening_filters_run h raw_data_df rows min_volume_ratio
              min_price_change_1d max_price_change_1d E)
    as (out1 & h1 & Hrun1 & Hout1 & Hfresh & Hold).
  destruct (screen_run self h raw_data_df rows min_volume_ratio
              min_price_change_1d max_price_change_1d E)
    as (out2 & h2 & Hrun2 & Hout2 & _).
  by eexists out1, h1, out2, h2, _.
Qed.

Lemma apply_screening_filters_agrees_with_screen_witness :
  a_heap !! 0 = Some a_table ∧
  ∃ out1 h1 out2 h2 ranked,
    App.apply_screening_filters 0 2%float (-50)%float 50%float a_heap
      = (Ret out1, h1) ∧
    screen (mkScreener (Some OpenBBDataProvider)) 0 2%float (-50)%float
      50%float a_heap = (Ret out2, h2) ∧
    h1 !! out1 = Some ranked ∧
    h2 !! out2 = Some ranked ∧
    a_heap !! out1 = None ∧
    (∀ l frame, a_heap !! l = Some frame → h1 !! l = Some frame).
Proof.
  split; [reflexivity|].
  apply (apply_screening_filters_agrees_with_screen
           (mkScreener (Some OpenBBDataProvider)) a_heap 0 a_table).
  reflexivity.
Defined.

(** X3. The summary needs the score column: on a frame with a row that has
    no [momentum_score] (a table that was filtered but not scored), it
    raises [KeyError('momentum_score')]; the tables that existed keep their
    contents. *)
Theorem summary_of_unscored_rows_raises
    self (h : heap) (df : ref) (rows : DataFrame) :
  h !! df = Some rows →
  (∃ r, r ∈ rows ∧ momentum_score r = None) →
  ∃ h',
    get_screening_summary self df h = (Raise (KeyError "momentum_score"), h') ∧
    (∀ l frame, h !! l = Some frame → h' !! l = Some frame).
Proof.
  intros E Hnone.
  assert (mapM momentum_score rows = None) as Hms
    by by apply mapM_None, Exists_exists.
  assert (rows ≠ []) as Hne.
  { destruct Hnone as (r & Hr & _). intros ->. by apply elem_of_nil in Hr. }
  eexists. split.
  - rewrite (get_screening_summary_run _ _ _ rows) by done. by rewrite Hms.
  - intros l frame Hl. by apply lookup_old.
Qed.

Lemma summary_of_unscored_rows_raises_witness :
  a_heap !! 0 = Some a_table ∧
  (∃ r, r ∈ a_table ∧ momentum_score r = None) ∧
  ∃ h',
    get_screening_summary a_screener 0 a_heap
      = (Raise (KeyError "momentum_score"), h') ∧
    (∀ l frame, a_heap !! l = Some frame → h' !! l = Some frame).
Proof.
  split; [reflexivity|].
  split; [exists row_quiet; split; [left|reflexivity]|].
  apply (summary_of_unscored_rows_raises a_screener a_heap 0 a_table);
    [reflexivity|].
  exists row_quiet. split; [left|reflexivity].
Defined.

(** X4. The screening step of [main], the filters and the score followed
    by the summary of the result, never raises, whatever the table and the
    criteria: the summary counts exactly the rows that meet the criteria, so
    [total_found > 0] exactly when some row meets them, and it is the
    all-zero summary when none does; the tables that existed keep their
    contents. *)
Theorem screening_step_counts_the_matching_rows
    (h : heap) (raw_data_df : ref) (rows : DataFrame)
    (min_volume_ratio min_price_change_1d max_price_change_1d : float) :
  h !! raw_data_df = Some rows →
  ∃ out summary h' ranked,
    App.screen_and_summarise raw_data_df min_volume_ratio
      (min_price_change_1d, max_price_change_1d) h
      = (Ret (out, summary), h') ∧
    h' !! out = Some ranked ∧
    total_found summary = length ranked ∧
    total_found summary =
      length (filter (λ r, keeps min_volume_ratio min_price_change_1d
                             max_price_change_1d r) rows) ∧
    (0 < total_found summary ↔
     ∃ r, r ∈ rows ∧
          geb (volume_ratio r) min_volume_ratio = true ∧
          geb (price_change_1d r) min_price_change_1d = true ∧
          PrimFloat.leb (price_change_1d r) max_price_change_1d = true) ∧
    (total_found summary = 0 →
     summary = mkSummary 0 (PyInt 0) (PyInt 0) []) ∧
    (∀ l frame, h !! l = Some frame → h' !! l = Some frame).
Proof.
  intros E. unfold App.screen_and_summarise, App.get_screening_summary. simpl.
  destruct (apply_screening_filters_run h raw_data_df rows min_volume_ratio
              min_price_change_1d max_price_change_1d E)
    as (out & h1 & Hrun & Hout & _ & Hold).
  erewrite bind_run; [|done].
  set (kept := filter _ rows) in *.
  set (ranked := (nargsort_desc _).*2) in *.
  assert (length ranked = length kept) as Hlen
    by (unfold ranked; by rewrite ranked_Permutation, length_fmap).
  assert (0 < length kept ↔
          ∃ r, r ∈ rows ∧
               geb (volume_ratio r) min_volume_ratio = true ∧
               geb (price_change_1d r) min_price_change_1d = true ∧
               PrimFloat.leb (price_change_1d r) max_price_change_1d = true)
    as Hpos.
  { unfold kept. rewrite filter_length_pos.
    by setoid_rewrite Is_true_true; setoid_rewrite keeps_spec. }
  destruct ranked as [|r0 ranked'] eqn:Hranked.
  - exists out, (mkSummary 0 (PyInt 0) (PyInt 0) []), h1, [].
    erewrite bind_run; [|by apply get_screening_summary_empty].
    simpl in *. rewrite <-Hlen. split_and!; try done.
    rewrite <-Hpos, <-Hlen. simpl. lia.
  - destruct (mapM_is_Some_2 momentum_score (r0 :: ranked')) as [ms Hms].
    { rewrite <-Hranked. apply (ranked_all (λ r, is_Some (momentum_score r))).
      intros r _. by eexists. }
    eexists out, _, _, (r0 :: ranked').
    erewrite bind_run;
      [|rewrite (get_screening_summary_run _ _ _ (r0 :: ranked')) by done;
        by rewrite Hms].
    simpl in *. split_and!; try done.
    + by apply lookup_old.
    + rewrite <-Hpos, <-Hlen. simpl. lia.
    + intros l frame Hl. by apply lookup_old, Hold.
Qed.

Lemma screening_step_counts_the_matching_rows_witness :
  a_heap !! 0 = Some a_table ∧
  ∃ out summary h' ranked,
    App.screen_and_summarise 0 2%float ((-50)%float, 50%float) a_heap
      = (Ret (out, summary), h') ∧
    h' !! out = Some ranked ∧
    total_found summary = length ranked ∧
    total_found summary =
      length (filter (λ r, keeps 2%float (-50)%float 50%float r) a_table) ∧
    (0 < total_found summary ↔
     ∃ r, r ∈ a_table ∧
          geb (volume_ratio r) 2%float = true ∧
          geb (price_change_1d r) (-50)%float = true ∧
          PrimFloat.leb (price_change_1d r) 50%float = true) ∧
    (total_found summary = 0 →
     summary = mkSummary 0 (PyInt 0) (PyInt 0) []) ∧
    (∀ l frame, a_heap !! l = Some frame → h' !! l = Some frame).
Proof.
  split; [reflexivity|].
  apply (screening_step_counts_the_matching_rows a_heap 0 a_table).
  reflexivity.
Defined.

End PipelineFacts.

(** ** More on the filter stage *)

Module FilterMoreFacts.
Import Frame Screener Run Float64 Float64Facts FilterFacts.

(** X5. A missing value never passes the filter: whatever the criteria, no
    row of the result has a NaN [volume_ratio] or a NaN [price_change_1d];
    and when one of the three criteria is itself NaN, the result is empty. *)
Theorem filter_drops_missing_values
    self (h : heap) (df : ref) (rows : DataFrame)
    (min_volume_ratio min_price_change_1d max_price_change_1d : float) :
  h !! df = Some rows →
  ∃ out h' kept,
    _apply_filters self df min_volume_ratio min_price_change_1d
      max_price_change_1d h = (Ret out, h') ∧
    h' !! out = Some kept ∧
    (∀ r, r ∈ kept →
       is_nan (volume_ratio r) = false ∧ is_nan (price_change_1d r) = false) ∧
    (is_nan min_volume_ratio = true ∨ is_nan min_price_change_1d = true ∨
     is_nan max_price_change_1d = true → kept = []).
Proof.
  intros E.
  destruct (apply_filters_result self h df rows min_volume_ratio
              min_price_change_1d max_price_change_1d E) as (h' & Hrun & Hout & _).
  eexists _, h', _. split_and!; [done..| |].
  - intros r [Hr _]%list_elem_of_filter.
    apply Is_true_true, keeps_spec in Hr as (Hvr & Hlo & _).
    unfold geb in *. apply leb_not_nan in Hvr, Hlo. tauto.
  - intros Hnan. induction rows as [|r rows' IH] in Hnan |- *; [done|].
    rewrite filter_cons_False; [by apply IH|].
    rewrite Is_true_true, keeps_spec. unfold geb.
    intros (Hvr & Hlo & Hhi).
    apply leb_not_nan in Hvr, Hlo, Hhi.
    destruct Hnan as [?|[?|?]]; destruct Hvr, Hlo, Hhi; congruence.
Qed.

Lemma filter_drops_missing_values_witness :
  [[set_volume_ratio nan row_same_direction; row_bearish]] !! 0
    = Some [set_volume_ratio nan row_same_direction; row_bearish] ∧
  ∃ out h' kept,
    _apply_filters a_screener 0 0%float (-50)%float 50%float
      [[set_volume_ratio nan row_same_direction; row_bearish]]
      = (Ret out, h') ∧
    h' !! out = Some kept ∧
    (∀ r, r ∈ kept →
       is_nan (volume_ratio r) = false ∧ is_nan (price_change_1d r) = false) ∧
    (is_nan 0%float = true ∨ is_nan (-50)%float = true ∨
     is_nan 50%float = true → kept = []).
Proof.
  split; [reflexivity|].
  apply (filter_drops_missing_values a_screener
           [[set_volume_ratio nan row_same_direction; row_bearish]] 0
           [set_volume_ratio nan row_same_direction; row_bearish]).
  reflexivity.
Defined.

(** X6. Filters compose: filtering the result of one filter with a second
    triple of criteria keeps exactly the rows that meet both triples, in
    their order, so the two filters can be applied in either order, and
    applying one filter twice changes nothing. *)
Theorem filters_compose
    self (h : heap) (df : ref) (rows : DataFrame)
    (v1 lo1 hi1 v2 lo2 hi2 : float) :
  h !! df = Some rows →
  ∃ a ha b hb a' ha' b' hb' c hc d kept,
    _apply_filters self df v1 lo1 hi1 h = (Ret a, ha) ∧
    _apply_filters self a v2 lo2 hi2 ha = (Ret b, hb) ∧
    _apply_filters self df v2 lo2 hi2 h = (Ret a', ha') ∧
    _apply_filters self a' v1 lo1 hi1 ha' = (Ret b', hb') ∧
    _apply_filters self a v1 lo1 hi1 ha = (Ret c, hc) ∧
    hb !! b = Some kept ∧
    hb' !! b' = Some kept ∧
    kept = filter (λ r, keeps v1 lo1 hi1 r && keeps v2 lo2 hi2 r) rows ∧
    ha !! a = Some d ∧ hc !! c = Some d.
Proof.
  intros E.
  destruct (apply_filters_result self h df rows v1 lo1 hi1 E)
    as (ha & Ha & Ea & _).
  destruct (apply_filters_result self ha _ _ v2 lo2 hi2 Ea)
    as (hb & Hb & Eb & _).
  destruct (apply_filters_result self h df rows v2 lo2 hi2 E)
    as (ha' & Ha' & Ea' & _).
  destruct (apply_filters_result self ha' _ _ v1 lo1 hi1 Ea')
    as (hb' & Hb' & Eb' & _).
  destruct (apply_filters_result self ha _ _ v1 lo1 hi1 Ea)
    as (hc & Hc & Ec & _).
  rewrite list_filter_filter in Eb, Eb', Ec.
  exists (length h + 2), ha, (length ha + 2), hb, (length h + 2), ha',
    (length ha' + 2), hb', (length ha + 2), hc,
    (filter (λ r, keeps v1 lo1 hi1 r) rows),
    (filter (λ r, keeps v1 lo1 hi1 r && keeps v2 lo2 hi2 r) rows).
  split_and!; [done..| | |done|done|].
  - rewrite Eb. f_equal. apply list_filter_iff. intros r.
    rewrite andb_True. tauto.
  - rewrite Eb'. f_equal. apply list_filter_iff. intros r.
    rewrite andb_True. tauto.
  - rewrite Ec. f_equal. apply list_filter_iff. intros r. tauto.
Qed.

Lemma filters_compose_witness :
  a_heap !! 0 = Some a_table ∧
  ∃ a ha b hb a' ha' b' hb' c hc d kept,
    _apply_filters a_screener 0 2%float (-50)%float 50%float a_heap
      = (Ret a, ha) ∧
    _apply_filters a_screener a 1%float 0%float 10%float ha = (Ret b, hb) ∧
    _apply_filters a_screener 0 1%float 0%float 10%float a_heap
      = (Ret a', ha') ∧
    _apply_filters a_screener a' 2%float (-50)%float 50%float ha'
      = (Ret b', hb') ∧
    _apply_filters a_screener a 2%float (-50)%float 50%float ha = (Ret c, hc) ∧
    hb !! b = Some kept ∧
    hb' !! b' = Some kept ∧
    kept = filter (λ r, keeps 2%float (-50)%float 50%float r &&
                        keeps 1%float 0%float 10%float r) a_table ∧
    ha !! a = Some d ∧ hc !! c = Some d.
Proof.
  split; [reflexivity|].
  destruct (filters_compose a_screener a_heap 0 a_table
              2%float (-50)%float 50%float 1%float 0%float 10%float eq_refl)
    as (a & ha & b & hb & a' & ha' & b' & hb' & c & hc & d & kept & H).
  by exists a, ha, b, hb, a', ha', b', hb', c, hc, d, kept.
Defined.

End FilterMoreFacts.

(** ** More on the scoring stage *)

Module ScoreMoreFacts.
Import Frame Screener Run Float64 Float64Facts SortFacts ScoreFacts.

Lemma abs_opp x : PrimFloat.abs (- x)%float = PrimFloat.abs x.
Proof.
  apply Prim2SF_inj. rewrite !abs_spec, opp_spec.
  by destruct (Prim2SF x) as [[]|[]| |[] ? ?].
Qed.

Lemma mul_opp_opp x y : (- x * - y)%float = (x * y)%float.
Proof.
  apply Prim2SF_inj. rewrite !mul_spec, !opp_spec.
  by destruct (Prim2SF x) as [[]|[]| |[] ? ?],
    (Prim2SF y) as [[]|[]| |[] ? ?].
Qed.

Lemma trend_of_mirror r : trend_of (mirror r) = trend_of r.
Proof. unfold trend_of, mirror. simpl. by rewrite mul_opp_opp. Qed.

Lemma score_of_mirror r : score_of (mirror r) = score_of r.
Proof.
  unfold score_of. rewrite trend_of_mirror. unfold mirror. simpl.
  by rewrite abs_opp.
Qed.

Lemma scored_mirror r : scored (mirror r) = mirror (scored r).
Proof.
  unfold scored. rewrite trend_of_mirror, score_of_mirror. reflexivity.
Qed.

(** Sorting keyed items does not look at what the keys are attached to. *)
Lemma insert_key_payload {A B} (f : A → B) (x : float * A) l :
  insert_key (prod_map id f x) (prod_map id f <$> l) =
  prod_map id f <$> insert_key x l.
Proof.
  induction l as [|y l IH]; [done|]. simpl.
  destruct (PrimFloat.leb x.1 y.1); [done|]. simpl. f_equal. apply IH.
Qed.

Lemma argsort_payload {A B} (f : A → B) (l : list (float * A)) :
  argsort (prod_map id f <$> l) = prod_map id f <$> argsort l.
Proof.
  induction l as [|x l IH]; [done|]. simpl.
  rewrite <-insert_key_payload. f_equal. apply IH.
Qed.

Lemma filter_key_payload {A B} (f : A → B) (P : float → bool)
    (l : list (float * A)) :
  filter (λ p, P p.1) (prod_map id f <$> l) =
  prod_map id f <$> filter (λ p, P p.1) l.
Proof.
  induction l as [|x l IH]; [done|].
  rewrite fmap_cons, !filter_cons, IH. simpl. by destruct (decide _).
Qed.

Lemma nargsort_desc_payload {A B} (f : A → B) (l : list (float * A)) :
  nargsort_desc (prod_map id f <$> l) = prod_map id f <$> nargsort_desc l.
Proof.
  unfold nargsort_desc.
  rewrite (filter_key_payload f (λ k, negb (is_nan k))),
    (filter_key_payload f is_nan).
  by rewrite <-fmap_reverse, argsort_payload, <-fmap_reverse, fmap_app.
Qed.

(** X7. The score does not depend on the direction of the move: for a table
    and its mirror image (both price changes of every row negated), the
    scoring stage returns the same ranking, row for row the mirror image,
    with the same [trend_consistency] and the same [momentum_score]. *)
Theorem scoring_ignores_the_direction_of_the_move
    self (h1 h2 : heap) (df1 df2 : ref) (rows : DataFrame) :
  h1 !! df1 = Some rows → h2 !! df2 = Some (mirror <$> rows) →
  ∃ out1 h1' out2 h2' ranked,
    _calculate_momentum_score self df1 h1 = (Ret out1, h1') ∧
    _calculate_momentum_score self df2 h2 = (Ret out2, h2') ∧
    h1' !! out1 = Some ranked ∧
    h2' !! out2 = Some (mirror <$> ranked) ∧
    momentum_score <$> (mirror <$> ranked) = momentum_score <$> ranked ∧
    trend_consistency <$> (mirror <$> ranked) = trend_consistency <$> ranked ∧
    symbol <$> (mirror <$> ranked) = symbol <$> ranked.
Proof.
  intros E1 E2.
  destruct (calculate_momentum_score_result self h1 df1 rows E1)
    as (out1 & h1' & Hrun1 & Hout1).
  destruct (calculate_momentum_score_result self h2 df2 _ E2)
    as (out2 & h2' & Hrun2 & Hout2).
  eexists out1, h1', out2, h2', _. split_and!; [done..| | | |].
  - rewrite Hout2. f_equal.
    rewrite <-list_fmap_compose.
    rewrite (fmap_ext_all _ (prod_map id mirror ∘ (λ r, (score_of r, scored r))));
      [|intros r; simpl; unfold prod_map; simpl;
        by rewrite score_of_mirror, scored_mirror].
    rewrite list_fmap_compose, nargsort_desc_payload, <-!list_fmap_compose.
    by apply fmap_ext_all.
  - rewrite <-list_fmap_compose. by apply fmap_ext_all.
  - rewrite <-list_fmap_compose. by apply fmap_ext_all.
  - rewrite <-list_fmap_compose. by apply fmap_ext_all.
Qed.

Lemma scoring_ignores_the_direction_of_the_move_witness :
  a_heap !! 0 = Some a_table ∧
  [mirror <$> a_table] !! 0 = Some (mirror <$> a_table) ∧
  ∃ out1 h1' out2 h2' ranked,
    _calculate_momentum_score a_screener 0 a_heap = (Ret out1, h1') ∧
    _calculate_momentum_score a_screener 0 [mirror <$> a_table]
      = (Ret out2, h2') ∧
    h1' !! out1 = Some ranked ∧
    h2' !! out2 = Some (mirror <$> ranked) ∧
    momentum_score <$> (mirror <$> ranked) = momentum_score <$> ranked ∧
    trend_consistency <$> (mirror <$> ranked) = trend_consistency <$> ranked ∧
    symbol <$> (mirror <$> ranked) = symbol <$> ranked.
Proof.
  split; [reflexivity|]. split; [reflexivity|].
  apply (scoring_ignores_the_direction_of_the_move a_screener a_heap
           [mirror <$> a_table] 0 0 a_table); reflexivity.
Defined.

(** A zero [price_change_1d] against a finite or an infinite
    [volume_ratio]. *)
Lemma is_zero_Prim2SF x : is_zero x = true → ∃ s, Prim2SF x = S754_zero s.
Proof.
  unfold is_zero. rewrite FloatAxioms.eqb_spec.
  change (Prim2SF zero) with (S754_zero false).
  destruct (Prim2SF x) as [s|[]| |[] ? ?]; try done. by exists s.
Qed.

Lemma Prim2SF_zero_is_zero x s :
  Prim2SF x = S754_zero s → is_zero (np_round2 x) = true.
Proof.
  intros Hx. rewrite <-(SF2Prim_Prim2SF x), Hx. by destruct s.
Qed.

Lemma Prim2SF_nan_eq x : Prim2SF x = S754_nan → x = nan.
Proof. intros Hx. by rewrite <-(SF2Prim_Prim2SF x), Hx. Qed.

Lemma score_of_flat_finite r :
  is_zero (price_change_1d r) = true → is_finite (volume_ratio r) = true →
  is_zero (score_of r) = true.
Proof.
  intros Hz Hfin. unfold score_of.
  assert (trend_of r = 1%float) as ->
    by (unfold trend_of; by rewrite mul_zero_not_gt by auto).
  apply is_zero_Prim2SF in Hz as [s0 Hz].
  assert (∃ s, Prim2SF (volume_ratio r * PrimFloat.abs (price_change_1d r) * 1)
               = S754_zero s) as [s Hs]; [|by eapply Prim2SF_zero_is_zero].
  rewrite !mul_spec, abs_spec, Hz.
  change (Prim2SF 1) with (S754_finite false 4503599627370496 (-52)).
  revert Hfin. unfold is_finite, is_nan, is_infinity.
  rewrite !FloatAxioms.eqb_spec, abs_spec.
  change (Prim2SF infinity) with (S754_infinity false).
  destruct (Prim2SF (volume_ratio r)) as [[]|[]| |[] ? ?]; simpl; try done;
    intros _; by eexists.
Qed.

Lemma score_of_flat_infinite r :
  is_zero (price_change_1d r) = true → is_infinity (volume_ratio r) = true →
  score_of r = nan.
Proof.
  intros Hz Hinf. unfold score_of.
  assert (trend_of r = 1%float) as ->
    by (unfold trend_of; by rewrite mul_zero_not_gt by auto).
  apply is_zero_Prim2SF in Hz as [s0 Hz].
  rewrite (Prim2SF_nan_eq
             (volume_ratio r * PrimFloat.abs (price_change_1d r) * 1)); [done|].
  rewrite !mul_spec, abs_spec, Hz.
  revert Hinf. unfold is_infinity. rewrite FloatAxioms.eqb_spec, abs_spec.
  change (Prim2SF infinity) with (S754_infinity false).
  by destruct (Prim2SF (volume_ratio r)) as [[]|[]| |[] ? ?].
Qed.

(** X8. A flat day scores nothing: in the result of the scoring stage, a
    row whose [price_change_1d] is zero has [trend_consistency] 1.0, and
    [momentum_score] zero whenever its [volume_ratio] is finite, however
    large; when its [volume_ratio] is infinite, its [momentum_score] is
    NaN. *)
Theorem flat_rows_score_zero
    self (h : heap) (df : ref) (rows : DataFrame) :
  h !! df = Some rows →
  ∃ out h' ranked,
    _calculate_momentum_score self df h = (Ret out, h') ∧
    h' !! out = Some ranked ∧
    (∀ r', r' ∈ ranked → is_zero (price_change_1d r') = true →
       trend_consistency r' = Some 1%float ∧
       (is_finite (volume_ratio r') = true →
        ∃ s, momentum_score r' = Some s ∧ is_zero s = true) ∧
       (is_infinity (volume_ratio r') = true →
        momentum_score r' = Some nan)).
Proof.
  intros E.
  destruct (calculate_momentum_score_result self h df rows E)
    as (out & h' & Hrun & Hout).
  eexists out, h', _. split_and!; [done..|].
  intros r'. rewrite ranked_Permutation.
  intros (r & -> & _)%list_elem_of_fmap Hz. simpl in Hz. split_and!.
  - simpl. unfold trend_of. by rewrite mul_zero_not_gt by auto.
  - intros Hfin. eexists. split; [done|]. by apply score_of_flat_finite.
  - intros Hinf. simpl. f_equal. by apply score_of_flat_infinite.
Qed.

Lemma flat_rows_score_zero_witness :
  a_heap !! 0 = Some a_table ∧
  ∃ out h' ranked,
    _calculate_momentum_score a_screener 0 a_heap = (Ret out, h') ∧
    h' !! out = Some ranked ∧
    (∀ r', r' ∈ ranked → is_zero (price_change_1d r') = true →
       trend_consistency r' = Some 1%float ∧
       (is_finite (volume_ratio r') = true →
        ∃ s, momentum_score r' = Some s ∧ is_zero s = true) ∧
       (is_infinity (volume_ratio r') = true →
        momentum_score r' = Some nan)).
Proof.
  split; [reflexivity|].
  apply (flat_rows_score_zero a_screener a_heap 0 a_table). reflexivity.
Defined.

End ScoreMoreFacts.

(** ** The data providers *)

Module ProviderFacts.
Import Python Provider Float64 Float64Facts.

Lemma is_finite_Prim2SF x :
  is_finite x = true ↔
    (∃ s, Prim2SF x = S754_zero s) ∨ (∃ s m e, Prim2SF x = S754_finite s m e).
Proof.
  unfold is_finite, is_infinity. rewrite Float64Facts.is_nan_rank.
  rewrite FloatAxioms.eqb_spec, abs_spec.
  change (Prim2SF infinity) with (S754_infinity false).
  destruct (Prim2SF x) as [s|[]| |[] m e]; simpl; naive_solver.
Qed.

(** [int(x)] returns for the finite values, and for no other. *)
Lemma int_finite x : is_finite x = true ↔ ∃ n, int x = Ok n.
Proof.
  rewrite is_finite_Prim2SF. unfold int.
  destruct (Prim2SF x) as [s|s| |s m e]; naive_solver.
Qed.

Lemma iloc_last_is_Some k (historical_data : list Bar) :
  0 < k ≤ length historical_data → is_Some (iloc_last k historical_data).
Proof. intros Hk. apply lookup_lt_is_Some_2. lia. Qed.

(** What a record that [_process_market_data] returns was made from. *)
Lemma process_market_data_Ok symbol (historical_data : list Bar) d :
  _process_market_data symbol historical_data = Ok d →
  7 ≤ length historical_data ∧
  ∃ latest,
    last historical_data = Some latest ∧
    md_symbol d = symbol ∧
    md_current_price d = round2 (close latest) ∧
    md_volume_ratio d =
      round2 (volume latest /
              Series.mean (volume <$> tail 7 historical_data))%float ∧
    int (volume latest) = Ok (md_volume_24h d) ∧
    int (Series.mean (volume <$> tail 7 historical_data))
      = Ok (md_avg_volume_7d d).
Proof.
  unfold _process_market_data. case_bool_decide as H2; [done|].
  destruct (iloc_last 1 historical_data) as [latest|] eqn:Hlatest; [|done].
  destruct (iloc_last 2 historical_data) as [prev|]; [|done].
  case_bool_decide as H7; [done|].
  destruct (iloc_last 7 historical_data) as [week|]; [|done].
  destruct (int (volume latest)) as [v24|] eqn:Hv24; [|done]. simpl.
  destruct (int (Series.mean _)) as [avg|] eqn:Havg; [|done]. simpl.
  intros [= <-]. split; [lia|]. exists latest. split_and!; try done.
  rewrite last_lookup. unfold iloc_last in Hlatest.
  by replace (pred (length historical_data))
    with (length historical_data - 1) by lia.
Qed.

Lemma fetched_Some w symbol d :
  fetched w symbol = Some d ↔
    ∃ historical_data,
      obb_historical w symbol = Some historical_data ∧
      _process_market_data symbol historical_data = Ok d.
Proof.
  unfold fetched, _fetch_symbol_data_async.
  destruct (obb_historical w symbol) as [hist|].
  - destruct (_process_market_data symbol hist) as [d'|e] eqn:Hp; split.
    + intros [= <-]. by exists hist.
    + intros (hist' & [= <-] & Hd). congruence.
    + done.
    + intros (hist' & [= <-] & Hd). congruence.
  - split; [done|]. by intros (? & ? & ?).
Qed.

Lemma fetched_symbol w symbol d : fetched w symbol = Some d → md_symbol d = symbol.
Proof.
  intros (hist & _ & Hd)%fetched_Some.
  by apply process_market_data_Ok in Hd as (_ & latest & _ & ? & _).
Qed.

(** The three lists of [gather], from any starting lists. *)
Lemma gather_foldl w (symbols : list string) acc :
  let g := foldl gather_step acc
             (zip symbols (_fetch_symbol_data_async w <$> symbols)) in
  data g = data acc ++ omap (fetched w) symbols ∧
  failed_symbols g =
    failed_symbols acc ++
    filter (λ s, ¬ is_Some (obb_historical w s)) symbols ∧
  length (data g) + length (failed_symbols g) + length (error_symbols g) =
    length (data acc) + length (failed_symbols acc) +
    length (error_symbols acc) + length symbols.
Proof.
  cbv zeta. revert acc. induction symbols as [|s symbols IH]; intros acc.
  { simpl. rewrite !app_nil_r. split_and!; [done..|lia]. }
  destruct (IH (gather_step acc (s, _fetch_symbol_data_async w s)))
    as (Hd & Hf & Hn).
  split_and!; (etrans; [first [exact Hd|exact Hf|exact Hn]|]); clear;
    rewrite ?filter_cons; simpl;
    unfold fetched, _fetch_symbol_data_async, gather_step;
    destruct (obb_historical w s) as [hist|]; simpl;
    try destruct (_process_market_data s hist) as [d|e]; simpl;
    rewrite ?length_app, <-?app_assoc; simpl; try done; lia.
Qed.

Lemma gather_data w symbols : data (gather w symbols) = omap (fetched w) symbols.
Proof.
  pose proof (gather_foldl w symbols (mkGathered [] [] [])) as H.
  cbv zeta in H. unfold gather. by destruct H as (-> & _).
Qed.

(** The errors of [gather], from any starting lists. *)
Lemma gather_foldl_errors w (symbols : list string) acc :
  error_symbols
    (foldl gather_step acc
       (zip symbols (_fetch_symbol_data_async w <$> symbols))) =
    error_symbols acc ++ omap (error_line w) symbols.
Proof.
  revert acc. induction symbols as [|s symbols IH]; intros acc.
  { simpl. by rewrite app_nil_r. }
  etrans; [exact (IH (gather_step acc (s, _fetch_symbol_data_async w s)))|].
  csimpl. unfold error_line, _fetch_symbol_data_async, gather_step.
  destruct (obb_historical w s) as [hist|]; simpl; [|done].
  destruct (_process_market_data s hist) as [d|e]; simpl; [done|].
  by rewrite <-app_assoc.
Qed.

Lemma gather_lists w (symbols : list string) :
  data (gather w symbols) = omap (fetched w) symbols ∧
  failed_symbols (gather w symbols) =
    filter (λ s, ¬ is_Some (obb_historical w s)) symbols ∧
  error_symbols (gather w symbols) = omap (error_line w) symbols.
Proof.
  pose proof (gather_foldl w symbols (mkGathered [] [] [])) as H.
  cbv zeta in H. destruct H as (Hd & Hf & _).
  split_and!; [exact Hd|exact Hf|].
  apply (gather_foldl_errors w symbols (mkGathered [] [] [])).
Qed.

(** A symbol has a record, or no history, or an error line, and only one
    of the three. *)
Lemma one_of_three w (s : string) :
  (is_Some (fetched w s) ∧ is_Some (obb_historical w s) ∧
   error_line w s = None) ∨
  (fetched w s = None ∧ obb_historical w s = None ∧
   error_line w s = None) ∨
  (fetched w s = None ∧ is_Some (obb_historical w s) ∧
   is_Some (error_line w s)).
Proof.
  unfold fetched, error_line, _fetch_symbol_data_async.
  destruct (obb_historical w s) as [hist|]; [|naive_solver].
  destruct (_process_market_data s hist) as [d|e]; naive_solver.
Qed.

Lemma omap_fetched_symbols w (symbols : list string) :
  md_symbol <$> omap (fetched w) symbols
  = filter (λ s, is_Some (fetched w s)) symbols.
Proof.
  induction symbols as [|s symbols IH]; [done|].
  rewrite filter_cons. csimpl. destruct (fetched w s) as [d|] eqn:Hd; csimpl.
  - rewrite IH. f_equal. by eapply fetched_symbol.
  - done.
Qed.

Lemma imap_row_of_fields (data : list MarketData) :
  symbol <$> imap row_of data = md_symbol <$> data ∧
  volume_ratio <$> imap row_of data = md_volume_ratio <$> data ∧
  price_change_1d <$> imap row_of data = md_price_change_1d <$> data ∧
  label <$> imap row_of data = seq 0 (length data) ∧
  Forall (λ r, trend_consistency r = None ∧ momentum_score r = None)
    (imap row_of data).
Proof.
  rewrite !fmap_imap. split_and!.
  - apply (imap_const md_symbol).
  - apply (imap_const md_volume_ratio).
  - apply (imap_const md_price_change_1d).
  - rewrite <-(list_fmap_id (seq 0 (length data))). apply (imap_seq_0 data id).
  - apply Forall_forall. intros r (i & d & -> & _)%elem_of_lookup_imap. done.
Qed.

Lemma io_bind_run {A B} (m : IO A) (f : A → IO B) h a h' :
  m h = (Ok a, h') → (m ≫= f) h = f a h'.
Proof. intros E. unfold mbind, IO_bind. by rewrite E. Qed.

Lemma io_bind_raise {A B} (m : IO A) (f : A → IO B) h e h' :
  m h = (Err e, h') → (m ≫= f) h = (Err e, h').
Proof. intros E. unfold mbind, IO_bind. by rewrite E. Qed.

Lemma lift_run {A} (m : M A) h a h' :
  m h = (Ret a, h') → lift m h = (Ok a, h').
Proof. intros E. unfold lift. by rewrite E. Qed.

Lemma openbb_get_market_data_run w (symbols : list string) (h : heap) :
  openbb_get_market_data w symbols h =
    match omap (fetched w) symbols with
    | [] => (Err (PyExc CConnectionError connection_error_message), h)
    | d :: data => (Ok (length h), h ++ [imap row_of (d :: data)])
    end.
Proof.
  unfold openbb_get_market_data. rewrite gather_data.
  by destruct (omap (fetched w) symbols).
Qed.

Lemma omap_fetched_nil w (symbols : list string) :
  omap (fetched w) symbols = [] ↔ ∀ s, s ∈ symbols → fetched w s = None.
Proof.
  induction symbols as [|s symbols IH]; csimpl.
  { split; [|done]. intros _ s Hs. by apply elem_of_nil in Hs. }
  destruct (fetched w s) as [d|] eqn:Hd; csimpl.
  - split; [done|]. intros H. specialize (H s). rewrite Hd in H.
    discriminate H. left.
  - rewrite IH. split.
    + intros H s' [->|Hs']%elem_of_cons; auto.
    + intros H s' Hs'. apply H. by right.
Qed.

(** X9. What [_process_market_data] does with a history.  With fewer than
    two bars it raises the [ValueError] that asks for 2 days, with two to
    six bars the one that asks for 7 days.  With seven bars or more it
    returns a record exactly when the latest volume and the mean of the
    last seven volumes are finite; the record carries the symbol, the
    rounded latest close and the rounded ratio of the two volumes;
    otherwise [int] raises a [ValueError] (NaN) or an [OverflowError]
    (infinity). *)
Theorem process_market_data_outcome
    (symbol : string) (historical_data : list Bar) :
  (length historical_data < 2 →
   _process_market_data symbol historical_data =
     Err (PyExc CValueError
            (insufficient symbol 2 (length historical_data)))) ∧
  (2 ≤ length historical_data < 7 →
   _process_market_data symbol historical_data =
     Err (PyExc CValueError
            (insufficient symbol 7 (length historical_data)))) ∧
  (7 ≤ length historical_data →
   ∃ latest avg,
     last historical_data = Some latest ∧
     avg = Series.mean (volume <$> tail 7 historical_data) ∧
     ((∃ d, _process_market_data symbol historical_data = Ok d) ↔
      is_finite (volume latest) = true ∧ is_finite avg = true) ∧
     (∀ d, _process_market_data symbol historical_data = Ok d →
           md_symbol d = symbol ∧
           md_current_price d = round2 (close latest) ∧
           md_volume_ratio d = round2 (volume latest / avg)%float ∧
           int (volume latest) = Ok (md_volume_24h d) ∧
           int avg = Ok (md_avg_volume_7d d)) ∧
     (∀ e, _process_market_data symbol historical_data = Err e →
           ∃ msg, e = PyExc CValueError msg ∨ e = PyExc COverflowError msg)).
Proof.
  unfold _process_market_data. split_and!.
  - intros Hlen. by rewrite bool_decide_true.
  - intros Hlen. rewrite bool_decide_false by lia.
    destruct (iloc_last_is_Some 1 historical_data) as [latest ->]; [lia|].
    destruct (iloc_last_is_Some 2 historical_data) as [prev ->]; [lia|].
    by rewrite bool_decide_true by lia.
  - intros Hlen. rewrite !bool_decide_false by lia.
    destruct (iloc_last_is_Some 1 historical_data) as [latest Hlatest]; [lia|].
    destruct (iloc_last_is_Some 2 historical_data) as [prev ->]; [lia|].
    destruct (iloc_last_is_Some 7 historical_data) as [week ->]; [lia|].
    rewrite Hlatest.
    exists latest, (Series.mean (volume <$> tail 7 historical_data)).
    split.
    { rewrite last_lookup. unfold iloc_last in Hlatest.
      by replace (pred (length historical_data))
        with (length historical_data - 1) by lia. }
    split; [done|].
    rewrite !int_finite.
    destruct (int (volume latest)) as [v24|e1] eqn:Hv24; simpl;
      [destruct (int (Series.mean _)) as [avg|e2] eqn:Havg; simpl|].
    + split_and!; [naive_solver| |done].
      intros d [= <-]. by split_and!.
    + split_and!; [naive_solver|done|].
      intros e [= <-]. revert Havg. unfold int.
      destruct (Prim2SF _) as [?|?| |? ? ?]; intros [= <-]; eauto.
    + split_and!; [naive_solver|done|].
      intros e [= <-]. revert Hv24. unfold int.
      destruct (Prim2SF _) as [?|?| |? ? ?]; intros [= <-]; eauto.
Qed.

(** X10. What the OpenBB provider's [get_market_data] returns.  A symbol
    contributes a record exactly when it has a history and processing it
    raises nothing.  When no symbol does, also when no symbol was asked for,
    the call raises [ConnectionError] and leaves the heap as it was.
    Otherwise it returns a new table with one row per such symbol, in the
    order of the request, labelled 0, 1, ..., without the two score
    columns, and the tables that existed are unchanged.  Every requested
    symbol lands in exactly one of the three lists, each in the order of
    the request: its record in [data] when it has one, the symbol in
    [failed_symbols] when it has no history, and in [error_symbols], when
    processing its history raises, the line made of the symbol and the
    message [Error processing] with the symbol and the text of what was
    raised. *)
Theorem openbb_get_market_data_outcome
    (w : World) (symbols : list string) (h : heap) :
  (∀ s d, fetched w s = Some d ↔
          ∃ historical_data,
            obb_historical w s = Some historical_data ∧
            _process_market_data s historical_data = Ok d) ∧
  ((∀ s, s ∈ symbols → fetched w s = None) →
   get_market_data OpenBBDataProvider w symbols h =
     (Err (PyExc CConnectionError connection_error_message), h)) ∧
  ((∃ s, s ∈ symbols ∧ is_Some (fetched w s)) →
   ∃ table,
     get_market_data OpenBBDataProvider w symbols h
       = (Ok (length h), h ++ [table]) ∧
     table = imap row_of (omap (fetched w) symbols) ∧
     symbol <$> table = filter (λ s, is_Some (fetched w s)) symbols ∧
     label <$> table = seq 0 (length table) ∧
     Forall (λ r, trend_consistency r = None ∧ momentum_score r = None)
       table) ∧
  data (gather w symbols) = omap (fetched w) symbols ∧
  failed_symbols (gather w symbols) =
    filter (λ s, ¬ is_Some (obb_historical w s)) symbols ∧
  error_symbols (gather w symbols) = omap (error_line w) symbols ∧
  (∀ s historical_data e,
     obb_historical w s = Some historical_data →
     _process_market_data s historical_data = Err e →
     error_line w s =
       Some (s +:+ ": Error processing " +:+ s +:+ ": " +:+ str_of_exc e)) ∧
  (∀ s, (is_Some (fetched w s) ∧ is_Some (obb_historical w s) ∧
         error_line w s = None) ∨
        (fetched w s = None ∧ obb_historical w s = None ∧
         error_line w s = None) ∨
        (fetched w s = None ∧ is_Some (obb_historical w s) ∧
         is_Some (error_line w s))) ∧
  length (data (gather w symbols)) +
  length (failed_symbols (gather w symbols)) +
  length (error_symbols (gather w symbols)) = length symbols.
Proof.
  split_and!.
  - apply fetched_Some.
  - intros Hnone. apply omap_fetched_nil in Hnone. simpl.
    by rewrite openbb_get_market_data_run, Hnone.
  - intros (s & Hs & Hsome). simpl. rewrite openbb_get_market_data_run.
    destruct (omap (fetched w) symbols) as [|d data] eqn:Hdata.
    { pose proof (proj1 (omap_fetched_nil w symbols) Hdata s Hs) as Hnone.
      rewrite Hnone in Hsome. by destruct Hsome. }
    eexists. split; [done|]. rewrite <-Hdata.
    destruct (imap_row_of_fields (omap (fetched w) symbols))
      as (Hsym & _ & _ & Hlab & Hnone).
    split_and!; [done| | |done].
    + by rewrite Hsym, omap_fetched_symbols.
    + by rewrite Hlab, length_imap.
  - apply gather_lists.
  - apply gather_lists.
  - apply gather_lists.
  - intros s hist e Hhist Herr. unfold error_line. by rewrite Hhist, Herr.
  - apply one_of_three.
  - pose proof (gather_foldl w symbols (mkGathered [] [] [])) as H.
    cbv zeta in H. destruct H as (_ & _ & H). exact H.
Qed.

(** The example world: two symbols of the first five have a usable
    history. *)
Example a_world_table :
  ∃ table,
    get_market_data OpenBBDataProvider a_world
      (get_top_symbols OpenBBDataProvider 5) [] = (Ok 0, [table]) ∧
    symbol <$> table = ["AAPL"; "MSFT"] ∧
    failed_symbols (gather a_world (get_top_symbols OpenBBDataProvider 5))
      = ["AMZN"; "META"] ∧
    error_symbols (gather a_world (get_top_symbols OpenBBDataProvider 5))
      = ["GOOGL: Error processing GOOGL: Insufficient historical data " +:+
         "for GOOGL. Need at least 7 days, got 3"].
Proof. eexists. split_and!; vm_compute; reflexivity. Qed.

(** Sums, means and ratios of zeros. *)
Lemma is_zero_Prim2SF_iff x : is_zero x = true ↔ ∃ s, Prim2SF x = S754_zero s.
Proof.
  unfold is_zero. rewrite FloatAxioms.eqb_spec.
  change (Prim2SF zero) with (S754_zero false).
  destruct (Prim2SF x) as [s|[]| |[] ? ?]; naive_solver.
Qed.

Lemma is_zero_not_nan x : is_zero x = true → is_nan x = false.
Proof.
  intros [s Hs]%is_zero_Prim2SF_iff. by rewrite Float64Facts.is_nan_rank, Hs.
Qed.

Lemma add_zeros x y :
  is_zero x = true → is_zero y = true → is_zero (x + y) = true.
Proof.
  rewrite !is_zero_Prim2SF_iff, add_spec. intros [s1 ->] [s2 ->].
  destruct s1, s2; by eexists.
Qed.

Lemma foldl_add_zeros x (xs : list float) :
  is_zero x = true → Forall (λ y, is_zero y = true) xs →
  is_zero (foldl PrimFloat.add x xs) = true.
Proof.
  intros Hx Hxs. revert x Hx.
  induction Hxs as [|y xs Hy Hxs IH]; intros x Hx; simpl; [done|].
  by apply IH, add_zeros.
Qed.

Lemma mean_of_seven_zeros (xs : list float) :
  length xs = 7 → Forall (λ y, is_zero y = true) xs →
  is_zero (Series.mean xs) = true.
Proof.
  intros Hlen Hxs. unfold Series.mean.
  assert (filter (λ x, negb (is_nan x)) xs = xs) as ->.
  { clear Hlen. induction Hxs as [|y xs Hy Hxs IH]; [done|].
    rewrite filter_cons, IH. by rewrite (is_zero_not_nan y Hy). }
  assert ((λ x, if is_nan x then 0%float else x) <$> xs = xs) as ->.
  { clear Hlen. induction Hxs as [|y xs Hy Hxs IH]; [done|].
    csimpl. by rewrite IH, (is_zero_not_nan y Hy). }
  rewrite Hlen, bool_decide_true by lia.
  rewrite SumFacts.np_sum_short by lia.
  destruct xs as [|x xs]; [done|].
  apply Forall_cons in Hxs as [Hx Hxs].
  pose proof (add_zeros 0 _ eq_refl (foldl_add_zeros x xs Hx Hxs)) as Hsum.
  apply is_zero_Prim2SF_iff in Hsum as [s Hs].
  apply is_zero_Prim2SF_iff. rewrite div_spec, Hs.
  change (Float64.of_nat 7) with 7%float.
  change (Prim2SF 7) with (S754_finite false 7881299347898368 (-50)).
  by eexists.
Qed.

Lemma div_zeros_nan x y :
  is_zero x = true → is_zero y = true → Prim2SF (x / y) = S754_nan.
Proof.
  rewrite !is_zero_Prim2SF_iff, div_spec. by intros [s1 ->] [s2 ->].
Qed.

Lemma int_zero x : is_zero x = true → int x = Ok 0%Z.
Proof. intros [s Hs]%is_zero_Prim2SF_iff. unfold int. by rewrite Hs. Qed.

Lemma keeps_nan_ratio mvr lo hi r :
  is_nan (volume_ratio r) = true → keeps mvr lo hi r = false.
Proof.
  intros Hnan. unfold keeps, Float64.geb.
  destruct (PrimFloat.leb mvr (volume_ratio r)) eqn:Hle; [|done].
  apply leb_not_nan in Hle as [_ Hle]. congruence.
Qed.

(** X11. A symbol that did not trade is never screened: when the last seven
    volumes of a history are all zero, [_process_market_data] returns a
    record (it raises nothing) with both volumes 0 and a NaN
    [volume_ratio], the ratio of zero to the zero mean; and no criteria of
    the filter keep the row of such a record. *)
Theorem idle_symbol_is_never_screened
    (symbol : string) (historical_data : list Bar) :
  7 ≤ length historical_data →
  Forall (λ b, is_zero (volume b) = true) (tail 7 historical_data) →
  ∃ d,
    _process_market_data symbol historical_data = Ok d ∧
    md_volume_24h d = 0%Z ∧ md_avg_volume_7d d = 0%Z ∧
    is_nan (md_volume_ratio d) = true ∧
    ∀ i min_volume_ratio min_price_change_1d max_price_change_1d,
      keeps min_volume_ratio min_price_change_1d max_price_change_1d
        (row_of i d) = false.
Proof.
  intros Hlen Hzero.
  assert (is_zero (Series.mean (volume <$> tail 7 historical_data)) = true)
    as Havg.
  { apply mean_of_seven_zeros.
    - unfold tail. rewrite length_fmap, length_drop. lia.
    - by apply Forall_fmap. }
  destruct (iloc_last_is_Some 1 historical_data) as [latest Hlatest]; [lia|].
  assert (is_zero (volume latest) = true) as Hcur.
  { rewrite Forall_forall in Hzero. apply Hzero.
    apply (list_elem_of_lookup_2 _ 6). unfold tail.
    rewrite lookup_drop. unfold iloc_last in Hlatest.
    by replace (length historical_data - 7 + 6)
      with (length historical_data - 1) by lia. }
  destruct (iloc_last_is_Some 2 historical_data) as [prev Hprev]; [lia|].
  destruct (iloc_last_is_Some 7 historical_data) as [week Hweek]; [lia|].
  eexists. split.
  { unfold _process_market_data.
    rewrite !bool_decide_false, Hlatest, Hprev, Hweek by lia.
    by rewrite (int_zero _ Hcur), (int_zero _ Havg). }
  simpl.
  assert (is_nan (round2 (volume latest /
            Series.mean (volume <$> tail 7 historical_data))) = true) as Hnan.
  { pose proof (div_zeros_nan _ _ Hcur Havg) as Hdiv.
    unfold round2. rewrite Hdiv.
    by rewrite Float64Facts.is_nan_rank, Hdiv. }
  split_and!; [done..|].
  intros i mvr lo hi. by apply keeps_nan_ratio.
Qed.

Lemma idle_symbol_is_never_screened_witness :
  7 ≤ length an_idle_history ∧
  Forall (λ b, is_zero (volume b) = true) (tail 7 an_idle_history) ∧
  ∃ d,
    _process_market_data "MSFT" an_idle_history = Ok d ∧
    md_volume_24h d = 0%Z ∧ md_avg_volume_7d d = 0%Z ∧
    is_nan (md_volume_ratio d) = true ∧
    ∀ i min_volume_ratio min_price_change_1d max_price_change_1d,
      keeps min_volume_ratio min_price_change_1d max_price_change_1d
        (row_of i d) = false.
Proof.
  split; [simpl; lia|]. split; [repeat constructor|].
  apply (idle_symbol_is_never_screened "MSFT" an_idle_history);
    [simpl; lia|repeat constructor].
Defined.

End ProviderFacts.

(** ** [screen_movers] *)

Module ScreenMoversFacts.
Import Python Provider Frame Screener Run Float64 Float64Facts SortFacts.
Import FilterFacts ScoreFacts PipelineFacts ProviderFacts.

Lemma lift_bind {A B} (m : M A) (f : A → M B) h :
  lift (m ≫= f) h = (lift m ≫= λ a, lift (f a)) h.
Proof.
  unfold lift, mbind, IO_bind, M_bind.
  by destruct (m h) as [[a|e] h'].
Qed.

Lemma screen_movers_openbb_run self w mvr lo hi (h : heap) :
  data_provider self = Some OpenBBDataProvider →
  screen_movers self w mvr lo hi h =
    match omap (fetched w) (get_top_symbols OpenBBDataProvider 100) with
    | [] => (Err (PyExc CConnectionError connection_error_message), h)
    | d :: data =>
        lift (screen self (length h) mvr lo hi)
          (h ++ [imap row_of (d :: data)])
    end.
Proof.
  intros Hp. unfold screen_movers. rewrite Hp.
  change (Provider.get_market_data OpenBBDataProvider)
    with openbb_get_market_data.
  pose proof (openbb_get_market_data_run w
                (openbb_get_top_symbols 100) h) as Hrun.
  change (get_top_symbols OpenBBDataProvider 100)
    with (openbb_get_top_symbols 100).
  destruct (omap (fetched w) (openbb_get_top_symbols 100)) as [|d data].
  - by erewrite io_bind_raise.
  - erewrite io_bind_run; [|done].
    unfold screen. rewrite lift_bind.
    unfold mbind at 1 3, IO_bind.
    destruct (lift (_apply_filters _ _ _ _ _) _) as [[a|e] h1]; [|done].
    unfold mbind, IO_bind.
    by destruct (lift (_calculate_momentum_score _ _) _) as [[b|e] h2].
Qed.

(** X12. What [screen_movers] returns.  A screener built without a provider
    raises [AttributeError] and touches nothing.  With the OpenBB provider,
    when no symbol of the universe yields a record it raises
    [ConnectionError]; otherwise the market-data table is stored as a new
    table and the result is a further table, one that did not exist before
    the call and is not the market-data table: the rows of the market-data
    table that meet the criteria, scored and sorted by score.  The tables
    that existed are unchanged. *)
Theorem screen_movers_outcome
    (self : TomorrowsMoversScreener) (w : World)
    (min_volume_ratio min_price_change_1d max_price_change_1d : float)
    (h : heap) :
  (data_provider self = None →
   ∃ msg,
     screen_movers self w min_volume_ratio min_price_change_1d
       max_price_change_1d h = (Err (PyExc CAttributeError msg), h)) ∧
  (data_provider self = Some OpenBBDataProvider →
   (∀ s, s ∈ get_top_symbols OpenBBDataProvider 100 → fetched w s = None) →
   screen_movers self w min_volume_ratio min_price_change_1d
     max_price_change_1d h =
     (Err (PyExc CConnectionError connection_error_message), h)) ∧
  (data_provider self = Some OpenBBDataProvider →
   (∃ s, s ∈ get_top_symbols OpenBBDataProvider 100 ∧
         is_Some (fetched w s)) →
   ∃ out h' table ranked,
     screen_movers self w min_volume_ratio min_price_change_1d
       max_price_change_1d h = (Ok out, h') ∧
     table = imap row_of
               (omap (fetched w) (get_top_symbols OpenBBDataProvider 100)) ∧
     h !! length h = None ∧
     h' !! length h = Some table ∧
     h !! out = None ∧
     out ≠ length h ∧
     h' !! out = Some ranked ∧
     ranked ≡ₚ
       scored <$> filter (λ r, keeps min_volume_ratio min_price_change_1d
                                 max_price_change_1d r) table ∧
     StronglySorted score_non_increasing ranked ∧
     (∀ l frame, h !! l = Some frame → h' !! l = Some frame)).
Proof.
  split_and!.
  - intros Hp. unfold screen_movers. rewrite Hp. by eexists.
  - intros Hp Hnone. rewrite screen_movers_openbb_run by done.
    apply omap_fetched_nil in Hnone. by rewrite Hnone.
  - intros Hp (s & Hs & Hsome). rewrite screen_movers_openbb_run by done.
    destruct (omap (fetched w) _) as [|d data] eqn:Hdata.
    { pose proof (proj1 (omap_fetched_nil w _) Hdata s Hs) as Hnone.
      rewrite Hnone in Hsome. by destruct Hsome. }
    set (table := imap row_of (d :: data)).
    destruct (screen_run_new self (h ++ [table]) (length h) table
                min_volume_ratio min_price_change_1d max_price_change_1d)
      as (out & h' & Hrun & Hout & Hnew & Hold); [apply lookup_new|].
    apply lookup_ge_None in Hnew. rewrite length_app in Hnew. simpl in Hnew.
    eexists out, h', table, _.
    split_and!; [by apply lift_run|done| | | | |done| | |].
    + by apply lookup_ge_None.
    + apply Hold, lookup_new.
    + apply lookup_ge_None. lia.
    + lia.
    + apply ranked_Permutation.
    + apply ranked_sorted.
    + intros l frame Hl. by apply Hold, lookup_old.
Qed.

(** The example world, screened with the default criteria: the idle symbol
    is fetched and dropped, the other one is returned with its score. *)
Example a_world_screened :
  ∃ h' ranked,
    screen_movers (mkScreener (Some OpenBBDataProvider)) a_world
      2%float (-50)%float 50%float [] = (Ok 4, h') ∧
    h' !! 0 = Some (imap row_of
                     (omap (fetched a_world)
                        (get_top_symbols OpenBBDataProvider 100))) ∧
    h' !! 4 = Some ranked ∧
    symbol <$> ranked = ["AAPL"] ∧
    momentum_score <$> ranked = [Some 8.94%float].
Proof. eexists _, _. split_and!; vm_compute; reflexivity. Qed.

End ScreenMoversFacts.

(** ** The display table *)

Module DisplayFacts.
Import Python Provider Frame Screener Run Float64 Float64Facts SortFacts.
Import FilterFacts ScoreFacts SummaryFacts PipelineFacts ProviderFacts.

Lemma format_for_display_empty self (h : heap) (df : ref) :
  h !! df = Some [] → Display.format_for_display self df h = (Ret [], h).
Proof.
  intros E. unfold Display.format_for_display.
  by erewrite bind_run; [|by eapply len_run].
Qed.

Lemma format_for_display_run self (h : heap) (df : ref) (rows : DataFrame) :
  h !! df = Some rows → rows ≠ [] →
  Display.format_for_display self df h =
    (match mapM momentum_score rows with
     | Some scores => Ret (zip_with Display.display_row rows scores)
     | None => Raise (KeyError "['momentum_score'] not in index")
     end, h).
Proof.
  intros E Hne. unfold Display.format_for_display.
  erewrite bind_run; [|by eapply len_run].
  destruct (length rows =? 0) eqn:Hlen.
  { apply Nat.eqb_eq in Hlen. by destruct rows. }
  erewrite bind_run; [|by eapply load_run].
  by destruct (mapM momentum_score rows).
Qed.

(** The rows of a display table, against the rows it was made from. *)
Lemma display_rows_lookup (rows : DataFrame) (scores : list float) i r :
  mapM momentum_score rows = Some scores →
  rows !! i = Some r →
  ∃ score, momentum_score r = Some score ∧
    zip_with Display.display_row rows scores !! i =
      Some (Display.display_row r score).
Proof.
  intros Hs Hr. apply mapM_Some in Hs.
  destruct (Forall2_lookup_l _ _ _ _ _ Hs Hr) as (score & Hscore & Hms).
  exists score. split; [done|].
  rewrite lookup_zip_with, Hr. simpl. by rewrite Hscore.
Qed.

(** X13. What [format_for_display] returns.  For a table without rows it is
    the empty table.  For a table with rows but without the
    [momentum_score] column it raises the [KeyError] of a column list.
    For a scored table it is one display row per row, in the same order and
    under the same label: the symbol and the score are carried over as they
    are, the price, the two changes and the volume ratio are formatted.  In
    every case the table it was given and all other tables are left as
    they were. *)
Theorem display_table_of_results
    self (h : heap) (df : ref) (rows : DataFrame) :
  h !! df = Some rows →
  (rows = [] → Display.format_for_display self df h = (Ret [], h)) ∧
  (rows ≠ [] → (∃ r, r ∈ rows ∧ momentum_score r = None) →
   Display.format_for_display self df h =
     (Raise (KeyError "['momentum_score'] not in index"), h)) ∧
  ((∀ r, r ∈ rows → is_Some (momentum_score r)) →
   ∃ table,
     Display.format_for_display self df h = (Ret table, h) ∧
     length table = length rows ∧
     ∀ i r, rows !! i = Some r →
       ∃ d, table !! i = Some d ∧
            display_label d = label r ∧
            Symbol d = symbol r ∧
            momentum_score r = Some (Momentum_Score d) ∧
            Price d = Display.format_price (current_price r) ∧
            Change_1D d = Display.format_change (price_change_1d r) ∧
            Change_7D d = Display.format_change (price_change_7d r) ∧
            Volume_Spike d = Display.format_volume_ratio (volume_ratio r)).
Proof.
  intros E. split_and!.
  - intros ->. by apply format_for_display_empty.
  - intros Hne (r & Hr & Hnone).
    rewrite (format_for_display_run _ _ _ rows) by done.
    destruct (mapM momentum_score rows) as [scores|] eqn:Hs; [|done].
    apply mapM_Some in Hs. apply list_elem_of_lookup in Hr as [i Hi].
    destruct (Forall2_lookup_l _ _ _ _ _ Hs Hi) as (score & _ & Hms).
    congruence.
  - intros Hall.
    destruct (mapM_is_Some_2 momentum_score rows) as [scores Hs].
    { by apply Forall_forall. }
    exists (zip_with Display.display_row rows scores).
    assert (length scores = length rows) as Hlen
      by (symmetry; by eapply length_mapM).
    split_and!.
    + destruct rows as [|r0 rows'].
      * apply mapM_Some in Hs. apply Forall2_nil_inv_l in Hs as ->.
        by apply format_for_display_empty.
      * rewrite (format_for_display_run _ _ _ (r0 :: rows')) by done.
        by rewrite Hs.
    + rewrite length_zip_with. lia.
    + intros i r Hr.
      destruct (display_rows_lookup rows scores i r Hs Hr) as (score & Hms & Hd).
      exists (Display.display_row r score). by split_and!.
Qed.

Lemma display_table_of_results_witness :
  a_scored_heap !! 0 = Some a_scored_table ∧
  (a_scored_table = [] →
   Display.format_for_display a_screener 0 a_scored_heap = (Ret [], a_scored_heap)) ∧
  (a_scored_table ≠ [] →
   (∃ r, r ∈ a_scored_table ∧ momentum_score r = None) →
   Display.format_for_display a_screener 0 a_scored_heap =
     (Raise (KeyError "['momentum_score'] not in index"), a_scored_heap)) ∧
  ((∀ r, r ∈ a_scored_table → is_Some (momentum_score r)) →
   ∃ table,
     Display.format_for_display a_screener 0 a_scored_heap
       = (Ret table, a_scored_heap) ∧
     length table = length a_scored_table ∧
     ∀ i r, a_scored_table !! i = Some r →
       ∃ d, table !! i = Some d ∧
            display_label d = label r ∧
            Symbol d = symbol r ∧
            momentum_score r = Some (Momentum_Score d) ∧
            Price d = Display.format_price (current_price r) ∧
            Change_1D d = Display.format_change (price_change_1d r) ∧
            Change_7D d = Display.format_change (price_change_7d r) ∧
            Volume_Spike d = Display.format_volume_ratio (volume_ratio r)).
Proof.
  split; [reflexivity|].
  apply (display_table_of_results a_screener a_scored_heap 0 a_scored_table).
  reflexivity.
Defined.

(** The display table of the example: the scored rows of the
    specification's scenarios, formatted. *)
Example a_display_table :
  Display.format_for_display a_screener 0 a_scored_heap =
    (Ret [mkDisplayRow 2 "BTC-USD" "$64,000.00" "📈 +1.5%" "📈 +2.0%" "1.0x" 2.25;
          mkDisplayRow 3 "ETH-USD" "$3,100.00" "📉 -3.0%" "📉 -1.0%" "2.5x" 11.25;
          mkDisplayRow 4 "TSLA" "$250.00" "📉 +0.0%" "📈 +4.0%" "2.0x" 0;
          mkDisplayRow 0 "AAPL" "$190.50" "📈 +5.0%" "📈 +10.0%" "3.0x" 22.5;
          mkDisplayRow 1 "MSFT" "$410.25" "📈 +5.0%" "📉 -10.0%" "3.0x" 15],
     a_scored_heap).
Proof. vm_compute. reflexivity. Qed.

(** X14. The glyph and the sign of a formatted change.  A change above zero
    is shown with the rising glyph and a plus sign, a change below zero
    with the falling glyph and a minus sign.  A change of zero is shown
    with the falling glyph and a signed zero, [+0.0%] or [-0.0%], and NaN
    with the falling glyph as [+nan%]. *)
Theorem change_glyph_and_sign (x : float) :
  (gtb x 0 = true →
   ∃ digits, Display.format_change x = "📈 +" +:+ digits +:+ "%") ∧
  (PrimFloat.ltb x 0 = true →
   ∃ digits, Display.format_change x = "📉 -" +:+ digits +:+ "%") ∧
  (PrimFloat.eqb x 0 = true →
   Display.format_change x = "📉 +0.0%" ∨
   Display.format_change x = "📉 -0.0%") ∧
  (is_nan x = true → Display.format_change x = "📉 +nan%").
Proof.
  pose proof (is_nan_rank x) as Hnan.
  unfold Display.format_change, Display.glyph, gtb, format_f.
  rewrite FloatAxioms.ltb_spec, FloatAxioms.ltb_spec, FloatAxioms.eqb_spec.
  change (Prim2SF 0) with (S754_zero false).
  destruct (Prim2SF x) as [[]|[]| |[] m e]; cbn [SFltb SFeqb SFcompare];
    split_and!; try discriminate;
    try (intros Hx; rewrite Hnan in Hx; discriminate);
    intros _; try (by eexists); auto.
Qed.

End DisplayFacts.

(** ** The page of the application *)

Module PageFacts.
Import Python Provider Frame Screener Run Float64 Float64Facts SortFacts.
Import FilterFacts ScoreFacts SummaryFacts PipelineFacts ProviderFacts.
Import DisplayFacts.

(** The screening step on a table: the ranked rows and their count. *)
Lemma screen_and_summarise_run (h : heap) (raw_data_df : ref)
    (rows : DataFrame) mvr lo hi :
  h !! raw_data_df = Some rows →
  ∃ out summary h',
    App.screen_and_summarise raw_data_df mvr (lo, hi) h
      = (Ret (out, summary), h') ∧
    h' !! out =
      Some (nargsort_desc ((λ r, (score_of r, scored r)) <$>
                             filter (λ r, keeps mvr lo hi r) rows)).*2 ∧
    total_found summary = length (filter (λ r, keeps mvr lo hi r) rows) ∧
    (∀ l frame, h !! l = Some frame → h' !! l = Some frame).
Proof.
  intros E. unfold App.screen_and_summarise, App.get_screening_summary. simpl.
  destruct (apply_screening_filters_run h raw_data_df rows mvr lo hi E)
    as (out & h1 & Hrun & Hout & _ & Hold).
  erewrite bind_run; [|done].
  set (kept := filter _ rows) in *.
  set (ranked := (nargsort_desc _).*2) in *.
  assert (length ranked = length kept) as Hlen
    by (unfold ranked; by rewrite ranked_Permutation, length_fmap).
  destruct ranked as [|r0 ranked'] eqn:Hranked.
  - exists out, (mkSummary 0 (PyInt 0) (PyInt 0) []), h1.
    erewrite bind_run; [|by apply get_screening_summary_empty].
    by rewrite <-Hlen.
  - destruct (mapM_is_Some_2 momentum_score (r0 :: ranked')) as [ms Hms].
    { rewrite <-Hranked. apply (ranked_all (λ r, is_Some (momentum_score r))).
      intros r _. by eexists. }
    eexists out, _, _.
    erewrite bind_run;
      [|rewrite (get_screening_summary_run _ _ _ (r0 :: ranked')) by done;
        by rewrite Hms].
    simpl in *. split_and!; try done.
    + by apply lookup_old.
    + intros l frame Hl. by apply lookup_old, Hold.
Qed.

(** With the provider of the configuration, the raw data is what the OpenBB
    provider returns for its symbols. *)
Lemma load_raw_market_data_default w (h : heap) :
  AppPage.load_raw_market_data w Config.DEFAULT_DATA_PROVIDER h =
    openbb_get_market_data w (get_top_symbols OpenBBDataProvider 100) h.
Proof. reflexivity. Qed.

(** A display table has the symbols of its rows, and is sorted when they
    are. *)
Lemma display_rows_fmap (rows : DataFrame) (scores : list float) :
  mapM momentum_score rows = Some scores →
  zip_with Display.display_row rows scores =
    (λ r, Display.display_row r (default 0%float (momentum_score r))) <$> rows.
Proof.
  intros Hs. apply mapM_Some in Hs.
  induction Hs as [|r s rows scores Hr _ IH]; [done|].
  csimpl. rewrite IH. by rewrite Hr.
Qed.

Lemma display_rows_sorted (rows : DataFrame) :
  StronglySorted score_non_increasing rows →
  StronglySorted
    (λ d d', non_increasing (Momentum_Score d) (Momentum_Score d'))
    ((λ r, Display.display_row r (default 0%float (momentum_score r))) <$> rows).
Proof.
  apply StronglySorted_fmap.
  intros r r' (s & s' & Hs & Hs' & Hle). simpl. by rewrite Hs, Hs'.
Qed.

(** X15. What [main] shows, with the provider of the configuration.  When
    no symbol of the universe yields a record, the page is the
    connection-failure page with the provider's message, and no table was
    created.  Otherwise the run raises nothing and never ends on the
    unexpected-error page: when no row of the market data meets the
    criteria the page says that nothing was found; when some do, it shows
    the summary, whose [total_found] is their number, and a table with one
    line for each of them, sorted by momentum score, highest first.  The
    tables that existed are unchanged. *)
Theorem main_page_outcome
    (w : World) (min_volume_ratio : float) (price_range : float * float)
    (h : heap) :
  let symbols := get_top_symbols OpenBBDataProvider 100 in
  let table := imap row_of (omap (fetched w) symbols) in
  let matching :=
    filter (λ r, keeps min_volume_ratio price_range.1 price_range.2 r) table in
  ((∀ s, s ∈ symbols → fetched w s = None) →
   AppPage.main w min_volume_ratio price_range h =
     (Ok (AppPage.ConnectionFailed connection_error_message), h)) ∧
  ((∃ s, s ∈ symbols ∧ is_Some (fetched w s)) →
   ∃ page h',
     AppPage.main w min_volume_ratio price_range h = (Ok page, h') ∧
     (∀ l frame, h !! l = Some frame → h' !! l = Some frame) ∧
     (matching = [] → page = AppPage.NoResults) ∧
     (matching ≠ [] →
      ∃ summary display,
        page = AppPage.Results summary display ∧
        total_found summary = length matching ∧
        length display = length matching ∧
        Symbol <$> display ≡ₚ symbol <$> matching ∧
        StronglySorted
          (λ d d', non_increasing (Momentum_Score d) (Momentum_Score d'))
          display)).
Proof.
  cbv zeta. destruct price_range as [lo hi]. simpl fst. simpl snd.
  unfold AppPage.main.
  set (symbols := get_top_symbols OpenBBDataProvider 100).
  pose proof (openbb_get_market_data_run w symbols h) as Hload.
  split.
  - intros Hnone. apply (proj2 (omap_fetched_nil w symbols)) in Hnone.
    rewrite Hnone in Hload.
    erewrite io_bind_raise;
      [|rewrite load_raw_market_data_default; exact Hload].
    done.
  - intros Hsome.
    destruct (omap (fetched w) symbols) as [|d data] eqn:Hdata.
    { destruct Hsome as (s & Hs & [d Hd]).
      pose proof (proj1 (omap_fetched_nil w symbols) Hdata s Hs) as Hnone.
      rewrite Hnone in Hd. done. }
    set (table := imap row_of (d :: data)) in *.
    destruct (screen_and_summarise_run (h ++ [table]) (length h) table
                min_volume_ratio lo hi (lookup_new h table))
      as (out & summary & h1 & Hrun & Hout & Htotal & Hold).
    erewrite io_bind_run;
      [|rewrite load_raw_market_data_default; exact Hload].
    rewrite (lift_run _ _ _ _ Hrun).
    set (matching := filter _ table) in *.
    set (ranked := (nargsort_desc _).*2) in *.
    assert (ranked ≡ₚ scored <$> matching) as Hperm
      by apply ranked_Permutation.
    assert (∀ l frame, h !! l = Some frame → h1 !! l = Some frame) as Hold'.
    { intros l frame Hl. by apply Hold, lookup_old. }
    destruct matching as [|r0 matching'] eqn:Hmatching.
    + exists AppPage.NoResults, h1. rewrite Htotal. simpl.
      split_and!; done.
    + rewrite Htotal. simpl length.
      rewrite bool_decide_true by lia.
      destruct (mapM_is_Some_2 momentum_score ranked) as [scores Hscores].
      { apply (ranked_all (λ r, is_Some (momentum_score r))).
        intros r _. by eexists. }
      assert (ranked ≠ []) as Hne.
      { intros Hnil. rewrite Hnil in Hperm.
        by apply Permutation_nil_l in Hperm. }
      pose proof (format_for_display_run (mkScreener None) h1 out ranked
                    Hout Hne) as Hfmt.
      rewrite Hscores in Hfmt.
      eexists _, h1.
      erewrite io_bind_run;
        [|unfold AppPage.format_for_display; by apply lift_run].
      split_and!; [done|done|done|].
      intros _. eexists summary, _. split; [done|].
      rewrite (display_rows_fmap ranked scores Hscores).
      split_and!.
      * done.
      * by rewrite length_fmap, Hperm, length_fmap.
      * rewrite <-list_fmap_compose, Hperm, <-list_fmap_compose.
        by apply reflexive_eq, fmap_ext_all.
      * apply display_rows_sorted, ranked_sorted.
Qed.

(** The page for the example world, in which one symbol of the universe has
    a history with a volume spike, and the page when nothing can be
    fetched. *)
Example a_world_page :
  (AppPage.main a_world 2 (-50, 50)%float []).1 =
    Ok (AppPage.Results
          (mkSummary 1 (PyFloat 2.58) (PyFloat 8.94) ["Bullish Momentum: 1 assets"])
          [mkDisplayRow 0 "AAPL" "$110.50" "📈 +2.3%" "📈 +7.3%" "2.6x" 8.94]).
Proof. vm_compute. reflexivity. Qed.

Example an_offline_world_page :
  AppPage.main an_offline_world 2 (-50, 50)%float [] =
    (Ok (AppPage.ConnectionFailed connection_error_message), []).
Proof. vm_compute. reflexivity. Qed.

End PageFacts.

(** ** The symbols of the providers *)

Module SymbolsFacts.
Import Python Provider.

Lemma all_symbols_NoDup : NoDup all_symbols.
Proof. apply (bool_decide_unpack _). vm_compute. exact I. Qed.

Lemma all_symbols_length : length all_symbols = 32.
Proof. reflexivity. Qed.

Lemma get_top_symbols_slice p limit :
  get_top_symbols p limit = slice_to limit all_symbols.
Proof. by destruct p. Qed.

Lemma slice_to_sublist {A} limit (l : list A) : slice_to limit l `sublist_of` l.
Proof. unfold slice_to. destruct (0 <=? limit)%Z; apply sublist_take. Qed.

Lemma slice_to_prefix {A} limit (l : list A) : slice_to limit l `prefix_of` l.
Proof. unfold slice_to. destruct (0 <=? limit)%Z; apply prefix_take. Qed.

(** X16. The symbols a provider offers.  Both providers return the same
    list for the same limit: a prefix of the stock symbols followed by the
    crypto symbols, without repetition.  A limit of zero or more gives that
    many symbols, and all 32 when the limit is 32 or more, as for the limit
    of 100 that the screener and the application pass; a limit below zero
    leaves out that many symbols from the end. *)
Theorem top_symbols_are_a_prefix_of_the_configured_symbols
    (p : MarketDataProvider) (limit : Z) :
  get_top_symbols p limit `prefix_of`
    Config.STOCK_SYMBOLS ++ Config.CRYPTO_SYMBOLS ∧
  NoDup (get_top_symbols p limit) ∧
  get_top_symbols MockDataProvider limit =
    get_top_symbols OpenBBDataProvider limit ∧
  ((0 ≤ limit)%Z →
   length (get_top_symbols p limit) = Z.to_nat limit `min` 32) ∧
  ((32 ≤ limit)%Z →
   get_top_symbols p limit = Config.STOCK_SYMBOLS ++ Config.CRYPTO_SYMBOLS) ∧
  ((limit < 0)%Z →
   length (get_top_symbols p limit) = 32 - Z.to_nat (- limit)).
Proof.
  rewrite !get_top_symbols_slice. fold all_symbols. split_and!.
  - apply slice_to_prefix.
  - eapply sublist_NoDup; [apply all_symbols_NoDup|apply slice_to_sublist].
  - done.
  - intros Hl. unfold slice_to.
    rewrite (proj2 (Z.leb_le 0 limit) Hl).
    by rewrite length_take, all_symbols_length.
  - intros Hl. unfold slice_to.
    rewrite (proj2 (Z.leb_le 0 limit)) by lia.
    apply take_ge. rewrite all_symbols_length. lia.
  - intros Hl. unfold slice_to.
    rewrite (proj2 (Z.leb_gt 0 limit)) by lia.
    rewrite length_take, all_symbols_length. lia.
Qed.

(** [upper] on the symbols, and twice. *)
Lemma upper_char_idem c : upper_char (upper_char c) = upper_char c.
Proof. destruct c as [[] [] [] [] [] [] [] []]; vm_compute; reflexivity. Qed.

Lemma upper_idem s : upper (upper s) = upper s.
Proof.
  induction s as [|c s IH]; [done|].
  simpl. by rewrite upper_char_idem, IH.
Qed.

Lemma all_symbols_upper : Forall (λ s, upper s = s) all_symbols.
Proof. apply (bool_decide_unpack _). vm_compute. exact I. Qed.

Lemma filter_ext_Forall {A} (P Q : A → bool) (l : list A) :
  Forall (λ x, P x = Q x) l →
  filter (λ x, P x) l = filter (λ x, Q x) l.
Proof.
  induction 1 as [|x l Hx _ IH]; [done|].
  rewrite !filter_cons, IH, Hx. done.
Qed.

Lemma fmap_slice_to {A B} (f : A → B) limit (l : list A) :
  f <$> slice_to limit l = slice_to limit (f <$> l).
Proof.
  unfold slice_to. rewrite length_fmap.
  destruct (0 <=? limit)%Z; apply fmap_take.
Qed.

(** The symbols a search finds, for either provider. *)
Lemma search_symbols_symbols p query limit :
  info_symbol <$> search_symbols p query limit =
    slice_to limit (filter (λ s, contains (upper query) s) all_symbols).
Proof.
  assert (filter (λ s, contains (upper query) (upper s)) all_symbols =
          filter (λ s, contains (upper query) s) all_symbols) as Hf.
  { apply filter_ext_Forall.
    eapply Forall_impl; [apply all_symbols_upper|].
    intros s Hs. simpl in Hs. by rewrite Hs. }
  rewrite <-Hf.
  destruct p; unfold search_symbols, mock_search_symbols,
    openbb_search_symbols; cbv zeta;
    rewrite <-list_fmap_compose; unfold compose; simpl;
    rewrite list_fmap_id.
  - done.
  - by rewrite <-filter_app.
Qed.

Lemma search_symbols_names p query limit :
  Forall (λ i, info_name i = info_symbol i +:+ name_suffix p)
    (search_symbols p query limit).
Proof.
  destruct p; unfold search_symbols, mock_search_symbols,
    openbb_search_symbols; cbv zeta;
    apply Forall_fmap, Forall_true; done.
Qed.

(** X17. What a search finds, for a query in ASCII.  The symbols found are
    the configured symbols that contain the query in upper case, in the
    order of the configuration, cut to the limit: each of them is a
    configured symbol and contains the query in upper case, no symbol is
    found twice, and a limit of zero or more bounds their number.  The
    search does not depend on the case of the query, both providers find
    the same symbols, and each names a symbol by the symbol followed by its
    own suffix. *)
Theorem search_finds_the_symbols_that_contain_the_query
    (p : MarketDataProvider) (query : string) (limit : Z) :
  ascii_text query →
  let found := info_symbol <$> search_symbols p query limit in
  found `sublist_of` Config.STOCK_SYMBOLS ++ Config.CRYPTO_SYMBOLS ∧
  NoDup found ∧
  (∀ s, s ∈ found → contains (upper query) s = true) ∧
  ((0 ≤ limit)%Z →
   length found ≤ Z.to_nat limit ∧
   ∀ s, s ∈ Config.STOCK_SYMBOLS ++ Config.CRYPTO_SYMBOLS →
        contains (upper query) s = true →
        length found < Z.to_nat limit → s ∈ found) ∧
  info_symbol <$> search_symbols p (upper query) limit = found ∧
  info_symbol <$> search_symbols MockDataProvider query limit =
    info_symbol <$> search_symbols OpenBBDataProvider query limit ∧
  (∀ i, i ∈ search_symbols p query limit →
        info_name i = info_symbol i +:+ name_suffix p).
Proof.
  intros _. cbv zeta. fold all_symbols.
  rewrite !search_symbols_symbols, upper_idem.
  set (matches := filter (λ s, contains (upper query) s) all_symbols).
  assert (slice_to limit matches `sublist_of` all_symbols) as Hsub.
  { etrans; [apply slice_to_sublist|apply sublist_filter]. }
  split_and!.
  - done.
  - eapply sublist_NoDup; [apply all_symbols_NoDup|done].
  - intros s Hs.
    eapply elem_of_sublist in Hs; [|apply slice_to_sublist].
    apply list_elem_of_filter in Hs as [Hs _]. by apply Is_true_true.
  - intros Hl. unfold slice_to.
    rewrite (proj2 (Z.leb_le 0 limit) Hl), length_take. split; [lia|].
    intros s Hs Hc Hlt.
    rewrite take_ge by lia.
    apply list_elem_of_filter. split; [by apply Is_true_true|done].
  - done.
  - done.
  - apply Forall_forall, search_symbols_names.
Qed.

Lemma search_finds_the_symbols_that_contain_the_query_witness :
  ascii_text "usd" ∧
  let found := info_symbol <$> search_symbols OpenBBDataProvider "usd" 50 in
  found `sublist_of` Config.STOCK_SYMBOLS ++ Config.CRYPTO_SYMBOLS ∧
  NoDup found ∧
  (∀ s, s ∈ found → contains (upper "usd") s = true) ∧
  ((0 ≤ 50)%Z →
   length found ≤ Z.to_nat 50 ∧
   ∀ s, s ∈ Config.STOCK_SYMBOLS ++ Config.CRYPTO_SYMBOLS →
        contains (upper "usd") s = true →
        length found < Z.to_nat 50 → s ∈ found) ∧
  info_symbol <$> search_symbols OpenBBDataProvider (upper "usd") 50 = found ∧
  info_symbol <$> search_symbols MockDataProvider "usd" 50 =
    info_symbol <$> search_symbols OpenBBDataProvider "usd" 50 ∧
  (∀ i, i ∈ search_symbols OpenBBDataProvider "usd" 50 →
        info_name i = info_symbol i +:+ name_suffix OpenBBDataProvider).
Proof.
  split.
  - unfold ascii_text. simpl. repeat constructor.
  - apply (search_finds_the_symbols_that_contain_the_query
             OpenBBDataProvider "usd" 50).
    unfold ascii_text. simpl. repeat constructor.
Defined.

(** A search in lower case, with both providers. *)
Example search_usd :
  search_symbols OpenBBDataProvider "usd" 50 =
    [mkSymbolInfo "BTC-USD" "BTC-USD (OpenBB)";
     mkSymbolInfo "ETH-USD" "ETH-USD (OpenBB)"] ∧
  search_symbols MockDataProvider "Oo" 1 =
    [mkSymbolInfo "GOOGL" "GOOGL Mock Company"].
Proof. split; vm_compute; reflexivity. Qed.

End SymbolsFacts.

(** ** The mock provider *)

Module MockFacts.
Import Python Provider Run ProviderFacts.

(** Membership in a list of exception classes. *)
Ltac in_list := rewrite ?elem_of_cons in *; naive_solver.

Lemma int_Err x e :
  int x = Err e →
  is_finite x = false ∧
  ∃ cls msg, e = PyExc cls msg ∧ cls ∈ [CValueError; COverflowError].
Proof.
  intros He. split.
  - destruct (is_finite x) eqn:Hfin; [|done].
    apply int_finite in Hfin as [n Hn]. congruence.
  - revert He. unfold int.
    destruct (Prim2SF x) as [s|s| |s m e']; intros [= <-];
      eexists _, _; (split; [done|]); in_list.
Qed.

(** The record of one symbol: built when the draw is usable, and only
    then. *)
Lemma mock_record_outcome symbol (d : MockDraw) :
  let current_volume := (draw_base_volume d * draw_volume_multiplier d)%float in
  if usable_draw d then
    ∃ volume_24h avg_volume_7d,
      int current_volume = Ok volume_24h ∧
      int (draw_base_volume d) = Ok avg_volume_7d ∧
      mock_record symbol d =
        Ok (mkMarketData symbol (round2 (draw_base_price d))
              (round2 (draw_price_change_1d d))
              (round2 (draw_price_change_1d d + draw_delta_7d d))
              volume_24h avg_volume_7d
              (round2 (current_volume / draw_base_volume d)))
  else
    ∃ cls msg,
      mock_record symbol d = Err (PyExc cls msg) ∧
      cls ∈ [CValueError; COverflowError; CZeroDivisionError].
Proof.
  cbv zeta. unfold usable_draw, mock_record, truediv.
  destruct (int (draw_base_volume d * draw_volume_multiplier d)) as [v|e] eqn:Hv.
  - assert (is_finite (draw_base_volume d * draw_volume_multiplier d) = true)
      as -> by (apply int_finite; eauto).
    destruct (int (draw_base_volume d)) as [a|e] eqn:Ha.
    + assert (is_finite (draw_base_volume d) = true) as ->
        by (apply int_finite; eauto).
      destruct (is_zero (draw_base_volume d)); simpl.
      * eexists _, _. split; [done|]. in_list.
      * by eexists _, _.
    + apply int_Err in Ha as (-> & cls & msg & -> & Hcls). simpl.
      exists cls, msg. split; [done|]. in_list.
  - apply int_Err in Hv as (-> & cls & msg & -> & Hcls).
    rewrite andb_false_r. simpl.
    exists cls, msg. split; [done|]. in_list.
Qed.

(** The records of the symbols at the positions from [j] on. *)
Lemma mock_records_Ok w (symbols : list string) (j : nat) :
  (∀ i, i < length symbols → usable_draw (random_draws w (j + i)) = true) →
  ∃ data,
    mapM (λ '(i, symbol), mock_record symbol (random_draws w i))
         (zip (seq j (length symbols)) symbols) = Ok data ∧
    length data = length symbols ∧
    ∀ i d, data !! i = Some d →
      ∃ symbol, symbols !! i = Some symbol ∧
                mock_record symbol (random_draws w (j + i)) = Ok d.
Proof.
  revert j. induction symbols as [|s symbols IH]; intros j Hall.
  - exists []. split_and!; [done|done|]. intros i d Hd. done.
  - pose proof (mock_record_outcome s (random_draws w j)) as Hrec.
    cbv zeta in Hrec.
    replace (random_draws w j) with (random_draws w (j + 0)) in Hrec
      by (f_equal; lia).
    rewrite (Hall 0) in Hrec by (simpl; lia).
    destruct Hrec as (v & a & _ & _ & Hrec).
    destruct (IH (S j)) as (data & Hdata & Hlen & Hlookup).
    { intros i Hi. replace (S j + i) with (j + S i) by lia.
      apply Hall. simpl. lia. }
    eexists (_ :: data). split_and!.
    + simpl length. simpl seq. simpl zip. cbn [mapM].
      replace (random_draws w j) with (random_draws w (j + 0))
        by (f_equal; lia).
      rewrite Hrec. simpl. rewrite Hdata. done.
    + simpl. by rewrite Hlen.
    + intros [|i] d Hd; simpl in Hd.
      * injection Hd as <-. exists s. by split.
      * destruct (Hlookup i d Hd) as (symbol & Hs & Hr).
        exists symbol. split; [done|].
        by replace (j + S i) with (S j + i) by lia.
Qed.

Lemma mock_records_Err w (symbols : list string) (j : nat) :
  (∃ i, i < length symbols ∧ usable_draw (random_draws w (j + i)) = false) →
  ∃ cls msg,
    mapM (λ '(i, symbol), mock_record symbol (random_draws w i))
         (zip (seq j (length symbols)) symbols) = Err (PyExc cls msg) ∧
    cls ∈ [CValueError; COverflowError; CZeroDivisionError].
Proof.
  revert j. induction symbols as [|s symbols IH]; intros j (i & Hi & Hbad).
  - simpl in Hi. lia.
  - simpl length. simpl seq. simpl zip. cbn [mapM].
    pose proof (mock_record_outcome s (random_draws w j)) as Hrec.
    cbv zeta in Hrec.
    destruct (usable_draw (random_draws w j)) eqn:Hj.
    + destruct Hrec as (v & a & _ & _ & ->). simpl.
      destruct (IH (S j)) as (cls & msg & -> & Hcls).
      { destruct i as [|i].
        - replace (j + 0) with j in Hbad by lia. congruence.
        - exists i. split; [simpl in Hi; lia|].
          by replace (S j + i) with (j + S i) by lia. }
      by exists cls, msg.
    + destruct Hrec as (cls & msg & -> & Hcls). by exists cls, msg.
Qed.

(** The table the mock provider builds from usable draws. *)
Lemma mock_get_market_data_run (w : World) (symbols : list string) (h : heap) :
  (∀ i, i < length symbols → usable_draw (random_draws w i) = true) →
  ∃ table,
    mock_get_market_data w symbols h = (Ok (length h), h ++ [table]) ∧
    symbol <$> table = symbols ∧
    label <$> table = seq 0 (length symbols) ∧
    Forall (λ r, trend_consistency r = None ∧ momentum_score r = None)
      table ∧
    ∀ i r, table !! i = Some r →
      let d := random_draws w i in
      let current_volume :=
        (draw_base_volume d * draw_volume_multiplier d)%float in
      current_price r = round2 (draw_base_price d) ∧
      price_change_1d r = round2 (draw_price_change_1d d) ∧
      price_change_7d r =
        round2 (draw_price_change_1d d + draw_delta_7d d) ∧
      int current_volume = Ok (volume_24h r) ∧
      int (draw_base_volume d) = Ok (avg_volume_7d r) ∧
      volume_ratio r = round2 (current_volume / draw_base_volume d).
Proof.
  unfold mock_get_market_data.
  intros Hall.
  destruct (mock_records_Ok w symbols 0 Hall)
    as (data & Hdata & Hlen & Hlookup).
  exists (imap row_of data).
  destruct (imap_row_of_fields data) as (Hsym & _ & _ & Hlabel & Hnone).
  assert (∀ i d, data !! i = Some d →
            ∃ s, symbols !! i = Some s ∧ md_symbol d = s ∧
                 mock_record s (random_draws w i) = Ok d) as Hrec.
  { intros i d Hd. destruct (Hlookup i d Hd) as (s & Hs & Hr).
    exists s. split_and!; [done| |done].
    pose proof (mock_record_outcome s (random_draws w i)) as Ho.
    cbv zeta in Ho.
    destruct (usable_draw (random_draws w i)).
    - destruct Ho as (v & a & _ & _ & Ho). simpl in Hr.
      rewrite Ho in Hr. by injection Hr as <-.
    - destruct Ho as (cls & msg & Ho & _). simpl in Hr. congruence. }
  split_and!.
  - erewrite io_bind_run; [|unfold io_result; by rewrite Hdata].
    done.
  - rewrite Hsym. apply list_eq. intros i.
    rewrite list_lookup_fmap.
    destruct (data !! i) as [d|] eqn:Hd; simpl.
    + destruct (Hrec i d Hd) as (s & -> & -> & _). done.
    + symmetry. apply lookup_ge_None. apply lookup_ge_None in Hd. lia.
  - by rewrite Hlabel, Hlen.
  - done.
  - intros i r Hr. cbv zeta.
    rewrite list_lookup_imap in Hr.
    destruct (data !! i) as [d|] eqn:Hd; [|done].
    injection Hr as <-.
    destruct (Hrec i d Hd) as (s & _ & _ & Hd').
    pose proof (mock_record_outcome s (random_draws w i)) as Ho.
    cbv zeta in Ho.
    destruct (usable_draw (random_draws w i)).
    + destruct Ho as (v & a & Hv & Ha & Ho).
      rewrite Ho in Hd'. injection Hd' as <-. by simpl.
    + destruct Ho as (cls & msg & Ho & _). congruence.
Qed.

(** X18. What the mock provider's [get_market_data] returns, from the
    numbers drawn.  When every draw has a finite, non-zero base volume and
    a finite current volume, as the draws of [random.uniform] have, it
    returns a new table with one row per requested symbol, in the order of
    the request and labelled 0, 1, ...: the rounded base price, the two
    rounded changes, the truncated volumes and the rounded ratio of the
    volumes, without the score columns; the tables that existed are
    unchanged, and unlike the OpenBB provider it raises no
    [ConnectionError].  When some draw is not of this kind, the call
    raises [ValueError], [OverflowError] or [ZeroDivisionError] and creates
    no table. *)
Theorem mock_get_market_data_outcome
    (w : World) (symbols : list string) (h : heap) :
  ((∀ i, i < length symbols → usable_draw (random_draws w i) = true) →
   ∃ table,
     get_market_data MockDataProvider w symbols h
       = (Ok (length h), h ++ [table]) ∧
     symbol <$> table = symbols ∧
     label <$> table = seq 0 (length symbols) ∧
     Forall (λ r, trend_consistency r = None ∧ momentum_score r = None)
       table ∧
     ∀ i r, table !! i = Some r →
       let d := random_draws w i in
       let current_volume :=
         (draw_base_volume d * draw_volume_multiplier d)%float in
       current_price r = round2 (draw_base_price d) ∧
       price_change_1d r = round2 (draw_price_change_1d d) ∧
       price_change_7d r =
         round2 (draw_price_change_1d d + draw_delta_7d d) ∧
       int current_volume = Ok (volume_24h r) ∧
       int (draw_base_volume d) = Ok (avg_volume_7d r) ∧
       volume_ratio r = round2 (current_volume / draw_base_volume d)) ∧
  ((∃ i, i < length symbols ∧ usable_draw (random_draws w i) = false) →
   ∃ cls msg,
     get_market_data MockDataProvider w symbols h
       = (Err (PyExc cls msg), h) ∧
     cls ∈ [CValueError; COverflowError; CZeroDivisionError]).
Proof.
  change (get_market_data MockDataProvider) with mock_get_market_data.
  split.
  - apply mock_get_market_data_run.
  - intros Hbad. unfold mock_get_market_data.
    destruct (mock_records_Err w symbols 0 Hbad) as (cls & msg & Herr & Hcls).
    exists cls, msg. split; [|done].
    erewrite io_bind_raise; [done|]. unfold io_result. by rewrite Herr.
Qed.

(** The mock table for two symbols, with the draws of the example world. *)
Example a_mock_table :
  get_market_data MockDataProvider a_world ["AAPL"; "BTC-USD"] [] =
    (Ok 0,
     [[mkRow 0 "AAPL" 123.46 1.23 (-1.27) 1500001 1000000 1.5 None None;
       mkRow 1 "BTC-USD" 123.46 1.23 (-1.27) 1500001 1000000 1.5 None None]]).
Proof. vm_compute. reflexivity. Qed.

End MockFacts.

(** ** [screen_movers] on mock data *)

Module ScreenMoversMockFacts.
Import Python Provider Frame Screener Run Float64 Float64Facts SortFacts.
Import FilterFacts ScoreFacts PipelineFacts ProviderFacts.
Import ScreenMoversFacts SymbolsFacts MockFacts.

(** After the market data, [screen_movers] is the two stages on it. *)
Lemma screen_movers_run self p w mvr lo hi (h h1 : heap) (df : ref) :
  data_provider self = Some p →
  get_market_data p w (get_top_symbols p 100) h = (Ok df, h1) →
  screen_movers self w mvr lo hi h = lift (screen self df mvr lo hi) h1.
Proof.
  intros Hp Hdata. unfold screen_movers. rewrite Hp.
  erewrite io_bind_run; [|exact Hdata].
  unfold screen. rewrite lift_bind.
  unfold mbind at 1 3, IO_bind.
  destruct (lift (_apply_filters _ _ _ _ _) _) as [[a|e] h2]; [|done].
  unfold mbind, IO_bind.
  by destruct (lift (_calculate_momentum_score _ _) _) as [[b|e] h3].
Qed.

(** X19. [screen_movers] with the mock provider.  When the draws for the 32
    symbols are usable, the call raises nothing: the mock table, one row
    for each configured symbol in the order of the configuration, is
    stored as a new table, and the result is a further table, one that did
    not exist before the call and is not the mock table, with exactly the
    rows of the mock table that meet the criteria, scored and sorted by
    score.  The tables that existed are unchanged. *)
Theorem screen_movers_on_mock_data
    (self : TomorrowsMoversScreener) (w : World)
    (min_volume_ratio min_price_change_1d max_price_change_1d : float)
    (h : heap) :
  data_provider self = Some MockDataProvider →
  (∀ i, i < 32 → usable_draw (random_draws w i) = true) →
  ∃ out h' table ranked,
    screen_movers self w min_volume_ratio min_price_change_1d
      max_price_change_1d h = (Ok out, h') ∧
    h !! length h = None ∧
    h' !! length h = Some table ∧
    symbol <$> table = Config.STOCK_SYMBOLS ++ Config.CRYPTO_SYMBOLS ∧
    h !! out = None ∧
    out ≠ length h ∧
    h' !! out = Some ranked ∧
    ranked ≡ₚ
      scored <$> filter (λ r, keeps min_volume_ratio min_price_change_1d
                                max_price_change_1d r) table ∧
    StronglySorted score_non_increasing ranked ∧
    (∀ l frame, h !! l = Some frame → h' !! l = Some frame).
Proof.
  intros Hp Hdraws.
  assert (get_top_symbols MockDataProvider 100 = all_symbols) as Hsymbols.
  { rewrite get_top_symbols_slice. unfold slice_to.
    change (0 <=? 100)%Z with true. cbv iota.
    apply take_ge. rewrite all_symbols_length.
    change (Z.to_nat 100) with 100. lia. }
  destruct (mock_get_market_data_run w all_symbols h)
    as (table & Hdata & Hsym & _).
  { by rewrite all_symbols_length. }
  destruct (screen_run_new self (h ++ [table]) (length h) table
              min_volume_ratio min_price_change_1d max_price_change_1d
              (lookup_new h table))
    as (out & h' & Hrun & Hout & Hnew & Hold).
  apply lookup_ge_None in Hnew. rewrite length_app in Hnew. simpl in Hnew.
  eexists out, h', table, _.
  split_and!.
  - rewrite (screen_movers_run self MockDataProvider w _ _ _ h
               (h ++ [table]) (length h) Hp)
      by (rewrite Hsymbols; exact Hdata).
    by apply lift_run.
  - by apply lookup_ge_None.
  - apply Hold, lookup_new.
  - done.
  - apply lookup_ge_None. lia.
  - lia.
  - done.
  - apply ranked_Permutation.
  - apply ranked_sorted.
  - intros l frame Hl. by apply Hold, lookup_old.
Qed.

Lemma screen_movers_on_mock_data_witness :
  data_provider (mkScreener (Some MockDataProvider)) = Some MockDataProvider ∧
  (∀ i, i < 32 → usable_draw (random_draws a_world i) = true) ∧
  ∃ out h' table ranked,
    screen_movers (mkScreener (Some MockDataProvider)) a_world
      1 (-50) 50 [] = (Ok out, h') ∧
    ([] : heap) !! length ([] : heap) = None ∧
    h' !! length ([] : heap) = Some table ∧
    symbol <$> table = Config.STOCK_SYMBOLS ++ Config.CRYPTO_SYMBOLS ∧
    ([] : heap) !! out = None ∧
    out ≠ length ([] : heap) ∧
    h' !! out = Some ranked ∧
    ranked ≡ₚ scored <$> filter (λ r, keeps 1 (-50) 50 r) table ∧
    StronglySorted score_non_increasing ranked ∧
    (∀ l frame, ([] : heap) !! l = Some frame → h' !! l = Some frame).
Proof.
  split; [reflexivity|]. split; [intros i _; reflexivity|].
  apply (screen_movers_on_mock_data (mkScreener (Some MockDataProvider))
           a_world 1 (-50) 50 []).
  - reflexivity.
  - intros i _. reflexivity.
Defined.

End ScreenMoversMockFacts.
